(** * Koubou task-dispatch system: store, scheduling, routing, deliverables

    A shallow embedding of the parts of the koubou-system sources that the
    dispatch specification talks about, followed by the properties proved
    about them.

    - [Stable], [Sql] : a stable sort, and the few SQL idioms the sources use
                        (WHERE, UPDATE, DELETE, ORDER BY, LIMIT, rowcount).
    - [Store]         : [common/database.py], class [DatabaseManager].
    - [Py]            : exceptions and dictionary entries of Python.
    - [Router]        : [workers/enhanced_pool_manager.py], [TaskRouter].
    - [Enhanced]      : same file, [EnhancedWorkerPoolManager].
    - [Pool]          : [workers/worker_pool_manager.py].
    - [Text], [Re]    : Python strings and the regular expressions in use.
    - [Deliverable]   : [common/task_result_manager.py].
    - [Exec], [Api], [LocalWorker] : the empty-prompt paths of
                        [mcp_server.py] and [workers/local_worker.py].
    - [Registry]      : the worker-row calls of [common/database.py] with
                        SQLite's answer at each statement.
    - [WorkerLoop]    : registration, notifications and the main loop of
                        [workers/local_worker.py].
    - [Status], [Review] : [get_task_status] of [mcp_server.py]; the
                        recommendations of [common/task_result_manager.py].

    Conventions.  A table is the list of its rows in rowid (insertion) order.
    SQL [NULL] is [None].  [CURRENT_TIMESTAMP] and [datetime('now')] are the
    clock reading [now], in seconds; the textual timestamps SQLite stores
    compare like these numbers.  Python [int] is [Z]; a Python [float] is an
    exact rational.  Where an operation retries on a locked database, what
    SQLite answers at each attempt is a parameter; every other operation is
    modelled on the path on which the connection raises nothing. *)

From Stdlib Require Import List String Ascii ZArith QArith Bool Lia Arith.
From Stdlib Require Import Sorting.Sorted Sorting.Permutation.
Import ListNotations.

Set Implicit Arguments.
Open Scope string_scope.
Open Scope list_scope.

(* ================================================================== *)
(** * SQL idioms *)

Module Stable.
Section Sort.
Variable A : Type.

(** A stable insertion sort; [le a b] says that [a] may come before [b].
  Elements that tie keep their order.  Both SQLite's [ORDER BY] over a
  rowid scan and Python's [list.sort] (also with [reverse=True]) are
  stable in this sense. *)
Variable le : A -> A -> bool.

Fixpoint insert_by (x : A) (l : list A) : list A :=
match l with
| [] => [x]
| y :: l' => if le x y then x :: l else y :: insert_by x l'
end.

Fixpoint sort_by (l : list A) : list A :=
match l with
| [] => []
| x :: l' => insert_by x (sort_by l')
end.
End Sort.
End Stable.

Module Sql.

Section Table.
Variable row : Type.

(** [UPDATE t SET ... WHERE p]: every row matching [p] is rewritten by [f];
  the other rows, and the order of the table, are untouched. *)
Definition update_where (p : row -> bool) (f : row -> row)
         (t : list row) : list row :=
map (fun r => if p r then f r else r) t.

(** [DELETE FROM t WHERE p]. *)
Definition delete_where (p : row -> bool) (t : list row) : list row :=
filter (fun r => negb (p r)) t.

(** [cursor.rowcount] after an UPDATE or DELETE with condition [p]. *)
Definition rowcount (p : row -> bool) (t : list row) : nat :=
List.length (filter p t).

(** [LIMIT n]. *)
Definition limit (n : nat) (l : list row) : list row := firstn n l.
End Table.

End Sql.

(* ================================================================== *)
(** * The store: [common/database.py] *)

Module Task.
(** A row of [task_master]. *)
Record row := mk {
  task_id     : string;
  content     : string;
  status      : string;
  priority    : Z;
  result      : option string;
  created_by  : option string;
  assigned_to : option string;
  created_at  : Z;
  updated_at  : Z
}.

Definition has_status (st : string) (t : row) : bool :=
  (status t =? st)%string.

(** [assigned_to = ?] with a non-NULL parameter: NULL never matches. *)
Definition assigned_is (w : string) (t : row) : bool :=
  match assigned_to t with
  | Some a => (a =? w)%string
  | None => false
  end.

(** [ORDER BY priority DESC, created_at ASC]. *)
Definition queue_le (a b : row) : bool :=
  (priority b <? priority a)%Z
  || ((priority a =? priority b)%Z && (created_at a <=? created_at b)%Z).

(** [a] is served no later than [b]: higher priority, or the same priority
    and not created after it. *)
Definition no_later (a b : row) : Prop :=
  (priority b < priority a
   \/ (priority b = priority a /\ created_at a <= created_at b))%Z.
End Task.

Module Worker.
(** A row of [workers].  [location] and [performance_factor] are the two
    columns the enhanced pool manager writes next to the ones created by
    [_ensure_database]; they are NULL for rows inserted without them. *)
Record row := mk {
  worker_id          : string;
  status             : string;
  current_task       : option string;
  tasks_completed    : Z;
  tasks_failed       : Z;
  last_heartbeat     : Z;
  created_at         : Z;
  location           : option string;
  performance_factor : option Q
}.

Definition is_worker (w : string) (r : row) : bool :=
  (worker_id r =? w)%string.
End Worker.

Module Notification.
(** A row of [worker_notifications]. *)
Record row := mk {
  worker_id         : string;
  notification_type : string;
  task_id           : option string;
  message           : string;
  processed         : Z;
  created_at        : Z
}.
End Notification.

Module Store.
Import Sql.

Record store := mk {
  task_master          : list Task.row;
  workers              : list Worker.row;
  worker_notifications : list Notification.row
}.

(** ** Retry loops

    [acquire_next_task] and [complete_task_with_stats] run their
    transaction inside [for attempt in range(3)] with two handlers:
    [sqlite3.OperationalError] with "database is locked" retries while
    [attempt < 2], anything else gives up.  What SQLite does at each
    attempt is the environment's choice: [Runs] lets the body run, the other
    two raise at [BEGIN IMMEDIATE], before anything was written. *)
Inductive sqlite_outcome := Runs | Locked | Fails.

(** What one pass through the loop body does when it runs: [continue], or
    [return a] leaving the store [s]. *)
Inductive attempt (A : Type) :=
| Continue
| Return (a : A) (s : store).
Arguments Continue {A}.

Fixpoint retry_from (A : Type) (dflt : A) (body : store -> attempt A)
         (n i : nat) (env : list sqlite_outcome) (s : store) : A * store :=
  match n with
  | O => (dflt, s)
  | S n' =>
      match hd Runs env with
      | Runs =>
          match body s with
          | Continue => retry_from dflt body n' (S i) (tl env) s
          | Return a s' => (a, s')
          end
      | Locked =>
          if (i <? 2)%nat then retry_from dflt body n' (S i) (tl env) s
          else (dflt, s)
      | Fails => (dflt, s)
      end
  end.

(** [for attempt in range(3): try: ... except ...] followed by
    [return dflt]; both handlers return [dflt] too. *)
Definition retry (A : Type) (dflt : A) (body : store -> attempt A)
           (env : list sqlite_outcome) (s : store) : A * store :=
  retry_from dflt body 3 0 env s.

(** SQLite lets the transaction through within the three attempts: some
    attempt runs, and every attempt before it hit a lock. *)
Definition transaction_runs (env : list sqlite_outcome) : Prop :=
  exists k, (k < 3)%nat /\ nth k env Runs = Runs
            /\ forall j, (j < k)%nat -> nth j env Runs = Locked.

(** ** Tasks *)

(** [get_pending_tasks(limit)]; [ORDER BY] is the stable sort. *)
Definition get_pending_tasks (lim : nat) (s : store) : list Task.row :=
  limit lim (Stable.sort_by Task.queue_le
               (filter (Task.has_status "pending") (task_master s))).

(** [assign_task_to_worker(task_id, worker_id)]:
    [UPDATE ... WHERE task_id = ? AND status = 'pending']. *)
Definition assign_cond (tid : string) (t : Task.row) : bool :=
  (Task.task_id t =? tid)%string && Task.has_status "pending" t.

Definition assign_set (wid : string) (now : Z) (t : Task.row) : Task.row :=
  Task.mk (Task.task_id t) (Task.content t) "in_progress" (Task.priority t)
          (Task.result t) (Task.created_by t) (Some wid)
          (Task.created_at t) now.

Definition assign_task_to_worker (now : Z) (tid wid : string) (s : store)
  : bool * store :=
  (negb (rowcount (assign_cond tid) (task_master s) =? 0)%nat,
   mk (update_where (assign_cond tid) (assign_set wid now) (task_master s))
      (workers s) (worker_notifications s)).

(** [get_task_statistics()]: [SELECT status, COUNT( * ) ... GROUP BY status],
    read through [stats.get(st, 0)]. *)
Definition task_count (st : string) (s : store) : Z :=
  Z.of_nat (rowcount (Task.has_status st) (task_master s)).

(** [create_task(task_id, content, priority, created_by)]: the INSERT
    violates the primary key when the id exists ([IntegrityError], return
    False); the same three attempts and handlers as above surround it. *)
Definition create_body (now : Z) (tid content : string) (prio : Z)
           (created_by : string) (s : store) : attempt bool :=
if existsb (fun t => (Task.task_id t =? tid)%string) (task_master s)
then Return false s
else Return true
       (mk (task_master s
            ++ [Task.mk tid content "pending" prio None (Some created_by)
                        None now now])
           (workers s) (worker_notifications s)).

Definition create_task (env : list sqlite_outcome) (now : Z)
           (tid content : string) (prio : Z) (created_by : string)
           (s : store) : bool * store :=
retry false (create_body now tid content prio created_by) env s.

(** [update_task_status(task_id, status, result=None)]. *)
Definition set_status (st : string) (res : option string) (now : Z)
           (t : Task.row) : Task.row :=
Task.mk (Task.task_id t) (Task.content t) st (Task.priority t)
        (match res with Some r => Some r | None => Task.result t end)
        (Task.created_by t) (Task.assigned_to t) (Task.created_at t) now.

Definition update_task_status (now : Z) (tid st : string)
           (res : option string) (s : store) : bool * store :=
let p := fun t => (Task.task_id t =? tid)%string in
(negb (rowcount p (task_master s) =? 0)%nat,
 mk (update_where p (set_status st res now) (task_master s))
    (workers s) (worker_notifications s)).

(** ** Workers *)

(** [datetime('now', '-' || T || ' seconds')].  For a negative [T] the
    modifier reads [--5 seconds], which SQLite rejects: the value is NULL
    and every comparison with it is unknown. *)
Definition cutoff (now T : Z) : option Z :=
  if (T <? 0)%Z then None else Some (now - T)%Z.

(** [last_heartbeat <= datetime('now', ...)]. *)
Definition stale (c : option Z) (w : Worker.row) : bool :=
  match c with
  | Some c => (Worker.last_heartbeat w <=? c)%Z
  | None => false
  end.

(** [last_heartbeat > datetime('now', ...)]. *)
Definition fresh (c : option Z) (w : Worker.row) : bool :=
  match c with
  | Some c => (c <? Worker.last_heartbeat w)%Z
  | None => false
  end.

(** [get_active_workers(timeout_seconds)]. *)
Definition get_active_workers (now T : Z) (s : store) : list Worker.row :=
  filter (fresh (cutoff now T)) (workers s).

Definition set_worker (st : string) (cur : option string) (now : Z)
           (w : Worker.row) : Worker.row :=
  Worker.mk (Worker.worker_id w) st cur (Worker.tasks_completed w)
            (Worker.tasks_failed w) now (Worker.created_at w)
            (Worker.location w) (Worker.performance_factor w).

(** [update_worker_status(worker_id, status, current_task=None)]. *)
Definition update_worker_status (now : Z) (wid st : string)
           (cur : option string) (s : store) : bool * store :=
  (negb (rowcount (Worker.is_worker wid) (workers s) =? 0)%nat,
   mk (task_master s)
      (update_where (Worker.is_worker wid) (set_worker st cur now)
                    (workers s))
      (worker_notifications s)).

(** [register_worker(worker_id)]: the INSERT names [worker_id] and [status]
    only; on a primary-key clash the row is set back to idle instead. *)
Definition register_worker (now : Z) (wid : string) (s : store)
  : bool * store :=
  if (rowcount (Worker.is_worker wid) (workers s) =? 0)%nat
  then (true,
        mk (task_master s)
           (workers s ++ [Worker.mk wid "idle" None 0 0 now now None None])
           (worker_notifications s))
  else update_worker_status now wid "idle" None s.

(** [cleanup_dead_workers(timeout_seconds)]: the UPDATE of [task_master]
    with [assigned_to IN (SELECT worker_id FROM workers WHERE ...)], then
    the DELETE on [workers]; returns the DELETE's rowcount. *)
Definition dead_ids (c : option Z) (s : store) : list string :=
  map Worker.worker_id (filter (stale c) (workers s)).

Definition orphaned (ids : list string) (t : Task.row) : bool :=
  match Task.assigned_to t with
  | Some a => existsb (String.eqb a) ids
  | None => false
  end
  && Task.has_status "in_progress" t.

Definition release (t : Task.row) : Task.row :=
  Task.mk (Task.task_id t) (Task.content t) "pending" (Task.priority t)
          (Task.result t) (Task.created_by t) None
          (Task.created_at t) (Task.updated_at t).

Definition cleanup_dead_workers (now T : Z) (s : store) : nat * store :=
  let c := cutoff now T in
  let tasks' := update_where (orphaned (dead_ids c s)) release
                             (task_master s) in
  (rowcount (stale c) (workers s),
   mk tasks' (delete_where (stale c) (workers s))
      (worker_notifications s)).

(** ** Atomic claim and completion *)

(** The dictionary [acquire_next_task] returns. *)
Record claimed := mk_claimed {
  c_task_id    : string;
  c_content    : string;
  c_priority   : Z;
  c_created_at : Z
}.

Definition claim_worker (tid : string) (now : Z) (w : Worker.row)
  : Worker.row := set_worker "busy" (Some tid) now w.

Definition acquire_body (now : Z) (wid : string) (s : store)
  : attempt (option claimed) :=
  match limit 1 (Stable.sort_by Task.queue_le
                   (filter (Task.has_status "pending") (task_master s))) with
  | [] => Return None s
  | r :: _ =>
      let tid := Task.task_id r in
      if (rowcount (assign_cond tid) (task_master s) =? 0)%nat
      then Continue
      else Return
             (Some (mk_claimed tid (Task.content r) (Task.priority r)
                               (Task.created_at r)))
             (mk (update_where (assign_cond tid) (assign_set wid now)
                               (task_master s))
                 (update_where (Worker.is_worker wid) (claim_worker tid now)
                               (workers s))
                 (worker_notifications s))
  end.

Definition acquire_next_task (env : list sqlite_outcome) (now : Z)
           (wid : string) (s : store) : option claimed * store :=
  retry None (acquire_body now wid) env s.

Definition complete_cond (tid wid : string) (t : Task.row) : bool :=
  (Task.task_id t =? tid)%string && Task.assigned_is wid t.

Definition complete_set (st res : string) (now : Z) (t : Task.row)
  : Task.row :=
  Task.mk (Task.task_id t) (Task.content t) st (Task.priority t)
          (Some res) (Task.created_by t) (Task.assigned_to t)
          (Task.created_at t) now.

Definition count_task (success : bool) (now : Z) (w : Worker.row)
  : Worker.row :=
  Worker.mk (Worker.worker_id w) "idle" None
            (if success then Worker.tasks_completed w + 1
             else Worker.tasks_completed w)%Z
            (if success then Worker.tasks_failed w
             else Worker.tasks_failed w + 1)%Z
            now (Worker.created_at w)
            (Worker.location w) (Worker.performance_factor w).

Definition complete_body (now : Z) (tid wid res : string) (success : bool)
           (s : store) : attempt bool :=
  let st := if success then "completed" else "failed" in
  if (rowcount (complete_cond tid wid) (task_master s) =? 0)%nat
  then Return false s
  else Return true
         (mk (update_where (complete_cond tid wid) (complete_set st res now)
                           (task_master s))
             (update_where (Worker.is_worker wid) (count_task success now)
                           (workers s))
             (worker_notifications s)).

Definition complete_task_with_stats (env : list sqlite_outcome) (now : Z)
           (tid wid res : string) (success : bool) (s : store)
  : bool * store :=
  retry false (complete_body now tid wid res success) env s.

(** ** Lookups and heartbeats *)

(** [get_task(task_id)]: the first row [fetchone] finds. *)
Definition get_task (tid : string) (s : store) : option Task.row :=
find (fun t => (Task.task_id t =? tid)%string) (task_master s).

(** [update_worker_heartbeat(worker_id)]. *)
Definition beat (now : Z) (w : Worker.row) : Worker.row :=
Worker.mk (Worker.worker_id w) (Worker.status w) (Worker.current_task w)
          (Worker.tasks_completed w) (Worker.tasks_failed w) now
          (Worker.created_at w) (Worker.location w)
          (Worker.performance_factor w).

Definition update_worker_heartbeat (now : Z) (wid : string) (s : store)
  : bool * store :=
(negb (rowcount (Worker.is_worker wid) (workers s) =? 0)%nat,
 mk (task_master s)
    (update_where (Worker.is_worker wid) (beat now) (workers s))
    (worker_notifications s)).

(** The primary keys of the two tables. *)
Definition task_ids (s : store) : list string :=
map Task.task_id (task_master s).

Definition worker_ids (s : store) : list string :=
map Worker.worker_id (workers s).

(** A pending task is assigned to nobody. *)
Definition pending_unassigned (s : store) : Prop :=
forall t, In t (task_master s) -> Task.status t = "pending" ->
          Task.assigned_to t = None.

(** The tasks the workers have finished, by outcome, as their rows count
    them. *)
Definition total_completed (s : store) : Z :=
fold_right (fun w acc => (Worker.tasks_completed w + acc)%Z) 0%Z (workers s).

Definition total_failed (s : store) : Z :=
fold_right (fun w acc => (Worker.tasks_failed w + acc)%Z) 0%Z (workers s).

End Store.

(* ================================================================== *)
(** * Python values *)

Module Py.
(** The two exceptions the routing code can raise on dictionaries of the
    shapes modelled here. *)
Inductive exn := TypeError | UnboundLocalError.

Inductive result (A : Type) :=
| Ret (a : A)
| Raise (e : exn).
Arguments Raise {A} e.

Definition bind (A B : Type) (m : result A) (k : A -> result B)
  : result B :=
  match m with
  | Ret a => k a
  | Raise e => Raise e
  end.

(** A dictionary entry as [d.get(key, default)] sees it: the key is
    missing, or it holds [None], or it holds a value. *)
Inductive field (A : Type) :=
| Missing
| PyNone
| Has (a : A).
Arguments Missing {A}.
Arguments PyNone {A}.

(** [d.get(key, default)] used as a number: [None] raises [TypeError] as
    soon as it meets [*], [+] or [<=]. *)
Definition number (A : Type) (dflt : A) (f : field A) : result A :=
  match f with
  | Missing => Ret dflt
  | PyNone => Raise TypeError
  | Has a => Ret a
  end.


(** SQL NULL read into a dictionary literal. *)
Definition of_null (A : Type) (o : option A) : field A :=
  match o with
  | Some a => Has a
  | None => PyNone
  end.

(** Truth value of an optional string: [None] and [''] are false. *)
Definition truthy (o : option string) : bool :=
  match o with
  | Some s => negb (s =? "")%string
  | None => false
  end.

Fixpoint mapM (A B : Type) (f : A -> result B) (l : list A)
  : result (list B) :=
  match l with
  | [] => Ret []
  | x :: l' =>
      bind (f x) (fun y => bind (mapM f l') (fun ys => Ret (y :: ys)))
  end.
End Py.

Notation "x <- m ;; k" := (Py.bind m (fun x => k))
  (at level 61, m at next level, right associativity).

(* ================================================================== *)
(** * The router: [workers/enhanced_pool_manager.py], class [TaskRouter]

    Scores are Python floats in the source; here they are exact rationals,
    so the rounding of IEEE doubles is not modelled. *)

Module Router.
Import Py.

(** A worker dictionary as [get_available_workers] builds it.
    [status] is read with [w.get('status')], where a missing key and
    [None] are the same. *)
Record worker := mk_worker {
  worker_id          : string;
  status             : option string;
  location           : field string;
  performance_factor : field Q;
  tasks_completed    : field Z;
  tasks_failed       : field Z
}.

(** The task dictionary; [task_id] is only logged by the router. *)
Record task := mk_task {
  task_id          : option string;
  priority         : field Z;
  preferred_worker : option string
}.

(** One entry of [routing_policy['rules']]; [None] is a missing key. *)
Record rule := mk_rule {
  priority_range    : option (Z * Z);
  preferred_workers : option (list string);
  fallback_to_local : option bool
}.

Definition status_is (st : string) (w : worker) : bool :=
  match status w with
  | Some s => (s =? st)%string
  | None => false
  end.

(** [w.get('location', 'local') == 'local']. *)
Definition is_local (w : worker) : bool :=
  match location w with
  | Missing => true
  | PyNone => false
  | Has l => (l =? "local")%string
  end.

(** [_match_worker_type]. *)
Definition match_worker_type (worker_type : string) (w : worker) : bool :=
  if (worker_type =? "local")%string then is_local w
  else if (worker_type =? "remote")%string then negb (is_local w)
  else true.

(** [_calculate_worker_score]. *)
Definition calculate_worker_score (w : worker) : result Q :=
  pf <- number 1%Q (performance_factor w) ;;
  let score := (0 + pf * 100)%Q in
  let score :=
    if status_is "idle" w then (score + 50)%Q
    else if status_is "busy" w then (score - 30)%Q
    else score in
  c <- number 0%Z (tasks_completed w) ;;
  f <- number 0%Z (tasks_failed w) ;;
  let total_tasks := (c + f)%Z in
  if (0 <? total_tasks)%Z
  then
    let success_rate := (inject_Z c / inject_Z total_tasks)%Q in
    Ret (score + success_rate * 30)%Q
  else Ret score.

(** [scores.sort(key=lambda x: x[1], reverse=True)]. *)
Definition by_score_desc (a b : string * Q) : bool :=
  Qle_bool (snd b) (snd a).

(** The pair [(worker['worker_id'], score)] appended for one candidate. *)
Definition scored (w : worker) : result (string * Q) :=
  sc <- calculate_worker_score w ;; Ret (worker_id w, sc).

(** [_select_best_worker]. *)
Definition select_best_worker (candidates : list worker)
  : result (option string) :=
  match candidates with
  | [] => Ret None
  | _ =>
      scores <- mapM scored candidates ;;
      match Stable.sort_by by_score_desc scores with
      | (wid, _) :: _ => Ret (Some wid)
      | [] => Ret None
      end
  end.

(** [priority_range[0] <= priority <= priority_range[1]]. *)
Definition in_range (r : rule) (p : Z) : bool :=
  let '(lo, hi) := match priority_range r with
                   | Some pr => pr
                   | None => (1, 10)%Z
                   end in
  (lo <=? p)%Z && (p <=? hi)%Z.

Definition nonempty (A : Type) (l : list A) : bool :=
  match l with [] => false | _ => true end.

(** What the loop over a rule's [preferred_workers] leaves behind: either
    the function returned, or the loop ended with the local variable
    [candidates] bound to the last list built ([None] while it was never
    assigned). *)
Inductive loop_exit :=
| Returned (r : option string)
| Fell (candidates : option (list worker)).

Fixpoint types_loop (available : list worker) (types : list string)
         (candidates : option (list worker)) : result loop_exit :=
  match types with
  | [] => Ret (Fell candidates)
  | worker_type :: rest =>
      let cs := filter (match_worker_type worker_type) available in
      if nonempty cs
      then
        selected <- select_best_worker cs ;;
        if truthy selected then Ret (Returned selected)
        else types_loop available rest (Some cs)
      else types_loop available rest (Some cs)
  end.

(** The loop over [self.rules], followed by the default. *)
Fixpoint rules_loop (available : list worker) (p : result Z)
         (rules : list rule) (candidates : option (list worker))
  : result (option string) :=
  match rules with
  | [] =>
      Ret (match available with
           | w :: _ => Some (worker_id w)
           | [] => None
           end)
  | r :: rest =>
      prio <- p ;;
      if in_range r prio
      then
        ex <- types_loop available
                (match preferred_workers r with Some l => l | None => [] end)
                candidates ;;
        match ex with
        | Returned sel => Ret sel
        | Fell cands =>
            if match fallback_to_local r with Some b => b | None => false end
            then
              match cands with
              | None => Raise UnboundLocalError
              | Some cs =>
                  if nonempty cs then rules_loop available p rest cands
                  else
                    let local_workers := filter is_local available in
                    if nonempty local_workers
                    then select_best_worker local_workers
                    else rules_loop available p rest cands
              end
            else rules_loop available p rest cands
        end
      else rules_loop available p rest candidates
  end.

(** [route_task]. *)
Definition route_task (rules : list rule) (t : task)
           (available_workers : list worker) : result (option string) :=
  match available_workers with
  | [] => Ret None
  | _ =>
      let preferred_available :=
        match preferred_worker t with
        | Some p =>
            filter (fun w => (worker_id w =? p)%string) available_workers
        | None => []
        end in
      if truthy (preferred_worker t) && nonempty preferred_available
      then Ret (preferred_worker t)
      else
        let local_workers := filter is_local available_workers in
        let remote_workers :=
          filter (fun w => negb (is_local w)) available_workers in
        let local_idle := filter (status_is "idle") local_workers in
        let after_remote :=
          rules_loop available_workers (number 5%Z (priority t)) rules None in
        if negb (nonempty local_idle) && nonempty remote_workers
        then
          best_remote <- select_best_worker remote_workers ;;
          if truthy best_remote then Ret best_remote else after_remote
        else after_remote
  end.

(** The numeric entries of a worker dictionary hold numbers (or are
    missing), and the two counters are not negative. *)
Definition well_typed (w : worker) : Prop :=
performance_factor w <> PyNone
/\ tasks_completed w <> PyNone /\ tasks_failed w <> PyNone.


(** The score of the specification: 100 times the performance factor,
    plus 50 for an idle worker, minus 30 for a busy one, plus 30 times the
    success rate. *)
Definition success_rate (completed failed : Z) : Q :=
  if (completed + failed =? 0)%Z then 0%Q
  else (inject_Z completed / inject_Z (completed + failed))%Q.

End Router.

(* ================================================================== *)
(** * The enhanced pool manager: [workers/enhanced_pool_manager.py],
      class [EnhancedWorkerPoolManager] *)

Module Enhanced.
Import Sql Py.

(** [get_available_workers]: idle rows with a heartbeat in the last 60
    seconds, each turned into the dictionary the router reads. *)
Definition available (now : Z) (w : Worker.row) : bool :=
  (Worker.status w =? "idle")%string
  && (now - 60 <=? Worker.last_heartbeat w)%Z.

Definition as_dict (w : Worker.row) : Router.worker :=
  Router.mk_worker (Worker.worker_id w) (Some (Worker.status w))
                   (of_null (Worker.location w))
                   (of_null (Worker.performance_factor w))
                   (Has (Worker.tasks_completed w))
                   (Has (Worker.tasks_failed w)).

Definition get_available_workers (now : Z) (s : Store.store)
  : list Router.worker :=
  map as_dict (filter (available now) (Store.workers s)).

(** [UPDATE workers SET status = 'busy', current_task = ?
     WHERE worker_id = ?]: the heartbeat is left alone. *)
Definition mark_busy (tid : option string) (w : Worker.row) : Worker.row :=
  Worker.mk (Worker.worker_id w) "busy" tid (Worker.tasks_completed w)
            (Worker.tasks_failed w) (Worker.last_heartbeat w)
            (Worker.created_at w) (Worker.location w)
            (Worker.performance_factor w).

(** [UPDATE task_master SET status = 'in_progress', assigned_to = ?
     WHERE task_id = ?]; a [None] task id compares as NULL. *)
Definition task_is (tid : option string) (t : Task.row) : bool :=
  match tid with
  | Some i => (Task.task_id t =? i)%string
  | None => false
  end.

Definition hand_over (wid : string) (t : Task.row) : Task.row :=
  Task.mk (Task.task_id t) (Task.content t) "in_progress" (Task.priority t)
          (Task.result t) (Task.created_by t) (Some wid)
          (Task.created_at t) (Task.updated_at t).

(** [notify_worker_task_assignment]. *)
Definition notify_worker_task_assignment (now : Z) (wid : string)
           (tid : option string) (s : Store.store) : Store.store :=
  let shown := match tid with Some i => i | None => "None" end in
  Store.mk (Store.task_master s) (Store.workers s)
           (Store.worker_notifications s
            ++ [Notification.mk wid "task_assigned" tid
                  ("Task " ++ shown ++ " assigned - process immediately")%string
                  0 now]).

(** [assign_task_to_worker(task)]. *)
Definition assign_task_to_worker (rules : list Router.rule) (now : Z)
           (t : Router.task) (s : Store.store)
  : result (option string * Store.store) :=
  match get_available_workers now s with
  | [] => Ret (None, s)
  | available_workers =>
      selected <- Router.route_task rules t available_workers ;;
      match selected with
      | Some wid =>
          if (wid =? "")%string then Ret (None, s)
          else
            let tid := Router.task_id t in
            let s1 :=
              Store.mk
                (update_where (task_is tid) (hand_over wid)
                              (Store.task_master s))
                (update_where (Worker.is_worker wid) (mark_busy tid)
                              (Store.workers s))
                (Store.worker_notifications s) in
            Ret (Some wid, notify_worker_task_assignment now wid tid s1)
      | None => Ret (None, s)
      end
  end.

(** The rows of [monitor_loop]'s SELECT, as the task dictionaries the loop
    builds from them. *)
Definition as_task (t : Task.row) : Router.task :=
  Router.mk_task (Some (Task.task_id t)) (Has (Task.priority t)) None.

Definition read_pending (s : Store.store) : list Router.task :=
  map as_task (Store.get_pending_tasks 10 s).
End Enhanced.

(* ================================================================== *)
(** * The pool manager: [workers/worker_pool_manager.py],
      class [WorkerPoolManager] *)

Module Pool.
Import Sql.

(** What the manager does to worker processes. *)
Inductive event :=
| Spawn (worker_id : string)
| Terminate (worker_id : string).

(** The manager's fields, the database it talks to, the processes it
    started or stopped so far, and how many worker ids it has drawn from
    the clock. *)
Record state := mk {
  min_workers      : Z;
  max_workers      : Z;
  max_active_tasks : Z;
  workers          : list string;
  db               : Store.store;
  log              : list event;
  minted           : nat
}.

Definition is_spawn (e : event) : bool :=
  match e with Spawn _ => true | Terminate _ => false end.

Definition spawns (l : list event) : nat := List.length (filter is_spawn l).

Section Manager.
(** [worker_<timestamp>]: the id the clock gives to the n-th spawn. *)
Variable mint : nat -> string.
Variable now : Z.

Definition get_pending_task_count (st : state) : Z :=
  Store.task_count "pending" (db st).

Definition get_active_task_count (st : state) : Z :=
  (Store.task_count "in_progress" (db st)
   + Store.task_count "processing" (db st))%Z.

Definition get_active_worker_count (st : state) : Z :=
  Z.of_nat (List.length (Store.get_active_workers now 60 (db st))).

Definition get_idle_workers (st : state) : list string :=
  map Worker.worker_id
      (filter (fun w => (Worker.status w =? "idle")%string)
              (Store.get_active_workers now 30 (db st))).

(** [self.workers[worker_id] = process]. *)
Definition remember (wid : string) (l : list string) : list string :=
  if existsb (String.eqb wid) l then l else l ++ [wid].

(** [spawn_worker()]. *)
Definition spawn_worker (st : state) : state :=
  let wid := mint (minted st) in
  mk (min_workers st) (max_workers st) (max_active_tasks st)
     (remember wid (workers st))
     (snd (Store.register_worker now wid (db st)))
     (log st ++ [Spawn wid])
     (S (minted st)).

(** [shutdown_worker(worker_id)]. *)
Definition shutdown_worker (wid : string) (st : state) : state :=
  let known := existsb (String.eqb wid) (workers st) in
  mk (min_workers st) (max_workers st) (max_active_tasks st)
     (if known
      then filter (fun w => negb (w =? wid)%string) (workers st)
      else workers st)
     (snd (Store.update_worker_status now wid "offline" None (db st)))
     (if known then log st ++ [Terminate wid] else log st)
     (minted st).

Fixpoint repeat_spawn (n : nat) (st : state) : state :=
  match n with
  | O => st
  | S n' => repeat_spawn n' (spawn_worker st)
  end.

(** [scale_workers()]. *)
Definition scale_workers (st : state) : state :=
  let pending_tasks := get_pending_task_count st in
  let active_tasks := get_active_task_count st in
  let active_workers := get_active_worker_count st in
  if (max_active_tasks st <=? active_tasks)%Z then st
  else if (0 <? pending_tasks)%Z && (active_workers =? 0)%Z
  then spawn_worker st
  else if (0 <? pending_tasks)%Z
          && (active_tasks <? max_active_tasks st)%Z
          && (active_workers <? max_workers st)%Z
  then
    let available_slots := (max_active_tasks st - active_tasks)%Z in
    let workers_needed :=
      Z.min (Z.min pending_tasks available_slots)
            (max_workers st - active_workers) in
    if (0 <? workers_needed)%Z
    then repeat_spawn (Z.to_nat workers_needed) st
    else st
  else if (pending_tasks =? 0)%Z && (min_workers st <? active_workers)%Z
  then
    let workers_to_remove := (active_workers - min_workers st)%Z in
    let idle_workers := get_idle_workers st in
    if (0 <? workers_to_remove)%Z && Router.nonempty idle_workers
    then fold_left (fun acc wid => shutdown_worker wid acc)
                   (firstn (Z.to_nat workers_to_remove) idle_workers) st
    else st
  else st.

(** [cleanup_dead_workers()] of the manager: every process that has
    exited is marked offline in the database and forgotten. *)
Variable exited : string -> bool.

Definition mark_offline (w : Worker.row) : Worker.row :=
  Worker.mk (Worker.worker_id w) "offline" (Worker.current_task w)
            (Worker.tasks_completed w) (Worker.tasks_failed w)
            (Worker.last_heartbeat w) (Worker.created_at w)
            (Worker.location w) (Worker.performance_factor w).

Definition cleanup_dead_workers (st : state) : state :=
  let dead_workers := filter exited (workers st) in
  mk (min_workers st) (max_workers st) (max_active_tasks st)
     (filter (fun w => negb (exited w)) (workers st))
     (Store.mk (Store.task_master (db st))
               (update_where
                  (fun w => existsb (String.eqb (Worker.worker_id w))
                                    dead_workers)
                  mark_offline (Store.workers (db st)))
               (Store.worker_notifications (db st)))
     (log st) (minted st).

(** One pass of the loop in [run()]; printing is left out. *)
Definition tick (st : state) : state :=
  cleanup_dead_workers (scale_workers st).
End Manager.
End Pool.

(* ================================================================== *)
(** * Python text

    A Python [str] is a sequence of Unicode code points. *)

Module Text.

Definition str := list N.

(** Literals are written as UTF-8 and decoded here. *)
Fixpoint bytes (s : string) : list N :=
match s with
| EmptyString => []
| String a s' => N_of_ascii a :: bytes s'
end.

Fixpoint decode (bs : list N) : str :=
match bs with
| [] => []
| b :: rest =>
    if (b <? 128)%N then b :: decode rest
    else if (b <? 224)%N then
      match rest with
      | b1 :: rest1 => ((b - 192) * 64 + (b1 - 128))%N :: decode rest1
      | [] => []
      end
    else if (b <? 240)%N then
      match rest with
      | b1 :: b2 :: rest2 =>
          ((b - 224) * 4096 + (b1 - 128) * 64 + (b2 - 128))%N :: decode rest2
      | _ => []
      end
    else
      match rest with
      | b1 :: b2 :: b3 :: rest3 =>
          ((b - 240) * 262144 + (b1 - 128) * 4096 + (b2 - 128) * 64
           + (b3 - 128))%N :: decode rest3
      | _ => []
      end
end.

Definition lit (s : string) : str := decode (bytes s).

Fixpoint eqb (a b : str) : bool :=
match a, b with
| [], [] => true
| x :: a', y :: b' => (x =? y)%N && eqb a' b'
| _, _ => false
end.

(** [s.startswith(p)]. *)
Fixpoint starts_with (p s : str) : bool :=
match p, s with
| [], _ => true
| x :: p', y :: s' => (x =? y)%N && starts_with p' s'
| _ :: _, [] => false
end.

(** [p in s]. *)
Fixpoint contains (p s : str) : bool :=
starts_with p s
|| match s with
   | [] => false
   | _ :: s' => contains p s'
   end.

(** [s.endswith(p)]. *)
Definition ends_with (p s : str) : bool := starts_with (rev p) (rev s).

(** [any(k in s for k in keywords)]. *)
Definition any_in (keywords : list str) (s : str) : bool :=
existsb (fun k => contains k s) keywords.

(** [sep.join(parts)]. *)
Fixpoint join (sep : str) (parts : list str) : str :=
match parts with
| [] => []
| [p] => p
| p :: rest => p ++ sep ++ join sep rest
end.

(** [str.isspace] on one code point, which is also what [\s] matches. *)
Definition is_space (c : N) : bool :=
((9 <=? c) && (c <=? 13) || (28 <=? c) && (c <=? 32)
 || (c =? 133) || (c =? 160) || (c =? 5760)
 || (8192 <=? c) && (c <=? 8202)
 || (c =? 8232) || (c =? 8233) || (c =? 8239) || (c =? 8287)
 || (c =? 12288))%N.

Fixpoint lstrip (s : str) : str :=
match s with
| c :: s' => if is_space c then lstrip s' else s
| [] => []
end.

(** [s.strip()]. *)
Definition strip (s : str) : str := rev (lstrip (rev (lstrip s))).


Section Word.
(** [str.isalnum] on a code point outside ASCII: the table of the Unicode
    database, not reproduced here. *)
Variable unicode_alnum : N -> bool.

(** What [\w] matches. *)
Definition is_word (c : N) : bool :=
if (c <? 128)%N
then ((48 <=? c) && (c <=? 57) || (65 <=? c) && (c <=? 90)
      || (c =? 95) || (97 <=? c) && (c <=? 122))%N
else unicode_alnum c.
End Word.

End Text.

(* ================================================================== *)
(** * Regular expressions

    The fragment of Python's [re] that [task_result_manager.py] uses:
    sequences of single characters and character classes, greedy [*], [+]
    and [?] over them, one capturing group, [^] and [$] without flags.  The
    matcher tries alternatives in Python's order (greedy first, then
    backtracking) and returns the first success. *)

Module Re.
Import Text.

Inductive atom :=
| Chr (p : N -> bool)     (** one character of a class, or a literal one *)
| Star (p : N -> bool)    (** [p*] *)
| Opt (p : N -> bool)     (** [p?] *)
| Open                    (** [(] *)
| Close                   (** [)] *)
| Bol                     (** [^] *)
| Eol.                    (** [$] *)

Definition just (c : N) : N -> bool := N.eqb c.

(** [p+] is [p p*]. *)
Definition plus (p : N -> bool) : list atom := [Chr p; Star p].

(** The literal characters of [s], in a row. *)
Definition chars (s : string) : list atom := map (fun c => Chr (just c)) (lit s).

(** Group 1 while matching: not entered yet, being read (characters in
    reverse), or closed. *)
Inductive capture :=
| Unset
| Reading (acc : str)
| Captured (s : str).

Definition push (c : N) (cap : capture) : capture :=
match cap with
| Reading acc => Reading (c :: acc)
| _ => cap
end.

Definition close (cap : capture) : capture :=
match cap with
| Reading acc => Captured (rev acc)
| _ => cap
end.

Definition group1 (cap : capture) : str :=
match cap with
| Captured s => s
| _ => []
end.

Section Matcher.
Variable A : Type.

(** [p*] followed by [k]: take as many characters as possible, give back
    one at a time while [k] fails.  [bol] tells whether the position is
    still the start of the subject. *)
Fixpoint star (p : N -> bool) (k : bool -> capture -> str -> option A)
         (bol : bool) (cap : capture) (s : str) : option A :=
match s with
| c :: s' =>
    if p c
    then match star p k false (push c cap) s' with
         | Some r => Some r
         | None => k bol cap s
         end
    else k bol cap s
| [] => k bol cap s
end.
End Matcher.

(** Match [r] at the head of [s]: the capture and what is left of [s]. *)
Fixpoint match_here (r : list atom) (bol : bool) (cap : capture) (s : str)
  : option (capture * str) :=
match r with
| [] => Some (cap, s)
| Chr p :: r' =>
    match s with
    | c :: s' => if p c then match_here r' false (push c cap) s' else None
    | [] => None
    end
| Star p :: r' => star p (match_here r') bol cap s
| Opt p :: r' =>
    match s with
    | c :: s' =>
        if p c
        then match match_here r' false (push c cap) s' with
             | Some res => Some res
             | None => match_here r' bol cap s
             end
        else match_here r' bol cap s
    | [] => match_here r' bol cap s
    end
| Open :: r' => match_here r' bol (Reading []) s
| Close :: r' => match_here r' bol (close cap) s
| Bol :: r' => if bol then match_here r' bol cap s else None
| Eol :: r' =>
    match s with
    | [] => match_here r' bol cap s
    | [c] => if (c =? 10)%N then match_here r' bol cap s else None
    | _ => None
    end
end.

(** A match that consumed at least one character. *)
Definition advance (r : list atom) (bol : bool) (s : str)
  : option (str * str) :=
match match_here r bol Unset s with
| Some (cap, rest) =>
    if (List.length rest <? List.length s)%nat
    then Some (group1 cap, rest)
    else None
| None => None
end.

(** [re.split(r, s)] for a pattern with one group that matches no empty
    string: the text before the first match, then for each match its group
    and the text up to the next match.  [cur] holds, in reverse, the text
    read since the last match. *)
Fixpoint split_from (r : list atom) (fuel : nat) (bol : bool) (cur : str)
         (s : str) : list str :=
match fuel with
| O => [rev cur ++ s]
| S fuel' =>
    match s with
    | [] => [rev cur]
    | c :: s' =>
        match advance r bol s with
        | Some (g, rest) => rev cur :: g :: split_from r fuel' false [] rest
        | None => split_from r fuel' false (c :: cur) s'
        end
    end
end.

Definition split (r : list atom) (s : str) : list str :=
split_from r (S (List.length s)) true [] s.

(** [re.sub(r, '', s)]: every match, leftmost first, is cut out. *)
Fixpoint cut_from (r : list atom) (fuel : nat) (bol : bool) (s : str) : str :=
match fuel with
| O => s
| S fuel' =>
    match s with
    | [] => []
    | c :: s' =>
        match advance r bol s with
        | Some (_, rest) => cut_from r fuel' false rest
        | None => c :: cut_from r fuel' false s'
        end
    end
end.

Definition cut (r : list atom) (s : str) : str :=
cut_from r (S (List.length s)) true s.

End Re.

(* ================================================================== *)
(** * Deliverables: [common/task_result_manager.py],
      class [TaskResultManager] *)

Module Deliverable.
Import Text Re.

Definition nl : str := [10%N].

(** A text given line by line, lines joined by a newline. *)
Definition lines (l : list str) : str := join nl l.

Section Extractor.
Variable unicode_alnum : N -> bool.

(** [str.lower]; on ASCII text it is [Text.ascii_lower]. *)
Variable lower : str -> str.

(** ** [_infer_task_type] *)


(** ** [_save_formatted_result] *)

Definition word : N -> bool := is_word unicode_alnum.

(** [[^\s-]] and [[^\s=]]. *)
Definition no_space_nor (x : N) (c : N) : bool :=
negb (is_space c) && negb (c =? x)%N.

(** [---\s*([^\s-]+\.\w+)\s*---] *)
Definition file_pattern : list atom :=
chars "---" ++ [Star is_space; Open] ++ plus (no_space_nor 45)
  ++ [Chr (just 46)] ++ plus word ++ [Close; Star is_space] ++ chars "---".

(** [//\s*=+\s*([^\s=]+\.\w+)\s*=+] *)
Definition section_pattern : list atom :=
chars "//" ++ [Star is_space] ++ plus (just 61) ++ [Star is_space; Open]
  ++ plus (no_space_nor 61) ++ [Chr (just 46)] ++ plus word
  ++ [Close; Star is_space] ++ plus (just 61).

(** [/\*\s*=+\s*([^\s=]+\.\w+)\s*=+\s*\*/] *)
Definition block_pattern : list atom :=
chars "/*" ++ [Star is_space] ++ plus (just 61) ++ [Star is_space; Open]
  ++ plus (no_space_nor 61) ++ [Chr (just 46)] ++ plus word
  ++ [Close; Star is_space] ++ plus (just 61) ++ [Star is_space]
  ++ chars "*/".

(** [^```\w*\n?] and [\n?```$]. *)
Definition fence_open : list atom :=
Bol :: chars "```" ++ [Star word; Opt (just 10)].

Definition fence_close : list atom :=
Opt (just 10) :: chars "```" ++ [Eol].

(** The two [re.sub] calls that delete the code-block markers. *)
Definition strip_fences (content : str) : str :=
cut fence_close (cut fence_open content).

(** The loop [for i in range(1, len(sections), 2)] over what follows
    [sections[0]]: each file name with the content that is written. *)
Fixpoint files_of (sections : list str) : list (str * str) :=
match sections with
| name :: body :: rest =>
    (strip name, strip_fences (strip body)) :: files_of rest
| _ => []
end.

Definition extract (pattern : list atom) (result_text : str)
  : list (str * str) :=
match split pattern result_text with
| _ :: rest => files_of rest
| [] => []
end.

Definition ok_or (yes no : string) (success : bool) : str :=
if success then lit yes else lit no.

Definition readme_content (task_id timestamp : str) (success : bool)
           (files_created : list str) : str :=
lines
  [lit "# 🔨 職人作業成果 - Web開発";
   lit "Task ID: " ++ task_id;
   lit "Generated: " ++ timestamp;
   lit "Status: " ++ ok_or "✅ Success" "❌ Failed" success;
   [];
   lit "## 生成されたファイル";
   join nl (map (fun f => lit "- " ++ f) files_created);
   [];
   lit "## 使用方法";
   lit "1. すべてのファイルを同じディレクトリに配置";
   lit "2. "
     ++ (if existsb (eqb (lit "index.html")) files_created
         then lit "index.html"
         else match files_created with
              | f :: _ => f
              | [] => lit "HTMLファイル"
              end)
     ++ lit "をブラウザで開く";
   [];
   lit "## 親方確認事項";
   lit "- [ ] コードの動作確認";
   lit "- [ ] セキュリティチェック";
   lit "- [ ] ブラウザ互換性確認";
   lit "- [ ] レスポンシブデザイン確認";
   []].

Definition code_header (task_id timestamp : str) (success : bool) : str :=
lines
  [lit "# 🔨 職人作業成果 - コード生成";
   lit "# Task ID: " ++ task_id;
   lit "# Generated: " ++ timestamp;
   lit "# Status: " ++ ok_or "✅ Success" "❌ Failed" success;
   lit "# ";
   lit "# 親方確認要：このコードをプロジェクトに統合する前に";
   lit "# 動作確認、コードレビューを実施してください";
   [];
   []].

Definition analysis_header (task_id timestamp : str) (success : bool) : str :=
lines
  [lit "# 📊 データ分析レポート";
   [];
   lit "**タスクID:** " ++ task_id ++ lit "  ";
   lit "**作成日時:** " ++ timestamp ++ lit "  ";
   lit "**ステータス:** " ++ ok_or "✅ 成功" "❌ 失敗" success ++ lit "  ";
   lit "**担当職人:** システム職人";
   [];
   lit "> 🚨 **親方確認要**: この分析結果を意思決定に使用する前に、データの正確性とロジックを確認してください";
   [];
   lit "---";
   [];
   []].

Definition translation_header (task_id timestamp : str) (success : bool)
  : str :=
lines
  [lit "📝 翻訳作業成果";
   lit "================";
   lit "Task ID: " ++ task_id;
   lit "作成日時: " ++ timestamp;
   lit "ステータス: " ++ ok_or "成功" "失敗" success;
   [];
   lit "🔍 親方確認ポイント:";
   lit "- 専門用語の統一性";
   lit "- 文脈の適切性  ";
   lit "- 顧客要件との整合性";
   [];
   lit "---";
   [];
   []].

Definition error_header (task_id timestamp : str) (success : bool) : str :=
lines
  [lit "🚨 エラーハンドリング実行ログ";
   lit "====================================";
   lit "[" ++ timestamp ++ lit "] TASK EXECUTION REPORT";
   lit "Task ID: " ++ task_id;
   lit "Status: " ++ ok_or "SUCCESS" "FAILED" success;
   [];
   lit "親方チェック項目:";
   lit "- システム安定性への影響";
   lit "- 根本原因の対策必要性";
   lit "- 再発防止策の検討";
   [];
   lit "詳細ログ:";
   lit "---";
   []].

Definition text_header (task_id task_type timestamp : str) (success : bool)
  : str :=
lines
  [lit "📄 職人作業成果";
   lit "================";
   lit "Task ID: " ++ task_id;
   lit "タイプ: " ++ task_type;
   lit "作成日時: " ++ timestamp;
   lit "ステータス: " ++ ok_or "成功" "失敗" success;
   [];
   lit "📋 親方確認事項:";
   lit "- 要求仕様との適合性";
   lit "- 品質基準の充足";
   lit "- 顧客提出前の最終チェック";
   [];
   lit "---";
   lit "成果物内容:";
   [];
   []].

(** The first file whose name ends in [.html], else the first file. *)
Definition main_of (files_created : list str) : option str :=
match find (ends_with (lit ".html")) files_created with
| Some f => Some f
| None => hd_error files_created
end.

(** [_save_formatted_result]: the name of the main file and the files
    written into [output_dir], in the order they are written (a name
    written twice is overwritten). *)
Definition save_formatted_result (result_text task_id task_type
                                  timestamp : str) (success : bool)
  : str * list (str * str) :=
if eqb task_type (lit "code_generation")
then
  let by_dashes := extract file_pattern result_text in
  let by_slashes :=
    if Router.nonempty by_dashes then by_dashes
    else extract section_pattern result_text in
  let written :=
    if Router.nonempty by_slashes then by_slashes
    else extract block_pattern result_text in
  let files_created := map fst written in
  if Router.nonempty files_created
  then
    (match main_of files_created with
     | Some f => f
     | None => lit "README.md"
     end,
     written
       ++ [(lit "README.md",
            readme_content task_id timestamp success files_created)])
  else
    let output_file := task_id ++ lit "_result.py" in
    (output_file,
     [(output_file, code_header task_id timestamp success ++ result_text)])
else if eqb task_type (lit "data_analysis")
then
  let output_file := task_id ++ lit "_analysis.md" in
  (output_file,
   [(output_file, analysis_header task_id timestamp success ++ result_text)])
else if eqb task_type (lit "translation")
then
  let output_file := task_id ++ lit "_translation.txt" in
  (output_file,
   [(output_file,
     translation_header task_id timestamp success ++ result_text)])
else if eqb task_type (lit "error_handling")
then
  let output_file := task_id ++ lit "_error_log.txt" in
  (output_file,
   [(output_file, error_header task_id timestamp success ++ result_text)])
else
  let output_file := task_id ++ lit "_deliverable.txt" in
  (output_file,
   [(output_file,
     text_header task_id task_type timestamp success ++ result_text)]).

End Extractor.

(** Three dashes in a row: the mark a file section starts and ends with. *)
Definition dashes : str := Eval vm_compute in lit "---".

(** ** [_assess_quality] *)

Definition quotes3 : str := [34; 34; 34]%N.

Definition assess_quality (result_text task_type : str) : Z :=
let score := 70%Z in
let score := if (50 <? List.length result_text)%nat
             then (score + 10)%Z else score in
let score := if (200 <? List.length result_text)%nat
             then (score + 5)%Z else score in
let score :=
  if eqb task_type (lit "code_generation")
  then
    let score := if contains (lit "def ") result_text
                    || contains (lit "class ") result_text
                 then (score + 10)%Z else score in
    if contains quotes3 result_text || contains (lit "'''") result_text
    then (score + 5)%Z else score
  else if eqb task_type (lit "data_analysis")
  then
    let score := if contains (lit "##") result_text
                 then (score + 10)%Z else score in
    if any_in [lit "結論"; lit "推奨"; lit "分析"] result_text
    then (score + 5)%Z else score
  else score in
Z.min score 100.

End Deliverable.

(* ================================================================== *)
(** * Task execution: [mcp_server.py] and [workers/local_worker.py] *)

Module Exec.

(** The dictionary [{'success', 'output', 'error'}]. *)
Record outcome := mk_outcome {
  success : bool;
  output  : string;
  error   : option string
}.

(** The store together with the prompts handed to the Executor so far. *)
Record world := mk_world {
  db             : Store.store;
  executor_calls : list string
}.

(** [if not prompt]: [None] and [''] are false. *)
Definition empty (prompt : option string) : bool := negb (Py.truthy prompt).

End Exec.

Module Api.
Import Exec.

(** The JSON body of [POST /task/delegate]; [None] is a missing key. *)
Record request := mk_request {
  type_       : option string;
  content     : option string;
  prompt      : option string;
  files       : option (list string);
  output_file : option string;
  options     : option string;
  priority    : option Z;
  sync        : option bool
}.

(** What [request.get_json(force=True)] gives. *)
Inductive parsed :=
| Invalid (why : string)
| Json (data : request).

(** [task_content] as [delegate_task] builds it. *)
Record task_content := mk_content {
  tc_type        : string;
  tc_prompt      : string;
  tc_files       : list string;
  tc_output_file : option string;
  tc_options     : option string
}.

Inductive body :=
| Error (msg : string)
| Delegated (task_id : string)
| Completed (task_id : string) (result : outcome).

Record response := mk_response {
  code    : Z;
  payload : body
}.

(** [if not data]: a dictionary without keys. *)
Definition no_keys (d : request) : bool :=
match type_ d, content d, prompt d, files d with
| None, None, None, None =>
    match output_file d, options d, priority d, sync d with
    | None, None, None, None => true
    | _, _, _, _ => false
    end
| _, _, _, _ => false
end.

Definition get (A : Type) (o : option A) (dflt : A) : A :=
match o with
| Some a => a
| None => dflt
end.

Section Server.
(** [json.dumps] of the task content and of a result, the run of
    [gemini-exec.sh] on a prompt with all its handlers, the outcomes of
    SQLite, the task id drawn from the clock, and the clock. *)
Variable dumps_content : task_content -> string.
Variable dumps_outcome : outcome -> string.
Variable gemini_exec : string -> outcome.
Variable env : list Store.sqlite_outcome.
Variable task_id : string.
Variable now : Z.

(** [execute_task_sync]. *)
Definition execute_task_sync (tc : task_content) (w : world)
  : outcome * world :=
if (tc_prompt tc =? "")%string
then (mk_outcome false "" (Some "No prompt provided"), w)
else (gemini_exec (tc_prompt tc),
      mk_world (db w) (executor_calls w ++ [tc_prompt tc])).

(** [delegate_task]; the git auto-save that precedes it touches neither the
    store nor the Executor. *)
Definition delegate_task (req : parsed) (w : world) : response * world :=
match req with
| Invalid why => (mk_response 400 (Error ("Invalid JSON: " ++ why)%string), w)
| Json data =>
    if no_keys data
    then (mk_response 400 (Error "No JSON data provided"), w)
    else
      let tc := mk_content (get (type_ data) "general")
                           (get (content data) (get (prompt data) ""))
                           (get (files data) [])
                           (output_file data) (options data) in
      if (tc_prompt tc =? "")%string
      then (mk_response 400 (Error "No prompt provided"), w)
      else
        let '(created, db1) :=
          Store.create_task env now task_id (dumps_content tc)
                            (get (priority data) 5%Z) "claude_code" (db w) in
        if negb created
        then (mk_response 500 (Error "Failed to create task"),
              mk_world db1 (executor_calls w))
        else if get (sync data) false
        then
          let '(result, w1) :=
            execute_task_sync tc (mk_world db1 (executor_calls w)) in
          let db2 :=
            snd (Store.update_task_status now task_id "completed"
                   (Some (dumps_outcome result)) (db w1)) in
          (mk_response 200 (Completed task_id result),
           mk_world db2 (executor_calls w1))
        else (mk_response 200 (Delegated task_id),
              mk_world db1 (executor_calls w))
end.
End Server.
End Api.

Module LocalWorker.
Import Exec.

(** [task['content']] as [process_task] reads it. *)
Record task_content := mk_content {
  type_       : option string;
  prompt      : option string;
  files       : option (list string);
  output_file : option string
}.

Section Worker.
(** [config.validate_file_operation] (it looks at the file system), the
    Executor [run_gemini_task_with_files], the worker's id and the clock. *)
Variable validate_file_operation : string -> bool * string.
Variable run_gemini_task_with_files :
  string -> list string -> option string -> outcome.
Variable worker_id : string.
Variable now : Z.

Definition refused (error_msg : string) : outcome :=
mk_outcome false ""
           (Some ("Security validation failed: " ++ error_msg)%string).

(** The loop over [input_files]: the first path that fails validation. *)
Fixpoint first_invalid (paths : list string) : option string :=
match paths with
| [] => None
| file_path :: rest =>
    let '(is_valid, error_msg) := validate_file_operation file_path in
    if is_valid then first_invalid rest else Some error_msg
end.

(** [process_task(task)]: the result, and the world it leaves.  The
    deliverable files saved at the end are not part of this state. *)
Definition process_task (task_id : string) (tc : task_content) (w : world)
  : outcome * world :=
let input_files := Api.get (files tc) [] in
match first_invalid input_files with
| Some error_msg => (refused error_msg, w)
| None =>
    match (if Py.truthy (output_file tc)
           then first_invalid [Api.get (output_file tc) ""]
           else None) with
    | Some error_msg => (refused error_msg, w)
    | None =>
        if empty (prompt tc)
        then (mk_outcome false "" (Some "Prompt is empty"), w)
        else
          let p := Api.get (prompt tc) "" in
          let db1 :=
            snd (Store.update_worker_status now worker_id "processing"
                   (Some task_id) (db w)) in
          let result :=
            run_gemini_task_with_files p input_files (output_file tc) in
          (mk_outcome (success result) (output result) (error result),
           mk_world db1 (executor_calls w ++ [p]))
    end
end.
End Worker.
End LocalWorker.

(* ================================================================== *)
(** * The worker table under lock errors: [common/database.py]

    The three calls that write one worker row, with what SQLite answers at
    each statement. *)

Module Registry.
Import Sql.

(** [update_worker_status(worker_id, status, current_task)] with its three
    attempts. *)
Definition update_worker_status (env : list Store.sqlite_outcome) (now : Z)
           (wid st : string) (cur : option string) (s : Store.store)
  : bool * Store.store :=
Store.retry false
  (fun s0 =>
     Store.Return (fst (Store.update_worker_status now wid st cur s0))
                  (snd (Store.update_worker_status now wid st cur s0)))
  env s.

(** [register_worker(worker_id)]: [ins] is what SQLite does at the INSERT.
    An [IntegrityError] hands over to [update_worker_status]; any other
    error returns False. *)
Definition register_worker (ins : Store.sqlite_outcome)
           (env : list Store.sqlite_outcome) (now : Z) (wid : string)
           (s : Store.store) : bool * Store.store :=
match ins with
| Store.Runs =>
    if (rowcount (Worker.is_worker wid) (Store.workers s) =? 0)%nat
    then (true,
          Store.mk (Store.task_master s)
                   (Store.workers s
                    ++ [Worker.mk wid "idle" None 0 0 now now None None])
                   (Store.worker_notifications s))
    else update_worker_status env now wid "idle" None s
| _ => (false, s)
end.

(** [update_worker_heartbeat(worker_id)]: one attempt. *)
Definition update_worker_heartbeat (o : Store.sqlite_outcome) (now : Z)
           (wid : string) (s : Store.store) : bool * Store.store :=
match o with
| Store.Runs => Store.update_worker_heartbeat now wid s
| _ => (false, s)
end.
End Registry.

(* ================================================================== *)
(** * The worker's main loop: [workers/local_worker.py],
      class [GeminiLocalWorker] *)

Module WorkerLoop.
Import Sql Exec.

Section Loop.
(** The worker's id, the clock, [json.loads] on a task's content ([None]
    when it raises [JSONDecodeError]; the content of a task is a JSON
    object), [json.dumps] of a result dictionary, read as a function of
    its [success], [output] and [error] entries as [LocalWorker] has them,
    and the two functions [process_task] calls. *)
Variable worker_id : string.
Variable now : Z.
Variable loads : string -> option LocalWorker.task_content.
Variable dumps : outcome -> string.
Variable validate_file_operation : string -> bool * string.
Variable run_gemini_task_with_files :
  string -> list string -> option string -> outcome.

(** [register_worker()]: the DELETE of the worker's old row, whose failure
    is only logged, then [db.register_worker]. *)
Definition register_worker (del ins : Store.sqlite_outcome)
           (env : list Store.sqlite_outcome) (s : Store.store)
  : Store.store :=
let s1 :=
  match del with
  | Store.Runs =>
      Store.mk (Store.task_master s)
               (delete_where (Worker.is_worker worker_id) (Store.workers s))
               (Store.worker_notifications s)
  | _ => s
  end in
snd (Registry.register_worker ins env now worker_id s1).

(** [worker_id = ? AND notification_type = 'task_assigned'
     AND processed = 0]. *)
Definition unread (n : Notification.row) : bool :=
(Notification.worker_id n =? worker_id)%string
&& (Notification.notification_type n =? "task_assigned")%string
&& (Notification.processed n =? 0)%Z.

(** [ORDER BY created_at ASC]. *)
Definition oldest_first (a b : Notification.row) : bool :=
(Notification.created_at a <=? Notification.created_at b)%Z.

(** [worker_id = ? AND task_id = ? AND notification_type = 'task_assigned'];
    a NULL on either side of [task_id = ?] matches nothing. *)
Definition told (tid : option string) (n : Notification.row) : bool :=
(Notification.worker_id n =? worker_id)%string
&& match tid, Notification.task_id n with
   | Some a, Some b => (b =? a)%string
   | _, _ => false
   end
&& (Notification.notification_type n =? "task_assigned")%string.

Definition mark_processed (n : Notification.row) : Notification.row :=
Notification.mk (Notification.worker_id n) (Notification.notification_type n)
                (Notification.task_id n) (Notification.message n) 1
                (Notification.created_at n).

(** [check_for_task_notifications()]: any error is logged and gives
    [None]. *)
Definition check_for_task_notifications (o : Store.sqlite_outcome)
           (s : Store.store) : option string * Store.store :=
match o with
| Store.Runs =>
    match limit 1 (Stable.sort_by oldest_first
                     (filter unread (Store.worker_notifications s))) with
    | row :: _ =>
        (Notification.task_id row,
         Store.mk (Store.task_master s) (Store.workers s)
                  (update_where (told (Notification.task_id row))
                                mark_processed
                                (Store.worker_notifications s)))
    | [] => (None, s)
    end
| _ => (None, s)
end.

(** [task_id = ? AND assigned_to = ? AND status = 'in_progress']. *)
Definition mine (tid : string) (t : Task.row) : bool :=
(Task.task_id t =? tid)%string
&& Task.assigned_is worker_id t
&& Task.has_status "in_progress" t.

(** [get_assigned_task(task_id)]: the task id with the decoded content. *)
Definition get_assigned_task (o : Store.sqlite_outcome) (tid : string)
           (s : Store.store) : option (string * LocalWorker.task_content) :=
match o with
| Store.Runs =>
    match find (mine tid) (Store.task_master s) with
    | Some row =>
        let content_str :=
          if (Task.content row =? "")%string then "{}"
          else Task.content row in
        match loads content_str with
        | Some c => Some (tid, c)
        | None => None
        end
    | None => None
    end
| _ => None
end.

(** [update_task_result(task_id, result)]: the deliverable files it saves
    first are not part of this state. *)
Definition update_task_result (env : list Store.sqlite_outcome)
           (tid : string) (result : outcome) (s : Store.store)
  : Store.store :=
snd (Store.complete_task_with_stats env now tid worker_id (dumps result)
                                    (success result) s).

(** The state of the loop in [run()]: the world and [heartbeat_counter]. *)
Record loop := mk_loop {
  world_of          : world;
  heartbeat_counter : nat
}.

(** One pass through the body of [while True]. *)
Definition step (o_check o_get : Store.sqlite_outcome)
           (env_beat env_done : list Store.sqlite_outcome) (l : loop)
  : loop :=
let w := world_of l in
let '(assigned_task_id, s1) := check_for_task_notifications o_check (db w) in
if Py.truthy assigned_task_id
then
  match get_assigned_task o_get (Api.get assigned_task_id "") s1 with
  | Some (tid, tc) =>
      let '(result, w1) :=
        LocalWorker.process_task validate_file_operation
                                 run_gemini_task_with_files worker_id now
                                 tid tc
                                 (mk_world s1 (executor_calls w)) in
      mk_loop (mk_world (update_task_result env_done tid result (db w1))
                        (executor_calls w1))
              (heartbeat_counter l)
  | None => mk_loop (mk_world s1 (executor_calls w)) (heartbeat_counter l)
  end
else
  let heartbeat_counter := S (heartbeat_counter l) in
  if (10 <=? heartbeat_counter)%nat
  then
    mk_loop (mk_world
               (snd (Registry.update_worker_status env_beat now worker_id
                                                   "idle" None s1))
               (executor_calls w))
            0
  else mk_loop (mk_world s1 (executor_calls w)) heartbeat_counter.
End Loop.
End WorkerLoop.

(* ================================================================== *)
(** * Task status: [mcp_server.py], [get_task_status] *)

Module Status.
Import Exec.

Section Server.
(** The JSON values, and [json.loads] on a stored result ([None] when it
    raises). *)
Variable json : Type.
Variable loads : string -> option json.

Inductive report :=
| Found (task_id status : string) (result : option json)
        (created_at updated_at : Z)
| NotFound
| Crashed.

Definition get_task_status (task_id : string) (w : world) : Z * report :=
match Store.get_task task_id (db w) with
| Some task_data =>
    match Task.result task_data with
    | Some r =>
        if (r =? "")%string
        then (200%Z, Found task_id (Task.status task_data) None
                           (Task.created_at task_data)
                           (Task.updated_at task_data))
        else
          match loads r with
          | Some v => (200%Z, Found task_id (Task.status task_data) (Some v)
                                    (Task.created_at task_data)
                                    (Task.updated_at task_data))
          | None => (500%Z, Crashed)
          end
    | None => (200%Z, Found task_id (Task.status task_data) None
                            (Task.created_at task_data)
                            (Task.updated_at task_data))
    end
| None => (404%Z, NotFound)
end.
End Server.
End Status.

(* ================================================================== *)
(** * The review summary: [common/task_result_manager.py],
      [_generate_recommendations] *)

Module Review.
Import Text.

(** The five recommendations. *)
Inductive advice := Urgent | Excellent | Good | Check | Improve.

Definition advice_text (a : advice) : str :=
match a with
| Urgent => lit "🚨 **緊急**: タスクが失敗しています。エラー内容を確認し、再実行を検討してください。"
| Excellent => lit "🎉 **優秀**: 高品質な成果物です。最終確認後、承認可能です。"
| Good => lit "👍 **良好**: 良質な成果物です。細部確認後、承認を検討してください。"
| Check => lit "📝 **要確認**: 基準を満たしていますが、品質向上の余地があります。"
| Improve => lit "⚠️ **要改善**: 品質基準を下回っています。修正または再作業を推奨します。"
end.

Definition recommendation (quality_score : Z) (success : bool) : advice :=
if negb success then Urgent
else if (90 <=? quality_score)%Z then Excellent
else if (80 <=? quality_score)%Z then Good
else if (70 <=? quality_score)%Z then Check
else Improve.

(** [_generate_recommendations(quality_score, success, task_type)]. *)
Definition generate_recommendations (quality_score : Z) (success : bool)
           (task_type : str) : str :=
advice_text (recommendation quality_score success).

End Review.

(* ================================================================== *)
(** * Sample states

    Small stores and dictionaries on which the operations are run below. *)

Module Sample.

Definition task (id st : string) (prio : Z) (who : option string) (at_ : Z)
  : Task.row :=
Task.mk id "{}" st prio None (Some "claude_code") who at_ at_.

Definition worker (id st : string) (cur : option string)
           (completed failed heartbeat : Z) : Worker.row :=
Worker.mk id st cur completed failed heartbeat 0 (Some "local") (Some 1%Q).

(** Three pending tasks and one idle worker. *)
Definition queue : Store.store :=
Store.mk [task "T1" "pending" 9 None 1; task "T2" "pending" 5 None 2;
          task "T3" "pending" 9 None 3]
         [worker "w1" "idle" None 0 0 100] [].

(** A task in progress at [w1]. *)
Definition running : Store.store :=
Store.mk [task "t1" "in_progress" 5 (Some "w1") 10]
         [worker "w1" "busy" (Some "t1") 0 0 100] [].

(** A task [w1] has already completed. *)
Definition finished : Store.store :=
Store.mk [task "t1" "completed" 5 (Some "w1") 10]
         [worker "w1" "idle" None 1 0 100] [].

(** A task in progress at a worker last heard of at time 10. *)
Definition orphan : Store.store :=
Store.mk [task "t1" "in_progress" 5 (Some "w1") 1]
         [worker "w1" "busy" (Some "t1") 0 0 10] [].

(** One pending task and two idle workers with fresh heartbeats. *)
Definition race : Store.store :=
Store.mk [task "t1" "pending" 5 None 1]
         [worker "w1" "idle" None 0 0 50; worker "w2" "idle" None 0 0 50] [].

(** A manager with [max_active_tasks = 1] over a store with one task in
    progress and one pending. *)
Definition saturated : Pool.state :=
Pool.mk 1 5 1 ["w1"]
        (Store.mk [task "t1" "in_progress" 5 (Some "w1") 1;
                   task "t2" "pending" 5 None 2]
                  [worker "w1" "busy" (Some "t1") 0 0 100] [])
        [] 1.

Definition mint (n : nat) : string :=
match n with
| O => "worker_20250101_120000_0"
| S O => "worker_20250101_120005_0"
| _ => "worker_20250101_120010_0"
end.

(** Router inputs. *)
Definition local_idle : Router.worker :=
Router.mk_worker "w1" (Some "idle") (Py.Has "local") (Py.Has 1%Q)
                 (Py.Has 3%Z) (Py.Has 1%Z).

Definition remote_busy : Router.worker :=
Router.mk_worker "w2" (Some "busy") (Py.Has "remote") (Py.Has (1 # 2)%Q)
                 (Py.Has 0%Z) (Py.Has 0%Z).

Definition plain_task : Router.task :=
Router.mk_task (Some "t1") (Py.Has 5%Z) None.

(** A second idle local worker with the score of [local_idle], and a remote
    one that is idle. *)
Definition local_twin : Router.worker :=
Router.mk_worker "w3" (Some "idle") (Py.Has "local") (Py.Has 1%Q)
                 (Py.Has 3%Z) (Py.Has 1%Z).

Definition remote_idle : Router.worker :=
Router.mk_worker "w4" (Some "idle") (Py.Has "remote") (Py.Has (1 # 2)%Q)
                 (Py.Has 0%Z) (Py.Has 0%Z).

Definition local_busy : Router.worker :=
Router.mk_worker "w5" (Some "busy") (Py.Has "local") (Py.Has 1%Q)
                 (Py.Has 0%Z) (Py.Has 0%Z).

(** A rule that sends every priority to local workers. *)
Definition local_only : Router.rule :=
Router.mk_rule (Some (1, 10)%Z) (Some ["local"]) (Some false).

(** A rule that only says [fallback_to_local: true]. *)
Definition fallback_only : Router.rule :=
Router.mk_rule None None (Some true).



Definition html_section : Text.str :=
Text.lit "
```html
<html></html>
```
".

Definition css_section : Text.str :=
Text.lit "
body{}
".


(** No code point outside ASCII counts as alphanumeric: enough for ASCII
    inputs. *)
Definition ascii_only (c : N) : bool := false.

(** The delegate request of scenario S5. *)
Definition empty_prompt_request : Api.request :=
Api.mk_request (Some "general") None (Some "") None None None (Some 5%Z)
               (Some true).

Definition world0 : Exec.world := Exec.mk_world queue [].

Definition empty_prompt_task : LocalWorker.task_content :=
LocalWorker.mk_content (Some "general") (Some "") (Some ["src/a.py"]) None.

(** A task handed to [w1], with its notification still unread. *)
Definition dispatched : Store.store :=
Store.mk [task "t1" "in_progress" 5 (Some "w1") 1]
         [worker "w1" "busy" (Some "t1") 0 0 50]
         [Notification.mk "w1" "task_assigned" (Some "t1")
            "Task t1 assigned - process immediately" 0 60].

(** A worker's parameters: every path is valid, the Executor succeeds
    with no output, and results are written as [ok] or [failed]. *)
Definition any_path (path : string) : bool * string := (true, "").

Definition no_path (path : string) : bool * string :=
(false, "Path outside project").

Definition quiet_executor (prompt : string) (files : list string)
           (output_file : option string) : Exec.outcome :=
Exec.mk_outcome true "" None.

Definition short_dumps (r : Exec.outcome) : string :=
if Exec.success r then "ok" else "failed".

Definition count_task : LocalWorker.task_content :=
LocalWorker.mk_content (Some "general") (Some "Count the files")
                       (Some ["src/a.py"]) None.

(** Two delegate requests with a prompt, and a server whose Executor
    fails. *)
Definition hello_request : Api.request :=
Api.mk_request None (Some "Say hello") None None None None None None.


Definition failing_exec (prompt : string) : Exec.outcome :=
Exec.mk_outcome false "" (Some "Gemini CLI task execution timed out").

Definition content_dumps (tc : Api.task_content) : string :=
Api.tc_prompt tc.

End Sample.

(* ================================================================== *)
(** * Properties *)

(** ** SQL idioms *)

Section SqlFacts.
Import Sql.
Variable row : Type.
Implicit Types (p : row -> bool) (f : row -> row) (t : list row).

Lemma rowcount_zero p t :
  rowcount p t = 0%nat <-> forall r, In r t -> p r = false.
Proof.
  unfold rowcount. induction t as [|x t IH]; simpl.
  - split; [intros _ r []| reflexivity].
  - destruct (p x) eqn:E; simpl.
    + split; [discriminate|]. intros H.
      rewrite (H x (or_introl eq_refl)) in E. discriminate.
    + rewrite IH. split.
      * intros H r [<-|Hr]; auto.
      * intros H r Hr. apply H. now right.
Qed.

Lemma rowcount_pos p t r :
  In r t -> p r = true -> (rowcount p t =? 0)%nat = false.
Proof.
  intros Hin Hp. apply Nat.eqb_neq. intros H0.
  rewrite rowcount_zero in H0. rewrite (H0 r Hin) in Hp. discriminate.
Qed.

Lemma update_where_none p f t :
  (forall r, In r t -> p r = false) -> update_where p f t = t.
Proof.
  unfold update_where. induction t as [|x t IH]; simpl; intros H.
  - reflexivity.
  - rewrite (H x (or_introl eq_refl)). f_equal. apply IH.
    intros r Hr. apply H. now right.
Qed.

Lemma update_where_nth p f t i r :
  nth_error t i = Some r ->
  nth_error (update_where p f t) i = Some (if p r then f r else r).
Proof.
  intros H. unfold update_where.
  now rewrite nth_error_map, H.
Qed.

Lemma update_where_split p f l1 r l2 :
  p r = true ->
  (forall x, In x l1 -> p x = false) ->
  (forall x, In x l2 -> p x = false) ->
  update_where p f (l1 ++ r :: l2) = l1 ++ f r :: l2.
Proof.
  intros Hr H1 H2. unfold update_where.
  rewrite map_app. simpl. rewrite Hr.
  fold (update_where p f l1). fold (update_where p f l2).
  now rewrite !update_where_none.
Qed.

Lemma delete_where_In p t r :
  In r (delete_where p t) <-> In r t /\ p r = false.
Proof.
  unfold delete_where. rewrite filter_In.
  now rewrite negb_true_iff.
Qed.

Lemma rowcount_delete p t :
  (rowcount p t + List.length (delete_where p t) = List.length t)%nat.
Proof.
  unfold rowcount, delete_where.
  induction t as [|x t IH]; simpl; [reflexivity|].
  destruct (p x); simpl; lia.
Qed.

Lemma rowcount_after_delete p t : rowcount p (delete_where p t) = 0%nat.
Proof.
  apply rowcount_zero. intros r Hr.
  now apply delete_where_In in Hr.
Qed.

Lemma delete_where_none p t :
  (forall r, In r t -> p r = false) -> delete_where p t = t.
Proof.
  unfold delete_where. induction t as [|x t IH]; simpl; intros H.
  - reflexivity.
  - rewrite (H x (or_introl eq_refl)). simpl. f_equal. apply IH.
    intros r Hr. apply H. now right.
Qed.

(** *** ORDER BY *)

Variable le : row -> row -> bool.
Hypothesis le_total : forall a b, le a b = true \/ le b a = true.
Hypothesis le_trans :
  forall a b c, le a b = true -> le b c = true -> le a c = true.

Let leP (a b : row) : Prop := le a b = true.

Lemma insert_by_In x l y : In y (Stable.insert_by le x l) <-> y = x \/ In y l.
Proof.
  induction l as [|z l IH]; simpl.
  - intuition.
  - destruct (le x z); simpl; [intuition|].
    rewrite IH. intuition.
Qed.

Lemma sort_by_In l y : In y (Stable.sort_by le l) <-> In y l.
Proof.
  induction l as [|x l IH]; simpl; [tauto|].
  rewrite insert_by_In, IH. intuition.
Qed.

Lemma insert_by_sorted x l :
  StronglySorted leP l -> StronglySorted leP (Stable.insert_by le x l).
Proof.
  induction 1 as [|z l Hs IH Hz]; simpl.
  - repeat constructor.
  - destruct (le x z) eqn:E.
    + constructor; [now constructor|].
      constructor; [exact E|].
      eapply Forall_impl; [|exact Hz].
      intros b Hb. exact (le_trans E Hb).
    + constructor; [exact IH|].
      apply Forall_forall. intros b Hb.
      apply insert_by_In in Hb. destruct Hb as [->|Hb].
      * destruct (le_total x z) as [H|H]; [congruence|exact H].
      * rewrite Forall_forall in Hz. now apply Hz.
Qed.

Lemma sort_by_sorted l : StronglySorted leP (Stable.sort_by le l).
Proof.
  induction l as [|x l IH]; simpl; [constructor|].
  now apply insert_by_sorted.
Qed.

(** The first row [ORDER BY ... LIMIT 1] returns is a row of the table
    that may come before every other. *)
Lemma sort_by_head l r rest :
  Stable.sort_by le l = r :: rest ->
  In r l /\ forall y, In y l -> le r y = true.
Proof.
  intros H. split.
  - apply sort_by_In. rewrite H. now left.
  - intros y Hy. apply sort_by_In in Hy. rewrite H in Hy.
    pose proof (sort_by_sorted l) as Hs. rewrite H in Hs.
    apply StronglySorted_inv in Hs. destruct Hs as [_ Hall].
    destruct Hy as [<-|Hy].
    + destruct (le_total r r); assumption.
    + rewrite Forall_forall in Hall. now apply Hall.
Qed.

Lemma sort_by_nil l : Stable.sort_by le l = [] -> l = [].
Proof.
  destruct l as [|x l]; [reflexivity|]. intros H.
  assert (Hin : In x (Stable.sort_by le (x :: l))) by (apply sort_by_In; now left).
  rewrite H in Hin. destruct Hin.
Qed.
End SqlFacts.

(** ** The store *)

Section StoreFacts.
Import Sql Store.

Lemma rowcount_witness (row : Type) (p : row -> bool) (t : list row) :
  (rowcount p t =? 0)%nat = false -> exists r, In r t /\ p r = true.
Proof.
  unfold rowcount. induction t as [|x t IH]; simpl.
  - discriminate.
  - destruct (p x) eqn:E.
    + intros _. exists x. auto.
    + intros H. destruct (IH H) as (r & Hr & Hp). exists r. auto.
Qed.

(** *** The retry loop *)

Lemma retry_from_cases (A : Type) (dflt : A) body n i env s :
  retry_from dflt body n i env s = (dflt, s)
  \/ exists a s', body s = Return a s'
                  /\ retry_from dflt body n i env s = (a, s').
Proof.
  revert i env. induction n as [|n IH]; intros i env; simpl.
  - now left.
  - destruct (hd Runs env).
    + destruct (body s) as [|a s'] eqn:E; [apply IH|].
      right. now exists a, s'.
    + destruct (i <? 2)%nat; [apply IH|now left].
    + now left.
Qed.

Lemma retry_runs (A : Type) (dflt : A) body env s a s' :
  transaction_runs env -> body s = Return a s' ->
  retry dflt body env s = (a, s').
Proof.
  intros (k & Hk & Hrun & Hlock) Hb. unfold retry.
  destruct k as [|[|[|k]]]; try lia.
  - destruct env as [|o env]; simpl in *; [|subst o]; now rewrite Hb.
  - pose proof (Hlock 0%nat ltac:(lia)) as H0.
    destruct env as [|o0 [|o1 env]]; simpl in *; try discriminate;
      subst; simpl; now rewrite Hb.
  - pose proof (Hlock 0%nat ltac:(lia)) as H0.
    pose proof (Hlock 1%nat ltac:(lia)) as H1.
    destruct env as [|o0 [|o1 [|o2 env]]]; simpl in *; try discriminate;
      subst; simpl; now rewrite Hb.
Qed.

(** *** Row conditions *)

Lemma has_status_true st t : Task.has_status st t = true <-> Task.status t = st.
Proof. unfold Task.has_status. apply String.eqb_eq. Qed.

Lemma assigned_is_true w t :
  Task.assigned_is w t = true <-> Task.assigned_to t = Some w.
Proof.
  unfold Task.assigned_is. destruct (Task.assigned_to t) as [a|].
  - rewrite String.eqb_eq. split; congruence.
  - split; discriminate.
Qed.

Lemma complete_cond_true tid wid t :
  complete_cond tid wid t = true
  <-> Task.task_id t = tid /\ Task.assigned_to t = Some wid.
Proof.
  unfold complete_cond.
  now rewrite andb_true_iff, String.eqb_eq, assigned_is_true.
Qed.

Lemma assign_cond_true tid t :
  assign_cond tid t = true
  <-> Task.task_id t = tid /\ Task.status t = "pending".
Proof.
  unfold assign_cond.
  now rewrite andb_true_iff, String.eqb_eq, has_status_true.
Qed.
End StoreFacts.

(** *** Conditional completion *)

Section Completion.
Import Sql Store.
Variables (env : list sqlite_outcome) (now : Z) (tid wid res : string)
          (success : bool) (s : store).

Let out := complete_task_with_stats env now tid wid res success s.

Lemma complete_body_cases :
  (complete_body now tid wid res success s = Return false s
   /\ forall t, In t (task_master s) -> complete_cond tid wid t = false)
  \/ (exists s', complete_body now tid wid res success s = Return true s'
      /\ exists t, In t (task_master s) /\ complete_cond tid wid t = true).
Proof.
  unfold complete_body.
  destruct (rowcount (complete_cond tid wid) (task_master s) =? 0)%nat eqn:E.
  - left. split; [reflexivity|].
    apply rowcount_zero. now apply Nat.eqb_eq.
  - right. eexists. split; [reflexivity|]. now apply rowcount_witness.
Qed.

Lemma complete_success_assigned :
  fst out = true ->
  exists t, In t (task_master s) /\ Task.task_id t = tid
            /\ Task.assigned_to t = Some wid.
Proof.
  unfold out, complete_task_with_stats, retry. intros H.
  destruct (retry_from_cases false
              (complete_body now tid wid res success) 3 0 env s)
    as [E|(a & s' & Hb & E)]; rewrite E in H; simpl in H; [discriminate|].
  subst a. destruct complete_body_cases as [[Hb' _]|(s'' & _ & t & Ht & Hc)].
  - rewrite Hb' in Hb. discriminate.
  - exists t. split; [exact Ht|]. now apply complete_cond_true.
Qed.

Lemma complete_failure_noop : fst out = false -> snd out = s.
Proof.
  unfold out, complete_task_with_stats, retry. intros H.
  destruct (retry_from_cases false
              (complete_body now tid wid res success) 3 0 env s)
    as [E|(a & s' & Hb & E)]; rewrite E in H |- *; simpl in *;
    [reflexivity|].
  subst a. destruct complete_body_cases as [[Hb' _]|(s'' & Hb' & _)];
    rewrite Hb' in Hb; [now inversion Hb|discriminate].
Qed.

Lemma complete_assigned_success t :
  transaction_runs env ->
  In t (task_master s) -> Task.task_id t = tid ->
  Task.assigned_to t = Some wid ->
  fst out = true.
Proof.
  intros Hrun Ht Hid Has. unfold out, complete_task_with_stats.
  destruct complete_body_cases as [[_ Hnone]|(s' & Hb & _)].
  - assert (Hc : complete_cond tid wid t = true)
      by now apply complete_cond_true.
    rewrite (Hnone t Ht) in Hc. discriminate.
  - erewrite retry_runs by eassumption. reflexivity.
Qed.
End Completion.

(** C1 (as amended).  When SQLite lets the transaction run,
    [complete_task_with_stats(t, w, r, s)] succeeds if and only if a task row
    with id [t] has [assigned_to = w], whatever its status; whenever it
    returns false the whole store is unchanged, so the task row is untouched
    and no worker's [tasks_completed] or [tasks_failed] moved. *)
Theorem complete_task_with_stats_conditional :
  forall env now tid wid res success s,
    Store.transaction_runs env ->
    let out := Store.complete_task_with_stats env now tid wid res success s in
    (fst out = true <->
       exists t, In t (Store.task_master s) /\ Task.task_id t = tid
                 /\ Task.assigned_to t = Some wid)
    /\ (fst out = false -> snd out = s).
Proof.
  intros env now tid wid res success s Hrun out. split; [split|].
  - apply complete_success_assigned.
  - intros (t & Ht & Hid & Has).
    eapply complete_assigned_success; eauto.
  - apply complete_failure_noop.
Qed.

(** *** Atomic claim *)

Section Claim.
Import Sql Store.

Lemma queue_le_total a b :
  Task.queue_le a b = true \/ Task.queue_le b a = true.
Proof.
  unfold Task.queue_le.
  rewrite !orb_true_iff, !andb_true_iff, !Z.ltb_lt, !Z.eqb_eq, !Z.leb_le.
  lia.
Qed.

Lemma queue_le_trans a b c :
  Task.queue_le a b = true -> Task.queue_le b c = true ->
  Task.queue_le a c = true.
Proof.
  unfold Task.queue_le.
  rewrite !orb_true_iff, !andb_true_iff, !Z.ltb_lt, !Z.eqb_eq, !Z.leb_le.
  lia.
Qed.

(** [queue_le] spelled out: higher priority first, then older first. *)
Lemma queue_le_spec a b :
  Task.queue_le a b = true <->
  (Task.priority b < Task.priority a
   \/ (Task.priority b = Task.priority a
       /\ Task.created_at a <= Task.created_at b))%Z.
Proof.
  unfold Task.queue_le.
  rewrite !orb_true_iff, !andb_true_iff, !Z.ltb_lt, !Z.eqb_eq, !Z.leb_le.
  lia.
Qed.

Lemma primary_key_split (row : Type) (key : row -> string) l1 r l2 x :
  NoDup (map key (l1 ++ r :: l2)) ->
  In x l1 \/ In x l2 -> key x <> key r.
Proof.
  rewrite map_app. simpl. intros Hnd Hx Heq.
  apply NoDup_remove_2 in Hnd. apply Hnd.
  rewrite <- Heq. apply in_or_app.
  destruct Hx as [Hx|Hx]; [left|right]; now apply in_map.
Qed.

Variables (now : Z) (wid : string) (s : store).

Let pending := filter (Task.has_status "pending") (task_master s).

Lemma acquire_body_empty :
  (forall t, In t (task_master s) -> Task.status t <> "pending") ->
  acquire_body now wid s = Return None s.
Proof.
  intros Hnone. unfold acquire_body.
  assert (E : filter (Task.has_status "pending") (task_master s) = []).
  { destruct (filter _ _) as [|x l] eqn:E; [reflexivity|].
    assert (Hx : In x (filter (Task.has_status "pending") (task_master s)))
      by (rewrite E; now left).
    apply filter_In in Hx. destruct Hx as [Hx Hp].
    apply has_status_true in Hp. now elim (Hnone x Hx). }
  now rewrite E.
Qed.

Lemma acquire_body_head :
  (exists t, In t (task_master s) /\ Task.status t = "pending") ->
  exists r,
    In r (task_master s) /\ Task.status r = "pending"
    /\ (forall t, In t (task_master s) -> Task.status t = "pending" ->
                  Task.queue_le r t = true)
    /\ acquire_body now wid s =
       Return
         (Some (mk_claimed (Task.task_id r) (Task.content r)
                           (Task.priority r) (Task.created_at r)))
         (mk (update_where (assign_cond (Task.task_id r))
                           (assign_set wid now) (task_master s))
             (update_where (Worker.is_worker wid)
                           (claim_worker (Task.task_id r) now) (workers s))
             (worker_notifications s)).
Proof.
  intros (t0 & Ht0 & Hp0). unfold acquire_body.
  destruct (Stable.sort_by Task.queue_le
              (filter (Task.has_status "pending") (task_master s)))
    as [|r rest] eqn:E.
  - apply sort_by_nil in E.
    assert (Hin : In t0 (filter (Task.has_status "pending") (task_master s)))
      by (apply filter_In; split; [exact Ht0|now apply has_status_true]).
    rewrite E in Hin. destruct Hin.
  - destruct (@sort_by_head _ Task.queue_le queue_le_total queue_le_trans
                              _ _ _ E)
      as [Hr Hmin].
    apply filter_In in Hr. destruct Hr as [Hr Hpr].
    apply has_status_true in Hpr.
    exists r. repeat split; try assumption.
    + intros t Ht Hp. apply Hmin. apply filter_In.
      split; [exact Ht|now apply has_status_true].
    + simpl. rewrite (rowcount_pos (assign_cond (Task.task_id r)) _ r Hr).
      * reflexivity.
      * now apply assign_cond_true.
Qed.
End Claim.

(** C2.  When SQLite lets the transaction run and task ids are the primary
    key of [task_master]: [acquire_next_task(worker_id)] picks the pending
    task that comes first by (priority desc, created_at asc), rewrites that
    row alone to [in_progress] with [assigned_to = worker_id], sets the
    caller's worker row to [busy] with [current_task] that task and
    [last_heartbeat = now], and returns the task; with no pending task it
    returns [None] and the store is unchanged. *)
Theorem acquire_next_task_claims_queue_head :
  forall env now wid s,
    Store.transaction_runs env ->
    NoDup (map Task.task_id (Store.task_master s)) ->
    let out := Store.acquire_next_task env now wid s in
    ((forall t, In t (Store.task_master s) -> Task.status t <> "pending") ->
     out = (None, s))
    /\ ((exists t, In t (Store.task_master s) /\ Task.status t = "pending") ->
        exists r l1 l2,
          Store.task_master s = l1 ++ r :: l2
          /\ Task.status r = "pending"
          /\ (forall t, In t (Store.task_master s) ->
                        Task.status t = "pending" ->
                        (Task.priority t < Task.priority r
                         \/ (Task.priority t = Task.priority r
                             /\ Task.created_at r <= Task.created_at t))%Z)
          /\ fst out = Some (Store.mk_claimed (Task.task_id r) (Task.content r)
                               (Task.priority r) (Task.created_at r))
          /\ Store.task_master (snd out) =
             l1 ++ Task.mk (Task.task_id r) (Task.content r) "in_progress"
                           (Task.priority r) (Task.result r)
                           (Task.created_by r) (Some wid)
                           (Task.created_at r) now :: l2
          /\ Store.workers (snd out) =
             map (fun w =>
                    if (Worker.worker_id w =? wid)%string
                    then Worker.mk (Worker.worker_id w) "busy"
                                   (Some (Task.task_id r))
                                   (Worker.tasks_completed w)
                                   (Worker.tasks_failed w) now
                                   (Worker.created_at w) (Worker.location w)
                                   (Worker.performance_factor w)
                    else w)
                 (Store.workers s)
          /\ Store.worker_notifications (snd out) =
             Store.worker_notifications s).
Proof.
  intros env now wid s Hrun Hpk out. split.
  - intros Hnone. unfold out, Store.acquire_next_task.
    erewrite retry_runs by (try eassumption; now apply acquire_body_empty).
    reflexivity.
  - intros Hex.
    destruct (acquire_body_head now wid s Hex) as (r & Hr & Hpr & Hmin & Hb).
    destruct (in_split _ _ Hr) as (l1 & l2 & Hsplit).
    exists r, l1, l2. unfold out, Store.acquire_next_task.
    erewrite retry_runs by eassumption. simpl.
    repeat split; try assumption.
    + intros t Ht Hp. now apply queue_le_spec, Hmin.
    + rewrite Hsplit in Hpk |- *.
      apply update_where_split.
      * now apply assign_cond_true.
      * intros x Hx. apply not_true_is_false. intros Hc.
        apply assign_cond_true in Hc. destruct Hc as [Hc _].
        exact (primary_key_split Task.task_id l1 r l2 x Hpk (or_introl Hx) Hc).
      * intros x Hx. apply not_true_is_false. intros Hc.
        apply assign_cond_true in Hc. destruct Hc as [Hc _].
        exact (primary_key_split Task.task_id l1 r l2 x Hpk (or_intror Hx) Hc).
Qed.

(** *** Orphan recovery *)

Section Cleanup.
Import Sql Store.
Variables (now T : Z) (s : store).

Let c := cutoff now T.
Let out := cleanup_dead_workers now T s.


Lemma orphaned_nil t : orphaned [] t = false.
Proof.
  unfold orphaned. now destruct (Task.assigned_to t).
Qed.



End Cleanup.


(** ** Back-pressure *)

Lemma task_count_nonneg st s : (0 <= Store.task_count st s)%Z.
Proof. unfold Store.task_count. lia. Qed.


(** ** The router *)

Section RouterFacts.
Import Py Router.

Lemma mapM_ret (A B : Type) (f : A -> result B) l ys :
  mapM f l = Ret ys -> Forall2 (fun x y => f x = Ret y) l ys.
Proof.
  revert ys. induction l as [|x l IH]; simpl; intros ys H.
  - inversion H. constructor.
  - destruct (f x) as [y|e] eqn:Ex; simpl in H; [|discriminate].
    destruct (mapM f l) as [zs|e]; simpl in H; [|discriminate].
    inversion H. subst ys. constructor; auto.
Qed.

Lemma mapM_total (A B : Type) (f : A -> result B) l :
  (forall x, In x l -> exists y, f x = Ret y) ->
  exists ys, mapM f l = Ret ys.
Proof.
  induction l as [|x l IH]; simpl; intros H.
  - now exists [].
  - destruct (H x (or_introl eq_refl)) as [y Hy]. rewrite Hy. simpl.
    destruct IH as [ys Hys]; [intros z Hz; apply H; now right|].
    rewrite Hys. simpl. now exists (y :: ys).
Qed.

Lemma Forall2_In_r (A B : Type) (R : A -> B -> Prop) l ys y :
  Forall2 R l ys -> In y ys -> exists x, In x l /\ R x y.
Proof.
  induction 1 as [|x z l zs Hxz _ IH]; simpl; [tauto|].
  intros [<-|Hy].
  - exists x. auto.
  - destruct (IH Hy) as (x' & Hx' & HR). exists x'. auto.
Qed.

Lemma Forall2_In_l (A B : Type) (R : A -> B -> Prop) l ys x :
  Forall2 R l ys -> In x l -> exists y, In y ys /\ R x y.
Proof.
  induction 1 as [|z y l zs Hzy _ IH]; simpl; [tauto|].
  intros [<-|Hx].
  - exists y. auto.
  - destruct (IH Hx) as (y' & Hy' & HR). exists y'. auto.
Qed.

Lemma by_score_desc_total a b :
  by_score_desc a b = true \/ by_score_desc b a = true.
Proof.
  unfold by_score_desc. rewrite !Qle_bool_iff.
  destruct (Qlt_le_dec (snd a) (snd b)) as [H|H]; [right|left]; auto.
  now apply Qlt_le_weak.
Qed.

Lemma by_score_desc_trans a b c :
  by_score_desc a b = true -> by_score_desc b c = true ->
  by_score_desc a c = true.
Proof.
  unfold by_score_desc. rewrite !Qle_bool_iff. intros H1 H2.
  now apply Qle_trans with (snd b).
Qed.

Lemma scored_ret w p :
  scored w = Ret p ->
  fst p = worker_id w /\ calculate_worker_score w = Ret (snd p).
Proof.
  unfold scored. destruct (calculate_worker_score w) as [q|e]; simpl;
    intros H; inversion H. auto.
Qed.

(** Whenever [_select_best_worker] returns on a non-empty list, it returns
    the id of a candidate whose score no other candidate exceeds. *)
Lemma select_best_worker_max cs r :
  cs <> [] -> select_best_worker cs = Ret r ->
  exists w q,
    In w cs /\ r = Some (worker_id w)
    /\ calculate_worker_score w = Ret q
    /\ forall w' q', In w' cs -> calculate_worker_score w' = Ret q' ->
                     (q' <= q)%Q.
Proof.
  intros Hne H. unfold select_best_worker in H.
  destruct cs as [|c0 cs0]; [congruence|]. set (cs := c0 :: cs0) in *.
  fold scored in H.
  destruct (mapM scored cs) as [scores|e] eqn:Em; simpl in H;
    [|discriminate].
  apply mapM_ret in Em.
  destruct (Stable.sort_by by_score_desc scores) as [|[wid q] rest] eqn:Es.
  - apply sort_by_nil in Es. subst scores. inversion Em.
  - inversion H. subst r. clear H.
    destruct (@sort_by_head _ by_score_desc by_score_desc_total
                by_score_desc_trans _ _ _ Es) as [Hin Hmax].
    destruct (@Forall2_In_r _ _ _ _ _ _ Em Hin) as (w & Hw & Hsc).
    apply scored_ret in Hsc. simpl in Hsc. destruct Hsc as [-> Hq].
    exists w, q. repeat split; auto.
    intros w' q' Hw' Hq'.
    destruct (@Forall2_In_l _ _ _ _ _ _ Em Hw') as (p & Hp & Hsp).
    apply scored_ret in Hsp. destruct Hsp as [_ Hsp].
    rewrite Hq' in Hsp. inversion Hsp. subst q'.
    specialize (Hmax p Hp). unfold by_score_desc in Hmax.
    now apply Qle_bool_iff in Hmax.
Qed.

Lemma select_best_worker_member cs r :
  cs <> [] -> select_best_worker cs = Ret r ->
  exists w, In w cs /\ r = Some (worker_id w).
Proof.
  intros Hne H.
  destruct (select_best_worker_max Hne H) as (w & q & Hw & Hr & _).
  exists w. auto.
Qed.

Lemma select_best_worker_total cs :
  (forall w, In w cs -> exists q, calculate_worker_score w = Ret q) ->
  exists r, select_best_worker cs = Ret r.
Proof.
  intros Hok. unfold select_best_worker.
  destruct cs as [|c0 cs0]; [now exists None|].
  destruct (mapM_total scored (c0 :: cs0)) as [scores Hs].
  { intros w Hw. destruct (Hok w Hw) as [q Hq].
    exists (worker_id w, q). unfold scored. now rewrite Hq. }
  rewrite Hs. simpl.
  destruct (Stable.sort_by by_score_desc scores) as [|[wid q] rest];
    eexists; reflexivity.
Qed.
End RouterFacts.

Section RouterScore.
Import Py Router.


Lemma calculate_worker_score_total w :
  well_typed w -> exists q, calculate_worker_score w = Ret q.
Proof.
  intros (Hpf & Hc & Hf). unfold calculate_worker_score.
  destruct (performance_factor w) as [| |pf]; try congruence;
    destruct (tasks_completed w) as [| |c]; try congruence;
    destruct (tasks_failed w) as [| |f]; try congruence;
    cbn [number bind];
    match goal with
    | |- context [(0 <? ?t)%Z] => destruct (0 <? t)%Z
    end; eexists; reflexivity.
Qed.
End RouterScore.


(** *** Routing *)

Section Routing.
Import Py Router.

Lemma nonempty_true (A : Type) (l : list A) : nonempty l = true -> l <> [].
Proof. destruct l; [discriminate|congruence]. Qed.

Lemma select_from_filter (p : worker -> bool) ws r :
  nonempty (filter p ws) = true ->
  select_best_worker (filter p ws) = Ret r ->
  exists w, In w ws /\ r = Some (worker_id w).
Proof.
  intros Hne Hsel.
  destruct (select_best_worker_member (nonempty_true Hne) Hsel)
    as (w & Hw & Hr).
  apply filter_In in Hw. exists w. tauto.
Qed.

Lemma types_loop_member ws types cands r :
  types_loop ws types cands = Ret (Returned r) ->
  exists w, In w ws /\ r = Some (worker_id w).
Proof.
  revert cands. induction types as [|ty types IH]; simpl; intros cands H.
  - discriminate.
  - destruct (nonempty (filter (match_worker_type ty) ws)) eqn:Hne;
      [|now apply IH in H].
    destruct (select_best_worker (filter (match_worker_type ty) ws))
      as [sel|e] eqn:Hsel; simpl in H; [|discriminate].
    destruct (truthy sel); [|now apply IH in H].
    inversion H. subst r. now apply select_from_filter in Hsel.
Qed.

Lemma rules_loop_member ws p rules cands r :
  ws <> [] ->
  rules_loop ws p rules cands = Ret r ->
  exists w, In w ws /\ r = Some (worker_id w).
Proof.
  intros Hne. revert cands.
  induction rules as [|ru rules IH]; simpl; intros cands H.
  - destruct ws as [|w ws']; [congruence|].
    inversion H. exists w. split; [now left|reflexivity].
  - destruct p as [prio|e]; simpl in H; [|discriminate].
    destruct (in_range ru prio); [|now apply IH in H].
    destruct (types_loop ws _ cands) as [[sel|cands']|e] eqn:Hl; simpl in H;
      try discriminate.
    + inversion H. subst r. now apply types_loop_member in Hl.
    + destruct (match fallback_to_local ru with Some b => b | None => false end);
        [|now apply IH in H].
      destruct cands' as [cs|]; [|discriminate].
      destruct (nonempty cs); [now apply IH in H|].
      destruct (nonempty (filter is_local ws)) eqn:Hloc;
        [|now apply IH in H].
      now apply select_from_filter in H.
Qed.

(** Whenever [route_task] returns on a non-empty list, it returns the id of
    a worker of the list. *)
Lemma route_task_member rules t ws r :
  ws <> [] ->
  route_task rules t ws = Ret r ->
  exists w, In w ws /\ r = Some (worker_id w).
Proof.
  intros Hne H. unfold route_task in H.
  destruct ws as [|w0 ws0]; [congruence|]. set (ws := w0 :: ws0) in *.
  destruct (truthy (preferred_worker t) && nonempty _) eqn:Hpref.
  - apply andb_true_iff in Hpref. destruct Hpref as [Ht Hp].
    destruct (preferred_worker t) as [p|]; [|discriminate].
    inversion H. subst r.
    apply nonempty_true in Hp.
    destruct (filter (fun w => (worker_id w =? p)%string) ws) as [|w l] eqn:E;
      [congruence|].
    assert (Hw : In w (filter (fun w => (worker_id w =? p)%string) ws))
      by (rewrite E; now left).
    apply filter_In in Hw. destruct Hw as [Hw Hid].
    apply String.eqb_eq in Hid. exists w. split; [exact Hw|congruence].
  - destruct (negb _ && nonempty (filter (fun w => negb (is_local w)) ws))
      eqn:Hrem; [|now apply rules_loop_member in H].
    apply andb_true_iff in Hrem. destruct Hrem as [_ Hrem].
    destruct (select_best_worker (filter (fun w => negb (is_local w)) ws))
      as [sel|e] eqn:Hsel; simpl in H; [|discriminate].
    destruct (truthy sel); [|now apply rules_loop_member in H].
    inversion H. subst r. now apply select_from_filter in Hsel.
Qed.

(** A preferred worker that is in the list is chosen, idle or not. *)
Lemma route_task_preferred rules t ws p w :
  preferred_worker t = Some p -> p <> "" ->
  In w ws -> worker_id w = p ->
  route_task rules t ws = Ret (Some p).
Proof.
  intros Hp Hne Hw Hid. unfold route_task.
  destruct ws as [|w0 ws0]; [destruct Hw|]. set (ws := w0 :: ws0) in *.
  rewrite Hp. simpl truthy.
  assert (Hin : In w (filter (fun w => (worker_id w =? p)%string) ws))
    by (apply filter_In; split; [exact Hw|now apply String.eqb_eq]).
  destruct (filter (fun w => (worker_id w =? p)%string) ws) as [|x l];
    [destruct Hin|].
  destruct (String.eqb_spec p ""); [congruence|]. reflexivity.
Qed.
End Routing.

(** ** The operations on sample states *)

Lemma transaction_runs_nil : Store.transaction_runs [].
Proof.
  exists 0%nat. split; [lia|]. split; [reflexivity|].
  intros j Hj. lia.
Defined.

(** C1 as stated fails: a task that is already [completed] and still
    carries [assigned_to = w1] is completed again by [w1], and the worker's
    [tasks_completed] goes from 1 to 2, although no task with that id is
    [in_progress]. *)
Lemma complete_task_with_stats_recompletes :
  fst (Store.complete_task_with_stats [] 200 "t1" "w1" "again" true
         Sample.finished) = true
  /\ ~ (exists t, In t (Store.task_master Sample.finished)
                  /\ Task.task_id t = "t1"
                  /\ Task.assigned_to t = Some "w1"
                  /\ Task.status t = "in_progress")
  /\ map Worker.tasks_completed (Store.workers Sample.finished) = [1%Z]
  /\ map Worker.tasks_completed
         (Store.workers
            (snd (Store.complete_task_with_stats [] 200 "t1" "w1" "again" true
                    Sample.finished))) = [2%Z].
Proof.
  split; [reflexivity|]. split; [|split; reflexivity].
  intros (t & [<-|[]] & _ & _ & H). discriminate H.
Qed.

(** The completion theorem at a task in progress at its worker. *)
Lemma complete_task_with_stats_conditional_witness :
  Store.transaction_runs []
  /\ let out := Store.complete_task_with_stats [] 200 "t1" "w1" "done" true
                  Sample.running in
     (fst out = true <->
        exists t, In t (Store.task_master Sample.running)
                  /\ Task.task_id t = "t1"
                  /\ Task.assigned_to t = Some "w1")
     /\ (fst out = false -> snd out = Sample.running).
Proof.
  split; [exact transaction_runs_nil|].
  exact (@complete_task_with_stats_conditional [] 200 "t1" "w1" "done" true
           Sample.running transaction_runs_nil).
Defined.

Lemma queue_primary_key : NoDup (map Task.task_id (Store.task_master Sample.queue)).
Proof.
  simpl. repeat constructor; simpl; intuition discriminate.
Defined.

(** The claim theorem on the queue of scenario S1. *)
Lemma acquire_next_task_claims_queue_head_witness :
  Store.transaction_runs []
  /\ NoDup (map Task.task_id (Store.task_master Sample.queue))
  /\ let s := Sample.queue in
     let now := 100%Z in
     let wid := "w1" in
     let out := Store.acquire_next_task [] now wid s in
     ((forall t, In t (Store.task_master s) -> Task.status t <> "pending") ->
      out = (None, s))
     /\ ((exists t, In t (Store.task_master s) /\ Task.status t = "pending") ->
         exists r l1 l2,
           Store.task_master s = l1 ++ r :: l2
           /\ Task.status r = "pending"
           /\ (forall t, In t (Store.task_master s) ->
                         Task.status t = "pending" ->
                         (Task.priority t < Task.priority r
                          \/ (Task.priority t = Task.priority r
                              /\ Task.created_at r <= Task.created_at t))%Z)
           /\ fst out = Some (Store.mk_claimed (Task.task_id r) (Task.content r)
                                (Task.priority r) (Task.created_at r))
           /\ Store.task_master (snd out) =
              l1 ++ Task.mk (Task.task_id r) (Task.content r) "in_progress"
                            (Task.priority r) (Task.result r)
                            (Task.created_by r) (Some wid)
                            (Task.created_at r) now :: l2
           /\ Store.workers (snd out) =
              map (fun w =>
                     if (Worker.worker_id w =? wid)%string
                     then Worker.mk (Worker.worker_id w) "busy"
                                    (Some (Task.task_id r))
                                    (Worker.tasks_completed w)
                                    (Worker.tasks_failed w) now
                                    (Worker.created_at w) (Worker.location w)
                                    (Worker.performance_factor w)
                     else w)
                  (Store.workers s)
           /\ Store.worker_notifications (snd out) =
              Store.worker_notifications s).
Proof.
  split; [exact transaction_runs_nil|]. split; [exact queue_primary_key|].
  exact (@acquire_next_task_claims_queue_head [] 100%Z "w1" Sample.queue
           transaction_runs_nil queue_primary_key).
Defined.

(** The claim order of scenario S1: T1, then T3, then T2. *)
Example acquire_order_S1 :
  let '(c1, s1) := Store.acquire_next_task [] 100 "w1" Sample.queue in
  let '(c2, s2) := Store.acquire_next_task [] 101 "w1" s1 in
  let '(c3, s3) := Store.acquire_next_task [] 102 "w1" s2 in
  let '(c4, _) := Store.acquire_next_task [] 103 "w1" s3 in
  map (option_map Store.c_task_id) [c1; c2; c3; c4]
  = [Some "T1"; Some "T3"; Some "T2"; None].
Proof. reflexivity. Qed.


(** Scenario S3: the dead worker is reaped, its task is pending again. *)
Example cleanup_S3 :
  Store.cleanup_dead_workers 100 1 Sample.orphan
  = (1%nat, Store.mk [Sample.task "t1" "pending" 5 None 1] [] []).
Proof. reflexivity. Qed.


(** With the cap not reached the same manager does spawn: the guard is what
    keeps the saturated one quiet. *)
Example scale_workers_spawns_below_cap :
  Pool.log
    (Pool.scale_workers Sample.mint 100
       (Pool.mk 1 5 2 ["w1"] (Pool.db Sample.saturated) [] 1))
  = [Pool.Spawn "worker_20250101_120005_0"].
Proof. reflexivity. Qed.



(** The scores of the two sample workers: 100 + 50 + 30 * 3/4 for the idle
    local one, 50 - 30 for the busy remote one without history. *)
Example sample_scores :
  Router.calculate_worker_score Sample.local_idle = Py.Ret (0 + 1 * 100 + 50 + 3 / 4 * 30)%Q
  /\ Router.calculate_worker_score Sample.remote_busy
     = Py.Ret (0 + (1 # 2) * 100 - 30)%Q
  /\ Router.select_best_worker [Sample.remote_busy; Sample.local_idle]
     = Py.Ret (Some "w1").
Proof. repeat split. Qed.

(** C6 on the code: with a rule that sets [fallback_to_local] and names no
    [preferred_workers], the loop over worker types never binds
    [candidates], and reading it raises [UnboundLocalError]: [route_task]
    returns no worker although the list holds an idle local one. *)
Theorem route_task_unbound_candidates :
  Router.route_task [Sample.fallback_only] Sample.plain_task [Sample.local_idle]
  = Py.Raise Py.UnboundLocalError.
Proof. reflexivity. Qed.

(** The same call without that rule takes the default: the first worker. *)
Example route_task_default :
  Router.route_task [] Sample.plain_task [Sample.local_idle; Sample.remote_busy]
  = Py.Ret (Some "w1").
Proof. reflexivity. Qed.

(** ** Dispatch by the enhanced pool manager *)

(** What a task row says about its assignment. *)
Lemma assign_task_to_worker_conditional now tid wid s :
  (forall t, In t (Store.task_master s) ->
             Task.task_id t = tid -> Task.status t <> "pending") ->
  Store.assign_task_to_worker now tid wid s = (false, s).
Proof.
  intros H. unfold Store.assign_task_to_worker.
  assert (Hnone : forall t, In t (Store.task_master s) ->
                            Store.assign_cond tid t = false).
  { intros t Ht. apply not_true_is_false. intros Hc.
    apply assign_cond_true in Hc. destruct Hc as [Hid Hp].
    exact (H t Ht Hid Hp). }
  rewrite update_where_none by exact Hnone.
  rewrite (proj2 (rowcount_zero _ _) Hnone). simpl. now destruct s.
Qed.

(** C3 on the code: the pool manager reads [t1] as pending, worker [w1]
    claims it through [acquire_next_task], and the manager's
    [assign_task_to_worker] then hands the same task to [w2]: its UPDATE
    matches on [task_id] alone, so the row that is already [in_progress] at
    [w1] is rewritten.  [DatabaseManager.assign_task_to_worker], which adds
    [AND status = 'pending'], leaves that state alone. *)
Theorem pool_manager_reassigns_claimed_task :
  let view := fun s =>
    map (fun t => (Task.task_id t, Task.status t, Task.assigned_to t))
        (Store.task_master s) in
  let s1 := snd (Store.acquire_next_task [] 50 "w1" Sample.race) in
  Enhanced.read_pending Sample.race = [Sample.plain_task]
  /\ view s1 = [("t1", "in_progress", Some "w1")]
  /\ match Enhanced.assign_task_to_worker [] 51 Sample.plain_task s1 with
     | Py.Ret (chosen, s2) =>
         chosen = Some "w2" /\ view s2 = [("t1", "in_progress", Some "w2")]
     | Py.Raise _ => False
     end
  /\ Store.assign_task_to_worker 51 "t1" "w2" s1 = (false, s1).
Proof. repeat split. Qed.

(** ** Deliverables *)

(** C10.  For every result text and every task type the quality score is an
    integer between 70 and 100: it starts at 70, only grows, and is capped
    at 100. *)
Theorem assess_quality_bounds :
  forall result_text task_type : Text.str,
    (70 <= Deliverable.assess_quality result_text task_type <= 100)%Z.
Proof.
  intros result_text task_type. unfold Deliverable.assess_quality.
  repeat match goal with
         | |- context [if ?b then _ else _] => destruct b
         end; lia.
Qed.

(** The empty output of a failed task still scores 70, and 100 is reached. *)
Example assess_quality_empty :
  Deliverable.assess_quality [] (Text.lit "code_generation") = 70%Z.
Proof. reflexivity. Qed.

(** *** File sections *)

Unset Implicit Arguments.

Section SplitFacts.
Import Text Re Deliverable.
Variable ua : N -> bool.

Let P := file_pattern ua.

Lemma file_pattern_atoms :
  file_pattern ua =
  [Chr (just 45); Chr (just 45); Chr (just 45); Star is_space; Open;
   Chr (no_space_nor 45); Star (no_space_nor 45); Chr (just 46);
   Chr (word ua); Star (word ua); Close; Star is_space;
   Chr (just 45); Chr (just 45); Chr (just 45)].
Proof. reflexivity. Qed.




Lemma contains_tail p c s : contains p (c :: s) = false -> contains p s = false.
Proof. cbn [contains]. now intros H%orb_false_iff. Qed.

Lemma chr_step p r b cap c s :
  match_here (Chr p :: r) b cap (c :: s)
  = if p c then match_here r false (push c cap) s else None.
Proof. reflexivity. Qed.

(** A match of the file pattern starts with three dashes that a fourth
    does not follow. *)
Lemma match_needs_dashes b cap s res :
  match_here P b cap s = Some res ->
  exists c s', s = 45%N :: 45%N :: 45%N :: c :: s' /\ c <> 45%N.
Proof.
  unfold P. rewrite file_pattern_atoms.
  destruct s as [|c1 s]; [discriminate|]. rewrite chr_step. unfold just at 1.
  destruct (N.eqb_spec 45 c1) as [<-|]; [|discriminate].
  destruct s as [|c2 s]; [discriminate|]. rewrite chr_step. unfold just at 1.
  destruct (N.eqb_spec 45 c2) as [<-|]; [|discriminate].
  destruct s as [|c3 s]; [discriminate|]. rewrite chr_step. unfold just at 1.
  destruct (N.eqb_spec 45 c3) as [<-|]; [|discriminate].
  destruct s as [|c4 s]; [discriminate|].
  destruct (N.eqb_spec 45 c4) as [<-|Hc]; [discriminate|].
  intros _. exists c4, s. split; [reflexivity|congruence].
Qed.








End SplitFacts.





(** What ends up in the two files of that output: the fence around the
    first section is gone, and the contents are otherwise as they were. *)
Example fenced_sections_content :
  Deliverable.strip_fences Sample.ascii_only (Text.strip Sample.html_section)
  = Text.lit "<html></html>"
  /\ Deliverable.strip_fences Sample.ascii_only
       (Text.strip Sample.css_section)
     = Text.lit "body{}".
Proof. split; vm_compute; reflexivity. Qed.

(** The README lists the files, one per line. *)
Example readme_lists_files :
  Text.contains (Text.lit "## 生成されたファイル
- a.html
- b.css
")
    (Deliverable.readme_content (Text.lit "t1") (Text.lit "20250831_180000")
       true [Text.lit "a.html"; Text.lit "b.css"])
  = true.
Proof. vm_compute; reflexivity. Qed.

(** ** Empty prompts *)

Section EmptyPrompt.
Import Exec.

Lemma empty_spec (p : option string) :
  empty p = true <-> p = None \/ p = Some "".
Proof.
  unfold empty, Py.truthy. destruct p as [s|].
  - rewrite negb_true_iff, negb_false_iff, String.eqb_eq.
    split; [intros ->; now right|intros [H|H]; congruence].
  - split; [now left|reflexivity].
Qed.

Variable validate_file_operation : string -> bool * string.
Variable run_gemini_task_with_files :
  string -> list string -> option string -> outcome.

Lemma first_invalid_none paths :
  (forall f, In f paths -> fst (validate_file_operation f) = true) ->
  LocalWorker.first_invalid validate_file_operation paths = None.
Proof.
  induction paths as [|f paths IH]; simpl; intros H; [reflexivity|].
  pose proof (H f (or_introl eq_refl)) as Hf.
  destruct (validate_file_operation f) as [ok msg]. simpl in Hf. subst ok.
  apply IH. intros g Hg. apply H. now right.
Qed.

Lemma process_task_empty_prompt worker_id now task_id tc w :
  empty (LocalWorker.prompt tc) = true ->
  let out := LocalWorker.process_task validate_file_operation
               run_gemini_task_with_files worker_id now task_id tc w in
  success (fst out) = false /\ snd out = w
  /\ ((forall f, In f (Api.get (LocalWorker.files tc) []) ->
                 fst (validate_file_operation f) = true) ->
      (forall f, LocalWorker.output_file tc = Some f ->
                 fst (validate_file_operation f) = true) ->
      fst out = mk_outcome false "" (Some "Prompt is empty")).
Proof.
  intros Hempty. unfold LocalWorker.process_task.
  destruct (LocalWorker.first_invalid validate_file_operation
              (Api.get (LocalWorker.files tc) [])) as [msg|] eqn:Hin.
  { simpl. repeat split. intros Hok _.
    rewrite (first_invalid_none _ Hok) in Hin. discriminate. }
  destruct (if Py.truthy (LocalWorker.output_file tc) then _ else None)
    as [msg|] eqn:Hout.
  { simpl. repeat split. intros _ Hok.
    destruct (LocalWorker.output_file tc) as [f|]; cbn [Py.truthy] in Hout;
      [|discriminate].
    destruct (negb (f =? "")%string); [|discriminate].
    rewrite first_invalid_none in Hout; [discriminate|].
    intros g [<-|[]]. now apply Hok. }
  rewrite Hempty. simpl. auto.
Qed.
End EmptyPrompt.

(** C8 (as amended).  A delegate request that has some key and whose
    prompt is empty is answered with status 400 and the error
    [No prompt provided]; the store and the Executor are left untouched, so
    no task is created.  On the worker, [process_task] on a task whose
    prompt is empty returns [success = False] without touching the store
    or the Executor; its error is [Prompt is empty] whenever the task's
    input files and output file pass validation. *)
Theorem empty_prompt_rejected :
  (forall dumps_content dumps_outcome gemini_exec env task_id now data w,
      Api.no_keys data = false ->
      Api.get (Api.content data) (Api.get (Api.prompt data) "") = "" ->
      Api.delegate_task dumps_content dumps_outcome gemini_exec env task_id
                        now (Api.Json data) w
      = (Api.mk_response 400 (Api.Error "No prompt provided"), w))
  /\ (forall validate executor worker_id now task_id tc w,
         Exec.empty (LocalWorker.prompt tc) = true ->
         let out := LocalWorker.process_task validate executor worker_id now
                      task_id tc w in
         Exec.success (fst out) = false /\ snd out = w
         /\ ((forall f, In f (Api.get (LocalWorker.files tc) []) ->
                        fst (validate f) = true) ->
             (forall f, LocalWorker.output_file tc = Some f ->
                        fst (validate f) = true) ->
             fst out = Exec.mk_outcome false "" (Some "Prompt is empty"))).
Proof.
  split.
  - intros dumps_content dumps_outcome gemini_exec env task_id now data w
           Hkeys Hprompt.
    unfold Api.delegate_task. rewrite Hkeys. cbn [Api.tc_prompt].
    now rewrite Hprompt.
  - intros. now apply process_task_empty_prompt.
Qed.

(** C8 as stated fails: the request of scenario S5 is answered 400 with
    [No prompt provided], not with a completed task whose result carries
    [Prompt is empty]. *)
Lemma delegate_empty_prompt_is_refused :
  let out := Api.delegate_task (fun _ => "{}") (fun _ => "{}")
               (fun _ => Exec.mk_outcome true "" None) [] "task_1" 100
               (Api.Json Sample.empty_prompt_request) Sample.world0 in
  fst out = Api.mk_response 400 (Api.Error "No prompt provided")
  /\ (forall task_id result, Api.payload (fst out) <> Api.Completed task_id result)
  /\ snd out = Sample.world0.
Proof.
  repeat split. intros task_id result. discriminate.
Qed.

(** The empty-prompt theorem on the request of scenario S5. *)
Lemma empty_prompt_rejected_witness :
  Api.no_keys Sample.empty_prompt_request = false
  /\ Api.get (Api.content Sample.empty_prompt_request)
             (Api.get (Api.prompt Sample.empty_prompt_request) "") = ""
  /\ Exec.empty (LocalWorker.prompt Sample.empty_prompt_task) = true
  /\ Api.delegate_task (fun _ => "{}") (fun _ => "{}")
       (fun _ => Exec.mk_outcome true "" None) [] "task_1" 100
       (Api.Json Sample.empty_prompt_request) Sample.world0
     = (Api.mk_response 400 (Api.Error "No prompt provided"), Sample.world0)
  /\ (let out := LocalWorker.process_task
                   (fun _ => (true, "")) (fun _ _ _ => Exec.mk_outcome true "" None)
                   "w1" 100 "t1" Sample.empty_prompt_task Sample.world0 in
      Exec.success (fst out) = false /\ snd out = Sample.world0
      /\ ((forall f, In f (Api.get (LocalWorker.files Sample.empty_prompt_task) []) ->
                     fst ((fun _ : string => (true, "")) f) = true) ->
          (forall f, LocalWorker.output_file Sample.empty_prompt_task = Some f ->
                     fst ((fun _ : string => (true, "")) f) = true) ->
          fst out = Exec.mk_outcome false "" (Some "Prompt is empty"))).
Proof.
  assert (H1 : Api.no_keys Sample.empty_prompt_request = false)
    by reflexivity.
  assert (H2 : Api.get (Api.content Sample.empty_prompt_request)
                 (Api.get (Api.prompt Sample.empty_prompt_request) "") = "")
    by reflexivity.
  assert (H3 : Exec.empty (LocalWorker.prompt Sample.empty_prompt_task) = true)
    by reflexivity.
  repeat (split; [assumption|]).
  split.
  - exact (proj1 empty_prompt_rejected _ _ _ _ _ _ _ _ H1 H2).
  - exact (proj2 empty_prompt_rejected (fun _ => (true, ""))
             (fun _ _ _ => Exec.mk_outcome true "" None) "w1" 100%Z "t1"
             Sample.empty_prompt_task Sample.world0 H3).
Defined.

(* ================================================================== *)
(** * Further properties of the store *)

Section SortFacts.
Variable A : Type.

Section Perm.
Variable le : A -> A -> bool.

Lemma insert_by_perm x l : Permutation (Stable.insert_by le x l) (x :: l).
Proof.
  induction l as [|y l IH]; simpl; [reflexivity|].
  destruct (le x y); [reflexivity|].
  rewrite IH. apply perm_swap.
Qed.

Lemma sort_by_perm l : Permutation (Stable.sort_by le l) l.
Proof.
  induction l as [|x l IH]; simpl; [reflexivity|].
  rewrite insert_by_perm. now apply perm_skip.
Qed.
End Perm.

Lemma firstn_In n (l : list A) a : In a (firstn n l) -> In a l.
Proof.
  revert n. induction l as [|x l IH]; intros [|n]; simpl; try tauto.
  intros [H|H]; [now left|right; now apply (IH n)].
Qed.

Lemma skipn_In n (l : list A) a : In a (skipn n l) -> In a l.
Proof.
  revert n. induction l as [|x l IH]; intros [|n]; simpl; try tauto.
  intros H. right. now apply (IH n).
Qed.

Lemma sorted_split (R : A -> A -> Prop) n l :
  StronglySorted R l ->
  StronglySorted R (firstn n l)
  /\ forall a b, In a (firstn n l) -> In b (skipn n l) -> R a b.
Proof.
  intros Hs. revert n. induction Hs as [|x l Hs IH Hx]; intros n.
  - rewrite firstn_nil, skipn_nil. split; [constructor|intros a b []].
  - destruct n as [|n]; simpl.
    + split; [constructor|intros a b []].
    + destruct (IH n) as [IH1 IH2]. split.
      * constructor; [exact IH1|].
        rewrite Forall_forall in Hx |- *. intros a Ha.
        apply Hx. eapply firstn_In; eassumption.
      * intros a b [<-|Ha] Hb.
        -- rewrite Forall_forall in Hx. apply Hx.
           eapply skipn_In; eassumption.
        -- now apply IH2.
Qed.
End SortFacts.

(** X1.  [get_pending_tasks(limit)] returns pending rows only, the first
    [limit] of them in queue order: what it returns is sorted by priority
    (highest first) and then by creation time, every pending row it leaves
    out comes no earlier than the ones returned, and it returns
    [min(limit, number of pending rows)] rows. *)
Theorem get_pending_tasks_queue_order :
  forall lim s,
    let pending := filter (Task.has_status "pending") (Store.task_master s) in
    let l := Store.get_pending_tasks lim s in
    exists rest,
      Permutation (l ++ rest) pending
      /\ List.length l = Nat.min lim (List.length pending)
      /\ StronglySorted Task.no_later l
      /\ (forall a b, In a l -> In b rest -> Task.no_later a b).
Proof.
  intros lim s pending l.
  exists (skipn lim (Stable.sort_by Task.queue_le pending)).
  unfold l, Store.get_pending_tasks, Sql.limit. fold pending.
  assert (Hs : StronglySorted Task.no_later
                 (Stable.sort_by Task.queue_le pending)).
  { pose proof (@sort_by_sorted _ Task.queue_le queue_le_total
                  queue_le_trans pending) as H.
    induction H as [|x l' H IH Hx]; constructor; [exact IH|].
    eapply Forall_impl; [|exact Hx].
    intros b Hb. now apply queue_le_spec. }
  destruct (sorted_split Task.row Task.no_later lim _ Hs) as [H1 H2].
  repeat split; try assumption.
  - rewrite firstn_skipn. apply sort_by_perm.
  - rewrite length_firstn.
    now rewrite (Permutation_length (sort_by_perm _ Task.queue_le pending)).
Qed.

Section Lookup.
Import Sql Store.

Lemma get_task_some tid s t :
  get_task tid s = Some t -> In t (task_master s) /\ Task.task_id t = tid.
Proof.
  unfold get_task. intros H. apply find_some in H.
  now rewrite String.eqb_eq in H.
Qed.

Lemma get_task_none tid s :
  get_task tid s = None <->
  forall t, In t (task_master s) -> Task.task_id t <> tid.
Proof.
  unfold get_task. split.
  - intros H t Ht Hid.
    pose proof (find_none _ _ H t Ht) as Hn. simpl in Hn.
    apply String.eqb_neq in Hn. contradiction.
  - intros H. induction (task_master s) as [|x l IH]; simpl; [reflexivity|].
    destruct (String.eqb_spec (Task.task_id x) tid) as [E|E].
    + elim (H x (or_introl eq_refl) E).
    + apply IH. intros t Ht. apply H. now right.
Qed.

Lemma get_task_unique tid s t :
  NoDup (task_ids s) -> In t (task_master s) -> Task.task_id t = tid ->
  get_task tid s = Some t.
Proof.
  unfold get_task, task_ids.
  induction (task_master s) as [|x l IH]; simpl; intros Hnd Ht Hid;
    [destruct Ht|].
  inversion Hnd as [|? ? Hx Hl]. subst.
  destruct Ht as [->|Ht].
  - now rewrite String.eqb_refl.
  - destruct (String.eqb_spec (Task.task_id x) (Task.task_id t)) as [E|E].
    + elim Hx. rewrite E. now apply in_map.
    + now apply IH.
Qed.

(** Looking a row up after an UPDATE that keeps the key. *)
Lemma find_after_update (row : Type) (key : row -> string) k g (l : list row) :
  (forall r, key (g r) = key r) ->
  find (fun r => (key r =? k)%string) (map g l)
  = option_map g (find (fun r => (key r =? k)%string) l).
Proof.
  intros Hkey. induction l as [|x l IH]; simpl; [reflexivity|].
  rewrite Hkey. destruct (key x =? k)%string; [reflexivity|exact IH].
Qed.

Lemma find_app_miss (row : Type) (p : row -> bool) l1 l2 :
  find p l1 = None -> find p (l1 ++ l2) = find p l2.
Proof.
  induction l1 as [|x l IH]; simpl; [reflexivity|].
  destruct (p x); [discriminate|exact IH].
Qed.

Lemma find_app_hit (row : Type) (p : row -> bool) l1 l2 r :
  find p l1 = Some r -> find p (l1 ++ l2) = Some r.
Proof.
  induction l1 as [|x l IH]; simpl; [discriminate|].
  destruct (p x); [tauto|exact IH].
Qed.

Lemma existsb_find (row : Type) (p : row -> bool) l :
  existsb p l = true <-> find p l <> None.
Proof.
  induction l as [|x l IH]; simpl; [split; [discriminate|congruence]|].
  destruct (p x); simpl; [split; [discriminate|reflexivity]|exact IH].
Qed.

Lemma retry_any (A : Type) (dflt : A) body env s :
  retry dflt body env s = (dflt, s)
  \/ exists a s', body s = Return a s' /\ retry dflt body env s = (a, s').
Proof. apply retry_from_cases. Qed.
End Lookup.

(** X2.  [create_task] and [get_task] round trip.  When SQLite lets the
    transaction run: for an id not yet in [task_master], [create_task]
    returns True and [get_task] then finds the new row, [pending], with the
    content and priority given and NULL [assigned_to]; every other id looks
    up as before and the primary key stays a key.  For an id already
    present it returns False and changes nothing. *)
Theorem create_task_round_trip :
  forall env now tid content prio created_by s,
    Store.transaction_runs env ->
    let out := Store.create_task env now tid content prio created_by s in
    (Store.get_task tid s = None ->
       fst out = true
       /\ Store.get_task tid (snd out)
          = Some (Task.mk tid content "pending" prio None (Some created_by)
                          None now now)
       /\ (forall other, other <> tid ->
                         Store.get_task other (snd out)
                         = Store.get_task other s)
       /\ Store.workers (snd out) = Store.workers s
       /\ (NoDup (Store.task_ids s) -> NoDup (Store.task_ids (snd out))))
    /\ (Store.get_task tid s <> None -> out = (false, s)).
Proof.
  intros env now tid content prio created_by s Hrun out.
  unfold out, Store.create_task. split.
  - intros Hnone.
    assert (Hb : Store.create_body now tid content prio created_by s
                 = Store.Return true
                     (Store.mk (Store.task_master s
                                ++ [Task.mk tid content "pending" prio None
                                            (Some created_by) None now now])
                               (Store.workers s)
                               (Store.worker_notifications s))).
    { unfold Store.create_body.
      destruct (existsb _ (Store.task_master s)) eqn:E; [|reflexivity].
      apply existsb_find in E. now elim E. }
    erewrite retry_runs by eassumption. cbn [fst snd].
    split; [reflexivity|]. split; [|split; [|split; [reflexivity|]]].
    + unfold Store.get_task. cbn [Store.task_master].
      rewrite find_app_miss by exact Hnone. simpl.
      now rewrite String.eqb_refl.
    + intros other Hother. unfold Store.get_task. cbn [Store.task_master].
      destruct (find _ (Store.task_master s)) as [r|] eqn:Ef.
      * now apply find_app_hit.
      * rewrite find_app_miss by exact Ef. simpl.
        destruct (String.eqb_spec tid other); [congruence|reflexivity].
    + unfold Store.task_ids. cbn [Store.task_master]. intros Hnd.
      rewrite map_app. simpl.
      apply NoDup_app; [exact Hnd|repeat constructor; intros []|].
      intros x Hx [<-|[]]. apply in_map_iff in Hx.
      destruct Hx as (t & Hid & Ht).
      exact (proj1 (get_task_none _ _) Hnone t Ht Hid).
  - intros Hsome.
    erewrite retry_runs; [reflexivity|eassumption|].
    unfold Store.create_body.
    destruct (existsb _ (Store.task_master s)) eqn:E; [reflexivity|].
    elim Hsome. unfold Store.get_task.
    destruct (find _ _) eqn:Ef; [|reflexivity].
    assert (existsb (fun t => (Task.task_id t =? tid)%string)
                    (Store.task_master s) = true)
      by (apply existsb_find; congruence).
    congruence.
Qed.

Section Updates.
Import Sql Store.

Lemma get_task_update p f now_tasks tid :
  (forall r, Task.task_id (f r) = Task.task_id r) ->
  find (fun t => (Task.task_id t =? tid)%string)
       (update_where p f now_tasks)
  = option_map (fun r => if p r then f r else r)
               (find (fun t => (Task.task_id t =? tid)%string) now_tasks).
Proof.
  intros Hkey. unfold update_where. apply find_after_update.
  intros r. destruct (p r); [apply Hkey|reflexivity].
Qed.

Lemma update_where_keys (row : Type) (key : row -> string) p f (l : list row) :
  (forall r, key (f r) = key r) ->
  map key (update_where p f l) = map key l.
Proof.
  intros Hkey. unfold update_where. rewrite map_map.
  apply map_ext. intros r. destruct (p r); [apply Hkey|reflexivity].
Qed.

Lemma update_where_In (row : Type) p f (l : list row) x :
  In x (update_where p f l) ->
  (exists r, In r l /\ p r = true /\ x = f r) \/ (In x l /\ p x = false).
Proof.
  unfold update_where. rewrite in_map_iff. intros (r & Hx & Hr).
  destruct (p r) eqn:E; subst x; [left; now exists r|right; now split].
Qed.

(** An UPDATE whose new rows are never [pending] keeps pending tasks
    unassigned. *)
Lemma pending_unassigned_update p f s ws ns :
  pending_unassigned s ->
  (forall r, Task.status (f r) = "pending" -> Task.assigned_to (f r) = None) ->
  pending_unassigned (mk (update_where p f (task_master s)) ws ns).
Proof.
  intros Hinv Hf t Ht Hp. cbn [task_master] in Ht.
  apply update_where_In in Ht.
  destruct Ht as [(r & _ & _ & ->)|[Ht _]]; [now apply Hf|now apply Hinv].
Qed.

Lemma acquire_body_some now wid s c s' :
  acquire_body now wid s = Return (Some c) s' ->
  exists r, In r (task_master s) /\ Task.status r = "pending"
            /\ c = mk_claimed (Task.task_id r) (Task.content r)
                              (Task.priority r) (Task.created_at r)
            /\ s' = mk (update_where (assign_cond (Task.task_id r))
                                     (assign_set wid now) (task_master s))
                       (update_where (Worker.is_worker wid)
                                     (claim_worker (Task.task_id r) now)
                                     (workers s))
                       (worker_notifications s).
Proof.
  intros H.
  destruct (filter (Task.has_status "pending") (task_master s))
    as [|x l] eqn:E.
  - unfold acquire_body in H. rewrite E in H. simpl in H. discriminate.
  - assert (Hx : In x (filter (Task.has_status "pending") (task_master s)))
      by (rewrite E; now left).
    apply filter_In in Hx. destruct Hx as [Hx Hp].
    apply has_status_true in Hp.
    destruct (acquire_body_head now wid s (ex_intro _ x (conj Hx Hp)))
      as (r & Hr & Hpr & _ & Hb).
    rewrite Hb in H. inversion H. subst. now exists r.
Qed.

Lemma fold_count_update (f : Worker.row -> Z) (g : Worker.row -> Worker.row)
      (d : Z) p (l : list Worker.row) :
  (forall w, f (g w) = f w + d)%Z ->
  fold_right (fun w acc => (f w + acc)%Z) 0%Z (update_where p g l)
  = (fold_right (fun w acc => (f w + acc)%Z) 0%Z l
     + d * Z.of_nat (rowcount p l))%Z.
Proof.
  intros Hg. unfold update_where, rowcount.
  induction l as [|x l IH]; simpl; [lia|].
  rewrite IH. destruct (p x); simpl List.length; [rewrite Hg|]; lia.
Qed.

Lemma rowcount_key (row : Type) (key : row -> string) (l : list row) r :
  NoDup (map key l) -> In r l ->
  rowcount (fun x => (key x =? key r)%string) l = 1%nat.
Proof.
  unfold rowcount. induction l as [|x l IH]; simpl; intros Hnd Hr;
    [destruct Hr|].
  inversion Hnd as [|? ? Hx Hl]. subst.
  destruct Hr as [->|Hr].
  - rewrite String.eqb_refl. simpl. f_equal.
    fold (rowcount (fun x => (key x =? key r)%string) l).
    apply rowcount_zero. intros y Hy. apply String.eqb_neq. intros E.
    apply Hx. rewrite <- E. now apply in_map.
  - destruct (String.eqb_spec (key x) (key r)) as [E|E].
    + elim Hx. rewrite E. now apply in_map.
    + now apply IH.
Qed.
End Updates.

(** X3.  [assign_task_to_worker] of the database manager is conditional on
    the task being pending.  With task ids a key: it returns True exactly
    when the task exists and is pending, and then the task reads
    [in_progress], assigned to the worker, with nothing else of the row
    changed but [updated_at]; otherwise the store is unchanged.  Lookups of
    every other id are the same afterwards, and the worker table is never
    touched: the worker need not exist. *)
Theorem assign_task_to_worker_pending_only :
  forall now tid wid s,
    NoDup (Store.task_ids s) ->
    let out := Store.assign_task_to_worker now tid wid s in
    (fst out = true <->
     exists t, Store.get_task tid s = Some t /\ Task.status t = "pending")
    /\ (forall t, Store.get_task tid s = Some t ->
                  Task.status t = "pending" ->
                  Store.get_task tid (snd out)
                  = Some (Task.mk tid (Task.content t) "in_progress"
                                  (Task.priority t) (Task.result t)
                                  (Task.created_by t) (Some wid)
                                  (Task.created_at t) now))
    /\ (fst out = false -> snd out = s)
    /\ (forall other, other <> tid ->
                      Store.get_task other (snd out)
                      = Store.get_task other s)
    /\ Store.workers (snd out) = Store.workers s
    /\ Store.task_ids (snd out) = Store.task_ids s.
Proof.
  intros now tid wid s Hnd out. unfold out, Store.assign_task_to_worker.
  cbn [fst snd Store.workers].
  split; [|split; [|split; [|split; [|split]]]].
  - rewrite negb_true_iff. split.
    + intros H. apply rowcount_witness in H. destruct H as (r & Hr & Hc).
      apply assign_cond_true in Hc. destruct Hc as [Hid Hp].
      exists r. split; [now apply get_task_unique|exact Hp].
    + intros (t & Hg & Hp). apply get_task_some in Hg.
      destruct Hg as [Ht Hid].
      eapply rowcount_pos; [exact Ht|]. now apply assign_cond_true.
  - intros t Hg Hp. unfold Store.get_task in *. cbn [Store.task_master].
    rewrite get_task_update by reflexivity. rewrite Hg. simpl.
    destruct (get_task_some tid s t Hg) as [_ Hid].
    rewrite (proj2 (assign_cond_true tid t) (conj Hid Hp)).
    unfold Store.assign_set. now rewrite Hid.
  - rewrite negb_false_iff, Nat.eqb_eq, rowcount_zero. intros H.
    rewrite update_where_none by exact H. now destruct s.
  - intros other Hother. unfold Store.get_task. cbn [Store.task_master].
    rewrite get_task_update by reflexivity.
    destruct (find _ (Store.task_master s)) as [r|] eqn:Ef; [|reflexivity].
    simpl. apply find_some in Ef. destruct Ef as [_ Ef].
    apply String.eqb_eq in Ef.
    destruct (Store.assign_cond tid r) eqn:Ec; [|reflexivity].
    apply assign_cond_true in Ec. destruct Ec as [Ec _]. congruence.
  - reflexivity.
  - unfold Store.task_ids. cbn [Store.task_master].
    now apply update_where_keys.
Qed.

Lemma sample_queue_keys : NoDup (Store.task_ids Sample.queue).
Proof.
  vm_compute. repeat constructor; simpl; intuition discriminate.
Defined.

Lemma assign_task_to_worker_pending_only_witness :
  NoDup (Store.task_ids Sample.queue)
  /\ fst (Store.assign_task_to_worker 50 "T2" "w9" Sample.queue) = true.
Proof.
  split; [exact sample_queue_keys|].
  apply (proj1 (assign_task_to_worker_pending_only 50 "T2" "w9" Sample.queue
                  sample_queue_keys)).
  eexists. split; [vm_compute; reflexivity|reflexivity].
Defined.

Lemma create_task_round_trip_witness :
  Store.transaction_runs [Store.Locked; Store.Runs]
  /\ fst (Store.create_task [Store.Locked; Store.Runs] 7 "T4" "{}" 5
                            "claude_code" Sample.queue) = true
  /\ Store.create_task [Store.Locked; Store.Runs] 8 "T4" "{}" 5 "claude_code"
       (snd (Store.create_task [Store.Locked; Store.Runs] 7 "T4" "{}" 5
                               "claude_code" Sample.queue))
     = (false,
        snd (Store.create_task [Store.Locked; Store.Runs] 7 "T4" "{}" 5
                               "claude_code" Sample.queue)).
Proof.
  assert (Hrun : Store.transaction_runs [Store.Locked; Store.Runs]).
  { exists 1%nat. split; [lia|]. split; [reflexivity|].
    intros j Hj. assert (j = 0%nat) by lia. now subst. }
  split; [exact Hrun|]. split.
  - apply (proj1 (create_task_round_trip [Store.Locked; Store.Runs] 7 "T4"
                    "{}" 5 "claude_code" Sample.queue Hrun)).
    reflexivity.
  - apply (proj2 (create_task_round_trip [Store.Locked; Store.Runs] 8 "T4"
                    "{}" 5 "claude_code" _ Hrun)).
    vm_compute. discriminate.
Defined.

(** X4.  No task is handed out twice.  Whatever SQLite does at each
    attempt, whichever workers ask and whenever: if [acquire_next_task]
    returns a task and a later call, with any other operations of the
    workers' protocol left out in between, returns one as well, the two
    have different ids.  The claimed task is no longer pending, and stays
    in the table. *)
Theorem acquire_next_task_never_twice :
  forall env1 env2 now1 now2 w1 w2 s c1 s1 c2 s2,
    Store.acquire_next_task env1 now1 w1 s = (Some c1, s1) ->
    Store.acquire_next_task env2 now2 w2 s1 = (Some c2, s2) ->
    Store.c_task_id c1 <> Store.c_task_id c2
    /\ (forall t, In t (Store.task_master s1) ->
                  Task.task_id t = Store.c_task_id c1 ->
                  Task.status t <> "pending")
    /\ Store.task_ids s2 = Store.task_ids s.
Proof.
  intros env1 env2 now1 now2 w1 w2 s c1 s1 c2 s2 H1 H2.
  unfold Store.acquire_next_task in *.
  destruct (retry_any _ None (Store.acquire_body now1 w1) env1 s)
    as [E|(a & s' & Hb & E)]; rewrite E in H1; [discriminate|].
  inversion H1; subst a s'. clear H1 E.
  destruct (retry_any _ None (Store.acquire_body now2 w2) env2 s1)
    as [E|(a & s' & Hb2 & E)]; rewrite E in H2; [discriminate|].
  inversion H2; subst a s'. clear H2 E.
  apply acquire_body_some in Hb. destruct Hb as (r & Hr & Hp & -> & ->).
  apply acquire_body_some in Hb2. destruct Hb2 as (r2 & Hr2 & Hp2 & -> & ->).
  cbn [Store.c_task_id Store.task_master] in *.
  assert (Hgone : forall t,
             In t (Sql.update_where (Store.assign_cond (Task.task_id r))
                     (Store.assign_set w1 now1) (Store.task_master s)) ->
             Task.task_id t = Task.task_id r -> Task.status t <> "pending").
  { intros t Ht Hid Hpt. apply update_where_In in Ht.
    destruct Ht as [(x & _ & _ & ->)|[_ Hc]]; [discriminate|].
    rewrite (proj2 (assign_cond_true _ t) (conj Hid Hpt)) in Hc.
    discriminate. }
  split; [|split; [exact Hgone|]].
  - intros E. exact (Hgone r2 Hr2 (eq_sym E) Hp2).
  - unfold Store.task_ids. cbn [Store.task_master].
    now rewrite !update_where_keys by reflexivity.
Qed.

Lemma acquire_next_task_never_twice_witness :
  Store.c_task_id (Store.mk_claimed "T1" "{}" 9 1)
  <> Store.c_task_id (Store.mk_claimed "T3" "{}" 9 3).
Proof.
  refine (proj1 (acquire_next_task_never_twice [] [Store.Locked] 100 101
                   "w1" "w1" Sample.queue _ _ _ _ _ _)).
  - vm_compute. reflexivity.
  - vm_compute. reflexivity.
Defined.

(** X5.  "A pending task is assigned to nobody" is an invariant of the
    queue protocol: creating a task, claiming one, assigning one,
    completing one and reaping dead workers all keep it, whatever SQLite
    does at each attempt.  Under it no worker can complete a task that is
    still pending: [complete_task_with_stats] returns False on it and
    changes nothing. *)
Theorem pending_unassigned_preserved :
  forall s,
    Store.pending_unassigned s ->
    (forall env now tid content prio created_by,
        Store.pending_unassigned
          (snd (Store.create_task env now tid content prio created_by s)))
    /\ (forall env now wid,
           Store.pending_unassigned
             (snd (Store.acquire_next_task env now wid s)))
    /\ (forall now tid wid,
           Store.pending_unassigned
             (snd (Store.assign_task_to_worker now tid wid s)))
    /\ (forall env now tid wid res success,
           Store.pending_unassigned
             (snd (Store.complete_task_with_stats env now tid wid res
                                                  success s)))
    /\ (forall now T,
           Store.pending_unassigned
             (snd (Store.cleanup_dead_workers now T s)))
    /\ (forall env now tid wid res success,
           (forall t, In t (Store.task_master s) -> Task.task_id t = tid ->
                      Task.status t = "pending") ->
           Store.complete_task_with_stats env now tid wid res success s
           = (false, s)).
Proof.
  intros s Hinv.
  split; [|split; [|split; [|split; [|split]]]].
  - intros env now tid content prio created_by. unfold Store.create_task.
    destruct (retry_any _ false
                (Store.create_body now tid content prio created_by) env s)
      as [E|(a & s' & Hb & E)]; rewrite E; [exact Hinv|]. cbn [snd].
    unfold Store.create_body in Hb.
    destruct (existsb _ _); inversion Hb; subst; [exact Hinv|].
    intros t Ht Hp. cbn [Store.task_master] in Ht.
    apply in_app_or in Ht. destruct Ht as [Ht|[<-|[]]];
      [now apply Hinv|reflexivity].
  - intros env now wid. unfold Store.acquire_next_task.
    destruct (retry_any _ None (Store.acquire_body now wid) env s)
      as [E|(a & s' & Hb & E)]; rewrite E; [exact Hinv|]. cbn [snd].
    destruct a as [c|].
    + apply acquire_body_some in Hb. destruct Hb as (r & _ & _ & _ & ->).
      apply pending_unassigned_update; [exact Hinv|]. discriminate.
    + unfold Store.acquire_body in Hb.
      destruct (Sql.limit 1 _); [inversion Hb; subst; exact Hinv|].
      destruct (_ =? _)%nat; discriminate.
  - intros now tid wid. unfold Store.assign_task_to_worker. cbn [snd].
    apply pending_unassigned_update; [exact Hinv|]. discriminate.
  - intros env now tid wid res success.
    unfold Store.complete_task_with_stats.
    destruct (retry_any _ false
                (Store.complete_body now tid wid res success) env s)
      as [E|(a & s' & Hb & E)]; rewrite E; [exact Hinv|]. cbn [snd].
    unfold Store.complete_body in Hb.
    destruct (_ =? _)%nat; inversion Hb; subst; [exact Hinv|].
    apply pending_unassigned_update; [exact Hinv|].
    destruct success; discriminate.
  - intros now T. unfold Store.cleanup_dead_workers. cbn [snd].
    apply pending_unassigned_update; [exact Hinv|]. reflexivity.
  - intros env now tid wid res success Hpend.
    unfold Store.complete_task_with_stats.
    destruct (retry_any _ false
                (Store.complete_body now tid wid res success) env s)
      as [E|(a & s' & Hb & E)]; rewrite E; [reflexivity|].
    unfold Store.complete_body in Hb.
    destruct (_ =? _)%nat eqn:Ec; inversion Hb; subst; [reflexivity|].
    apply rowcount_witness in Ec. destruct Ec as (r & Hr & Hc).
    apply complete_cond_true in Hc. destruct Hc as [Hid Has].
    rewrite (Hinv r Hr (Hpend r Hr Hid)) in Has. discriminate.
Qed.

Lemma sample_queue_unassigned : Store.pending_unassigned Sample.queue.
Proof.
  intros t Ht _. simpl in Ht.
  destruct Ht as [<-|[<-|[<-|[]]]]; reflexivity.
Defined.

Lemma pending_unassigned_preserved_witness :
  Store.pending_unassigned Sample.queue
  /\ Store.pending_unassigned
       (snd (Store.acquire_next_task [] 100 "w1" Sample.queue)).
Proof.
  split; [exact sample_queue_unassigned|].
  exact (proj1 (proj2 (pending_unassigned_preserved Sample.queue
                         sample_queue_unassigned)) [] 100%Z "w1").
Defined.

(** X6.  The workers' counters follow the completions.  With worker ids a
    key, a call of [complete_task_with_stats] that returns True for a
    registered worker raises the total of [tasks_completed] by one on
    success and the total of [tasks_failed] by one on failure, and leaves
    the other total alone; the worker is idle afterwards with no current
    task.  For a worker with no row the task is still finalised, and no
    counter moves. *)
Theorem complete_task_with_stats_counts :
  forall env now tid wid res success s,
    let out := Store.complete_task_with_stats env now tid wid res success s in
    fst out = true ->
    NoDup (Store.worker_ids s) ->
    (In wid (Store.worker_ids s) ->
       Store.total_completed (snd out)
       = (Store.total_completed s + (if success then 1 else 0))%Z
       /\ Store.total_failed (snd out)
          = (Store.total_failed s + (if success then 0 else 1))%Z
       /\ exists w, In w (Store.workers (snd out))
                    /\ Worker.worker_id w = wid
                    /\ Worker.status w = "idle"
                    /\ Worker.current_task w = None
                    /\ Worker.last_heartbeat w = now)
    /\ (~ In wid (Store.worker_ids s) ->
        Store.workers (snd out) = Store.workers s
        /\ exists t, In t (Store.task_master (snd out))
                     /\ Task.task_id t = tid
                     /\ Task.status t
                        = if success then "completed" else "failed").
Proof.
  intros env now tid wid res success s out Hok Hnd. unfold out in *.
  unfold Store.complete_task_with_stats in *.
  destruct (retry_any _ false
              (Store.complete_body now tid wid res success) env s)
    as [E|(a & s' & Hb & E)]; rewrite E in *; [discriminate|].
  cbn [fst snd] in *. subst a. unfold Store.complete_body in Hb.
  destruct (_ =? _)%nat eqn:Ec; inversion Hb; subst s'; clear Hb.
  cbn [Store.workers Store.task_master]. split.
  - intros Hin. unfold Store.worker_ids in Hin, Hnd.
    apply in_map_iff in Hin. destruct Hin as (w & Hid & Hw).
    assert (Hone : Sql.rowcount (Worker.is_worker wid) (Store.workers s)
                   = 1%nat).
    { subst wid. exact (rowcount_key _ Worker.worker_id _ w Hnd Hw). }
    unfold Store.total_completed, Store.total_failed.
    cbn [Store.workers]. split; [|split].
    + rewrite (fold_count_update Worker.tasks_completed
                 (Store.count_task success now)
                 (if success then 1 else 0)%Z)
        by (intros x; destruct success; simpl; lia).
      rewrite Hone. destruct success; lia.
    + rewrite (fold_count_update Worker.tasks_failed
                 (Store.count_task success now)
                 (if success then 0 else 1)%Z)
        by (intros x; destruct success; simpl; lia).
      rewrite Hone. destruct success; lia.
    + exists (Store.count_task success now w). split; [|now repeat split].
      unfold Sql.update_where. apply in_map_iff. exists w.
      split; [|exact Hw]. unfold Worker.is_worker.
      now rewrite (proj2 (String.eqb_eq _ _) Hid).
  - intros Hout. split.
    + apply update_where_none. intros w Hw. unfold Worker.is_worker.
      apply String.eqb_neq. intros Hid. apply Hout.
      unfold Store.worker_ids. rewrite <- Hid. now apply in_map.
    + apply rowcount_witness in Ec. destruct Ec as (r & Hr & Hc).
      exists (Store.complete_set (if success then "completed" else "failed")
                                 res now r).
      split; [|split; [|reflexivity]].
      * unfold Sql.update_where. apply in_map_iff. exists r.
        now rewrite Hc.
      * apply complete_cond_true in Hc. simpl. tauto.
Qed.

Lemma complete_task_with_stats_counts_witness :
  fst (Store.complete_task_with_stats [] 200 "t1" "w1" "done" true
                                      Sample.running) = true
  /\ NoDup (Store.worker_ids Sample.running)
  /\ Store.total_completed
       (snd (Store.complete_task_with_stats [] 200 "t1" "w1" "done" true
                                            Sample.running))
     = (Store.total_completed Sample.running + 1)%Z.
Proof.
  assert (Hnd : NoDup (Store.worker_ids Sample.running))
    by (vm_compute; repeat constructor; simpl; tauto).
  split; [reflexivity|]. split; [exact Hnd|].
  apply (proj1 (complete_task_with_stats_counts [] 200 "t1" "w1" "done" true
                  Sample.running eq_refl Hnd)).
  vm_compute. now left.
Defined.

(** X7.  [get_active_workers(T)] and [cleanup_dead_workers(T)] split the
    worker table at the same clock.  For [T >= 0] the rows cleanup leaves
    are the list [get_active_workers] returns, in the same order, and the
    number it returns is the number of the others.  For a negative [T] the
    cutoff is NULL: no worker is active and none is dead, and cleanup
    changes nothing. *)
Theorem active_and_dead_workers_split :
  forall now T s,
    let out := Store.cleanup_dead_workers now T s in
    ((0 <= T)%Z ->
       Store.workers (snd out) = Store.get_active_workers now T s
       /\ (fst out + List.length (Store.get_active_workers now T s)
           = List.length (Store.workers s))%nat
       /\ Store.get_active_workers now T (snd out) = Store.workers (snd out))
    /\ ((T < 0)%Z ->
        Store.get_active_workers now T s = [] /\ out = (0%nat, s)).
Proof.
  intros now T s out. unfold out, Store.cleanup_dead_workers,
    Store.get_active_workers, Store.cutoff.
  cbn [fst snd Store.workers]. split.
  - intros HT. destruct (T <? 0)%Z eqn:E; [apply Z.ltb_lt in E; lia|].
    assert (Hsame : Sql.delete_where (Store.stale (Some (now - T)%Z))
                                     (Store.workers s)
                    = filter (Store.fresh (Some (now - T)%Z))
                             (Store.workers s)).
    { unfold Sql.delete_where. apply filter_ext. intros w. simpl.
      now rewrite Z.leb_antisym, negb_involutive. }
    split; [exact Hsame|]. split.
    + rewrite <- Hsame. apply rowcount_delete.
    + rewrite Hsame. clear Hsame.
      generalize (Store.workers s). intros l.
      induction l as [|w l IH]; simpl; [reflexivity|].
      destruct (now - T <? Worker.last_heartbeat w)%Z eqn:Ew; simpl;
        [rewrite Ew; now f_equal|exact IH].
  - intros HT. destruct (T <? 0)%Z eqn:E; [|apply Z.ltb_ge in E; lia].
    split.
    + induction (Store.workers s) as [|w l IH]; simpl; [reflexivity|exact IH].
    + unfold Store.dead_ids, Sql.rowcount.
      assert (Hn : filter (Store.stale None) (Store.workers s) = []).
      { induction (Store.workers s) as [|w l IH]; simpl;
          [reflexivity|exact IH]. }
      rewrite Hn. simpl.
      rewrite update_where_none by (intros; apply orphaned_nil).
      rewrite delete_where_none by reflexivity.
      now destruct s.
Qed.

Lemma active_and_dead_workers_split_witness :
  (0 <= 60)%Z
  /\ Store.workers (snd (Store.cleanup_dead_workers 100 60 Sample.orphan))
     = Store.get_active_workers 100 60 Sample.orphan
  /\ (-5 < 0)%Z
  /\ Store.get_active_workers 100 (-5) Sample.race = [].
Proof.
  split; [lia|]. split.
  - apply (proj1 (active_and_dead_workers_split 100 60 Sample.orphan)). lia.
  - split; [lia|].
    apply (proj2 (active_and_dead_workers_split 100 (-5) Sample.race)). lia.
Defined.

(** X8.  What [cleanup_dead_workers] leaves alone.  A task row stays
    exactly as it was unless it is [in_progress] and assigned to a worker
    row whose heartbeat is stale; in particular a task in progress at a
    worker that has no row at all is never released.  The task ids and
    their order, and the notification table, are unchanged. *)
Theorem cleanup_dead_workers_spares :
  forall now T s i t,
    let out := Store.cleanup_dead_workers now T s in
    nth_error (Store.task_master s) i = Some t ->
    (Task.status t <> "in_progress"
     \/ Task.assigned_to t = None
     \/ (forall w, In w (Store.workers s) ->
                   Task.assigned_to t = Some (Worker.worker_id w) ->
                   (now - T < Worker.last_heartbeat w)%Z)) ->
    nth_error (Store.task_master (snd out)) i = Some t
    /\ Store.task_ids (snd out) = Store.task_ids s
    /\ Store.worker_notifications (snd out) = Store.worker_notifications s.
Proof.
  intros now T s i t out Hi Hwhy. unfold out, Store.cleanup_dead_workers.
  cbn [snd Store.task_master Store.worker_notifications].
  split; [|split; [|reflexivity]].
  - rewrite (update_where_nth _ _ _ _ Hi).
    destruct (Store.orphaned _ t) eqn:Eo; [|reflexivity].
    unfold Store.orphaned in Eo. apply andb_true_iff in Eo.
    destruct Eo as [Ea Est]. apply has_status_true in Est.
    destruct Hwhy as [H|[H|H]]; [contradiction|now rewrite H in Ea|].
    destruct (Task.assigned_to t) as [a|] eqn:Eas; [|discriminate].
    apply existsb_exists in Ea. destruct Ea as (x & Hx & Hax).
    apply String.eqb_eq in Hax. subst x.
    unfold Store.dead_ids in Hx. apply in_map_iff in Hx.
    destruct Hx as (w & Hid & Hw). apply filter_In in Hw.
    destruct Hw as [Hw Hst].
    specialize (H w Hw ltac:(now rewrite Hid)).
    unfold Store.stale, Store.cutoff in Hst.
    destruct (T <? 0)%Z; [discriminate|]. apply Z.leb_le in Hst. lia.
  - unfold Store.task_ids. cbn [Store.task_master].
    now apply update_where_keys.
Qed.

Lemma cleanup_dead_workers_spares_witness :
  nth_error (Store.task_master Sample.finished) 0
  = Some (Sample.task "t1" "completed" 5 (Some "w1") 10)
  /\ nth_error (Store.task_master
                  (snd (Store.cleanup_dead_workers 1000 60 Sample.finished)))
               0
     = Some (Sample.task "t1" "completed" 5 (Some "w1") 10).
Proof.
  split; [reflexivity|].
  apply (cleanup_dead_workers_spares 1000 60 Sample.finished 0
           (Sample.task "t1" "completed" 5 (Some "w1") 10) eq_refl).
  left. discriminate.
Defined.

(** ** Registration and heartbeats *)

Section RegistryFacts.
Import Sql Store.

Lemma key_unique (row : Type) (key : row -> string) (l : list row) a b :
  NoDup (map key l) -> In a l -> In b l -> key a = key b -> a = b.
Proof.
  induction l as [|x l IH]; simpl; intros Hnd Ha Hb Hk; [destruct Ha|].
  inversion Hnd as [|? ? Hx Hl]. subst.
  destruct Ha as [->|Ha], Hb as [->|Hb]; try reflexivity.
  - elim Hx. rewrite Hk. now apply in_map.
  - elim Hx. rewrite <- Hk. now apply in_map.
  - now apply IH.
Qed.

Lemma fresh_now now T w :
  (0 < T)%Z -> Worker.last_heartbeat w = now ->
  fresh (cutoff now T) w = true.
Proof.
  intros HT Hw. unfold fresh, cutoff.
  destruct (T <? 0)%Z eqn:E; [apply Z.ltb_lt in E; lia|].
  apply Z.ltb_lt. lia.
Qed.

Lemma update_worker_status_cases env now wid st cur s :
  Registry.update_worker_status env now wid st cur s = (false, s)
  \/ Registry.update_worker_status env now wid st cur s
     = update_worker_status now wid st cur s.
Proof.
  unfold Registry.update_worker_status.
  match goal with
  | |- context [retry ?d ?b env s] =>
      destruct (retry_any _ d b env s) as [E|(a & s' & Hb & E)]
  end; [now left|right].
  rewrite E. inversion Hb. subst. symmetry. apply surjective_pairing.
Qed.
End RegistryFacts.

(** X9.  [register_worker] is an upsert.  With worker ids a key, whatever
    SQLite answers: when it returns False the store is unchanged; when it
    returns True the worker has exactly one row, idle, without current
    task, with heartbeat [now], so that it is active for every positive
    timeout; a worker that was registered before keeps its counters and
    its creation time, a new one starts at zero; every other row and the
    task table are untouched.  It returns True whenever the INSERT runs
    and, for a known worker, the UPDATE gets through within three
    attempts. *)
Theorem register_worker_upsert :
  forall ins env now wid s,
    NoDup (Store.worker_ids s) ->
    let out := Registry.register_worker ins env now wid s in
    (fst out = false -> snd out = s)
    /\ (fst out = true ->
        NoDup (Store.worker_ids (snd out))
        /\ Store.task_master (snd out) = Store.task_master s
        /\ (forall w, In w (Store.workers s) -> Worker.worker_id w <> wid ->
                      In w (Store.workers (snd out)))
        /\ exists w,
            In w (Store.workers (snd out))
            /\ Worker.worker_id w = wid
            /\ Worker.status w = "idle"
            /\ Worker.current_task w = None
            /\ Worker.last_heartbeat w = now
            /\ (forall T, (0 < T)%Z ->
                          In w (Store.get_active_workers now T (snd out)))
            /\ (forall w0, In w0 (Store.workers s) ->
                           Worker.worker_id w0 = wid ->
                           Worker.tasks_completed w = Worker.tasks_completed w0
                           /\ Worker.tasks_failed w = Worker.tasks_failed w0
                           /\ Worker.created_at w = Worker.created_at w0)
            /\ ((forall w0, In w0 (Store.workers s) ->
                            Worker.worker_id w0 <> wid) ->
                Worker.tasks_completed w = 0%Z
                /\ Worker.tasks_failed w = 0%Z))
    /\ (ins = Store.Runs -> Store.transaction_runs env -> fst out = true).
Proof.
  intros ins env now wid s Hnd out. unfold out, Registry.register_worker.
  destruct ins; cbn [fst snd];
    try (split; [reflexivity|split; [discriminate|discriminate]]).
  destruct (Sql.rowcount (Worker.is_worker wid) (Store.workers s) =? 0)%nat
    eqn:Ec.
  - (* a new worker *)
    apply Nat.eqb_eq in Ec.
    pose proof (proj1 (rowcount_zero _ _) Ec) as Hnone.
    assert (Hnew : forall w0, In w0 (Store.workers s) ->
                              Worker.worker_id w0 <> wid).
    { intros w0 Hw0. apply String.eqb_neq. exact (Hnone w0 Hw0). }
    cbn [fst snd Store.workers Store.task_master].
    split; [discriminate|]. split; [|reflexivity]. intros _.
    split; [|split; [reflexivity|split]].
    + unfold Store.worker_ids. cbn [Store.workers]. rewrite map_app.
      apply NoDup_app; [exact Hnd|repeat constructor; intros []|].
      intros x Hx [<-|[]]. apply in_map_iff in Hx.
      destruct Hx as (w0 & Hid & Hw0). exact (Hnew w0 Hw0 Hid).
    + intros w Hw _. apply in_or_app. now left.
    + exists (Worker.mk wid "idle" None 0 0 now now None None).
      split; [apply in_or_app; right; now left|].
      repeat split; try reflexivity.
      * intros T HT. unfold Store.get_active_workers. cbn [Store.workers].
        apply filter_In. split; [apply in_or_app; right; now left|].
        now apply fresh_now.
      * elim (Hnew w0 H H0).
      * elim (Hnew w0 H H0).
      * elim (Hnew w0 H H0).
  - (* a worker registered before *)
    assert (Hreal : Store.update_worker_status now wid "idle" None s
                    = (true,
                       Store.mk (Store.task_master s)
                                (Sql.update_where (Worker.is_worker wid)
                                   (Store.set_worker "idle" None now)
                                   (Store.workers s))
                                (Store.worker_notifications s))).
    { unfold Store.update_worker_status. now rewrite Ec. }
    split; [|split].
    + destruct (update_worker_status_cases env now wid "idle" None s)
        as [E|E]; rewrite E; [reflexivity|]. rewrite Hreal. discriminate.
    + destruct (update_worker_status_cases env now wid "idle" None s)
        as [E|E]; rewrite E; [discriminate|]. rewrite Hreal. intros _.
      cbn [fst snd Store.workers Store.task_master].
      destruct (rowcount_witness _ _ Ec) as (w0 & Hw0 & Hid0).
      unfold Worker.is_worker in Hid0. apply String.eqb_eq in Hid0.
      split; [|split; [reflexivity|split]].
      * unfold Store.worker_ids. cbn [Store.workers].
        now rewrite update_where_keys by reflexivity.
      * intros w Hw Hother. unfold Sql.update_where. apply in_map_iff.
        exists w. split; [|exact Hw]. unfold Worker.is_worker.
        now rewrite (proj2 (String.eqb_neq _ _) Hother).
      * assert (Hin : In (Store.set_worker "idle" None now w0)
                         (Sql.update_where (Worker.is_worker wid)
                            (Store.set_worker "idle" None now)
                            (Store.workers s))).
        { unfold Sql.update_where. apply in_map_iff. exists w0.
          split; [|exact Hw0]. unfold Worker.is_worker.
          now rewrite (proj2 (String.eqb_eq _ _) Hid0). }
        exists (Store.set_worker "idle" None now w0).
        split; [exact Hin|]. split; [exact Hid0|].
        split; [reflexivity|]. split; [reflexivity|].
        split; [reflexivity|]. split; [|split].
        -- intros T HT. unfold Store.get_active_workers.
           cbn [Store.workers]. apply filter_In. split; [exact Hin|].
           now apply fresh_now.
        -- intros w1 Hw1 Hid1.
           assert (w1 = w0).
           { apply (key_unique _ Worker.worker_id (Store.workers s));
               try assumption. congruence. }
           subst w1. repeat split.
        -- intros Hno. elim (Hno w0 Hw0 Hid0).
    + intros _ Hrun. unfold Registry.update_worker_status.
      erewrite retry_runs; [|exact Hrun|reflexivity].
      now rewrite Hreal.
Qed.

Lemma register_worker_upsert_witness :
  NoDup (Store.worker_ids Sample.finished)
  /\ fst (Registry.register_worker Store.Runs [Store.Locked] 200 "w1"
                                   Sample.finished) = true.
Proof.
  assert (Hnd : NoDup (Store.worker_ids Sample.finished))
    by (vm_compute; repeat constructor; simpl; tauto).
  split; [exact Hnd|].
  apply (proj2 (proj2 (register_worker_upsert Store.Runs [Store.Locked] 200
                         "w1" Sample.finished Hnd)) eq_refl).
  exists 1%nat. split; [lia|]. split; [reflexivity|].
  intros j Hj. assert (j = 0%nat) by lia. now subst.
Defined.

(** X10.  A heartbeat keeps a worker alive, for positive timeouts only.
    When [update_worker_heartbeat] returns True the worker has a row, and
    each of its rows is listed by [get_active_workers(T)] and survives
    [cleanup_dead_workers(T)] at the same clock for every [T > 0], with
    status, current task and counters as before.  With [T = 0] the same
    row counts as dead: it is not active, and cleanup removes it. *)
Theorem heartbeat_keeps_worker_alive :
  forall o now wid s,
    let out := Registry.update_worker_heartbeat o now wid s in
    fst out = true ->
    (exists w0, In w0 (Store.workers s) /\ Worker.worker_id w0 = wid
                /\ In (Store.beat now w0) (Store.workers (snd out)))
    /\ (forall w, In w (Store.workers (snd out)) ->
                  Worker.worker_id w = wid ->
                  Worker.last_heartbeat w = now
                  /\ (forall T, (0 < T)%Z ->
                        In w (Store.get_active_workers now T (snd out))
                        /\ In w (Store.workers
                                   (snd (Store.cleanup_dead_workers
                                           now T (snd out)))))
                  /\ ~ In w (Store.get_active_workers now 0 (snd out))
                  /\ ~ In w (Store.workers
                               (snd (Store.cleanup_dead_workers
                                       now 0 (snd out))))).
Proof.
  intros o now wid s out Hok. unfold out in *.
  unfold Registry.update_worker_heartbeat in *.
  destruct o; try discriminate.
  unfold Store.update_worker_heartbeat in *. cbn [fst snd] in *.
  apply negb_true_iff in Hok.
  destruct (rowcount_witness _ _ Hok) as (w0 & Hw0 & Hid0).
  cbn [Store.workers]. split.
  - exists w0. split; [exact Hw0|].
    split; [now apply String.eqb_eq in Hid0|].
    unfold Sql.update_where. apply in_map_iff. exists w0.
    now rewrite Hid0.
  - intros w Hw Hid.
    assert (Hb : Worker.last_heartbeat w = now).
    { apply update_where_In in Hw.
      destruct Hw as [(r & _ & _ & ->)|[_ Hn]]; [reflexivity|].
      unfold Worker.is_worker in Hn. apply String.eqb_neq in Hn.
      contradiction. }
    split; [exact Hb|]. split; [|split].
    + intros T HT. unfold Store.get_active_workers, Store.cleanup_dead_workers.
      cbn [snd Store.workers]. split.
      * apply filter_In. split; [exact Hw|now apply fresh_now].
      * apply delete_where_In. split; [exact Hw|].
        unfold Store.stale, Store.cutoff.
        destruct (T <? 0)%Z; [reflexivity|]. apply Z.leb_gt. lia.
    + unfold Store.get_active_workers. cbn [Store.workers].
      rewrite filter_In. intros [_ Hf]. unfold Store.fresh, Store.cutoff in Hf.
      simpl in Hf. apply Z.ltb_lt in Hf. lia.
    + unfold Store.cleanup_dead_workers. cbn [snd Store.workers].
      rewrite delete_where_In. intros [_ Hf].
      unfold Store.stale, Store.cutoff in Hf. simpl in Hf.
      apply Z.leb_gt in Hf. lia.
Qed.

Lemma heartbeat_keeps_worker_alive_witness :
  fst (Registry.update_worker_heartbeat Store.Runs 500 "w1" Sample.orphan)
  = true
  /\ exists w0, In w0 (Store.workers Sample.orphan)
                /\ Worker.worker_id w0 = "w1"
                /\ In (Store.beat 500 w0)
                      (Store.workers
                         (snd (Registry.update_worker_heartbeat
                                 Store.Runs 500 "w1" Sample.orphan))).
Proof.
  split; [reflexivity|].
  exact (proj1 (heartbeat_keeps_worker_alive Store.Runs 500 "w1"
                  Sample.orphan eq_refl)).
Defined.

(** ** Routing *)

Section RouterChoice.
Import Py Router.

Lemma sort_by_first_best (A : Type) (le : A -> A -> bool) l1 x l2 :
  (forall y, In y l1 -> le y x = false) ->
  (forall z, In z l2 -> le x z = true) ->
  exists rest, Stable.sort_by le (l1 ++ x :: l2) = x :: rest.
Proof.
  intros H1 H2. induction l1 as [|y l1 IH]; simpl.
  - destruct (Stable.sort_by le l2) as [|z rest] eqn:E; simpl.
    + now exists [].
    + assert (Hz : In z l2).
      { apply (sort_by_In le l2). rewrite E. now left. }
      rewrite (H2 z Hz). now exists (z :: rest).
  - destruct IH as [rest Hrest]; [intros y' Hy'; apply H1; now right|].
    rewrite Hrest. simpl. rewrite (H1 y (or_introl eq_refl)).
    now exists (Stable.insert_by le y rest).
Qed.

Lemma mapM_app_ret (A B : Type) (f : A -> result B) a b xs ys :
  mapM f a = Ret xs -> mapM f b = Ret ys -> mapM f (a ++ b) = Ret (xs ++ ys).
Proof.
  revert xs. induction a as [|x a IH]; simpl; intros xs Ha Hb.
  - inversion Ha. exact Hb.
  - destruct (f x) as [y|e]; simpl in *; [|discriminate].
    destruct (mapM f a) as [zs|e]; simpl in *; [|discriminate].
    inversion Ha. subst xs. now rewrite (IH zs eq_refl Hb).
Qed.

Lemma scored_total l :
  (forall w, In w l -> well_typed w) ->
  exists ys, mapM scored l = Ret ys
             /\ Forall2 (fun x y => scored x = Ret y) l ys.
Proof.
  intros Hwt. destruct (mapM_total scored l) as [ys Hys].
  - intros w Hw. destruct (calculate_worker_score_total (Hwt w Hw)) as [q Hq].
    exists (worker_id w, q). unfold scored. now rewrite Hq.
  - exists ys. split; [exact Hys|now apply mapM_ret].
Qed.

(** [route_task] past its first test. *)
Lemma route_task_nonempty rules t ws :
  ws <> [] ->
  route_task rules t ws
  = (let preferred_available :=
       match preferred_worker t with
       | Some p => filter (fun w => (worker_id w =? p)%string) ws
       | None => []
       end in
     if truthy (preferred_worker t) && nonempty preferred_available
     then Ret (preferred_worker t)
     else
       let local_workers := filter is_local ws in
       let remote_workers := filter (fun w => negb (is_local w)) ws in
       let local_idle := filter (status_is "idle") local_workers in
       let after_remote :=
         rules_loop ws (number 5%Z (priority t)) rules None in
       if negb (nonempty local_idle) && nonempty remote_workers
       then
         best_remote <- select_best_worker remote_workers ;;
         if truthy best_remote then Ret best_remote else after_remote
       else after_remote).
Proof. destruct ws; [congruence|reflexivity]. Qed.
End RouterChoice.

(** X11.  [_select_best_worker] breaks ties by position: over well-typed
    candidates it returns the first candidate of maximal score, that is the
    one whose score every earlier candidate is strictly below and no later
    candidate exceeds. *)
Theorem select_best_worker_first_maximum :
  forall l1 w l2 q,
    (forall w', In w' (l1 ++ w :: l2) -> Router.well_typed w') ->
    Router.calculate_worker_score w = Py.Ret q ->
    (forall w' q', In w' l1 ->
                   Router.calculate_worker_score w' = Py.Ret q' ->
                   (q' < q)%Q) ->
    (forall w' q', In w' l2 ->
                   Router.calculate_worker_score w' = Py.Ret q' ->
                   (q' <= q)%Q) ->
    Router.select_best_worker (l1 ++ w :: l2)
    = Py.Ret (Some (Router.worker_id w)).
Proof.
  intros l1 w l2 q Hwt Hq Hbefore Hafter.
  destruct (scored_total l1) as (s1 & Hs1 & F1);
    [intros w' Hw'; apply Hwt; apply in_or_app; now left|].
  destruct (scored_total l2) as (s2 & Hs2 & F2);
    [intros w' Hw'; apply Hwt; apply in_or_app; right; now right|].
  assert (Hw : Py.mapM Router.scored (w :: l2)
               = Py.Ret ((Router.worker_id w, q) :: s2)).
  { simpl. unfold Router.scored at 1. rewrite Hq. simpl. now rewrite Hs2. }
  pose proof (mapM_app_ret _ _ _ _ _ _ _ Hs1 Hw) as Hall.
  destruct (sort_by_first_best _ Router.by_score_desc s1
              (Router.worker_id w, q) s2) as [rest Hrest].
  - intros y Hy.
    destruct (@Forall2_In_r _ _ _ _ _ _ F1 Hy) as (x & Hx & Hsx).
    apply scored_ret in Hsx. destruct Hsx as [_ Hsx].
    unfold Router.by_score_desc. simpl.
    apply not_true_is_false. intros Hle. apply Qle_bool_iff in Hle.
    exact (Qlt_not_le _ _ (Hbefore x (snd y) Hx Hsx) Hle).
  - intros z Hz.
    destruct (@Forall2_In_r _ _ _ _ _ _ F2 Hz) as (x & Hx & Hsx).
    apply scored_ret in Hsx. destruct Hsx as [_ Hsx].
    unfold Router.by_score_desc. simpl. apply Qle_bool_iff.
    exact (Hafter x (snd z) Hx Hsx).
  - unfold Router.select_best_worker.
    destruct (l1 ++ w :: l2) as [|c0 cs] eqn:E;
      [now destruct l1|].
    rewrite Hall. simpl. now rewrite Hrest.
Qed.

Lemma select_best_worker_first_maximum_witness :
  Router.select_best_worker
    ([Sample.remote_busy] ++ Sample.local_idle :: [Sample.local_twin])
  = Py.Ret (Some (Router.worker_id Sample.local_idle)).
Proof.
  apply (select_best_worker_first_maximum [Sample.remote_busy]
           Sample.local_idle [Sample.local_twin]
           (0 + 1 * 100 + 50 + 3 / 4 * 30)%Q).
  - intros w' [<-|[<-|[<-|[]]]]; repeat split; discriminate.
  - reflexivity.
  - intros w' q' [<-|[]] H. inversion H. reflexivity.
  - intros w' q' [<-|[]] H. inversion H. discriminate.
Defined.

(** X12.  [route_task] only ever names a worker of the list it is given:
    on an empty list it returns None, and whenever it returns on a
    non-empty list the result is the id of one of the listed workers, never
    None.  A non-empty [preferred_worker] that is in the list is returned
    as it is, whatever its status or score and whatever the rules say. *)
Theorem route_task_names_available_worker :
  forall rules t ws r,
    Router.route_task rules t ws = Py.Ret r ->
    (ws = [] -> r = None)
    /\ (ws <> [] -> exists w, In w ws /\ r = Some (Router.worker_id w))
    /\ (forall p w, Router.preferred_worker t = Some p -> p <> "" ->
                    In w ws -> Router.worker_id w = p -> r = Some p).
Proof.
  intros rules t ws r H. split; [|split].
  - intros ->. simpl in H. now inversion H.
  - intros Hne. exact (@route_task_member _ _ _ _ Hne H).
  - intros p w Hp Hne Hw Hid.
    rewrite (@route_task_preferred rules _ _ _ _ Hp Hne Hw Hid) in H.
    now inversion H.
Qed.

Lemma route_task_names_available_worker_witness :
  Router.route_task [Sample.local_only]
                    (Router.mk_task (Some "t1") (Py.Has 5%Z) (Some "w2"))
                    [Sample.local_idle; Sample.remote_busy]
  = Py.Ret (Some "w2")
  /\ Some "w2" = Some "w2".
Proof.
  split; [reflexivity|].
  apply (proj2 (proj2 (route_task_names_available_worker
                         [Sample.local_only]
                         (Router.mk_task (Some "t1") (Py.Has 5%Z)
                                         (Some "w2"))
                         [Sample.local_idle; Sample.remote_busy]
                         (Some "w2") eq_refl))
           "w2" Sample.remote_busy eq_refl).
  - discriminate.
  - right. now left.
  - reflexivity.
Defined.

(** X13.  Remote first when no local worker is idle.  For a task without
    preferred worker, if no local worker of the list is idle and the list
    holds a remote worker, [route_task] returns the best-scoring remote
    worker, before any rule is read: neither the rules nor the task's
    priority have a say.  (Remote workers are well typed, with non-empty
    ids.) *)
Theorem route_task_remote_when_no_local_idle :
  forall rules t ws,
    Py.truthy (Router.preferred_worker t) = false ->
    (forall w, In w ws -> Router.is_local w = true ->
               Router.status_is "idle" w = false) ->
    (exists w, In w ws /\ Router.is_local w = false) ->
    (forall w, In w ws -> Router.is_local w = false ->
               Router.well_typed w /\ Router.worker_id w <> "") ->
    exists w q,
      In w ws /\ Router.is_local w = false
      /\ Router.route_task rules t ws = Py.Ret (Some (Router.worker_id w))
      /\ Router.calculate_worker_score w = Py.Ret q
      /\ forall w' q', In w' ws -> Router.is_local w' = false ->
                       Router.calculate_worker_score w' = Py.Ret q' ->
                       (q' <= q)%Q.
Proof.
  intros rules t ws Hpref Hbusy (w0 & Hw0 & Hr0) Hremote.
  set (remote := filter (fun w => negb (Router.is_local w)) ws).
  assert (Hin0 : In w0 remote)
    by (apply filter_In; split; [exact Hw0|now rewrite Hr0]).
  assert (Hne : remote <> []) by (intros E; rewrite E in Hin0; destruct Hin0).
  assert (Hrem : forall w, In w remote -> In w ws /\ Router.is_local w = false).
  { intros w Hw. apply filter_In in Hw. destruct Hw as [Hw Hl].
    now apply negb_true_iff in Hl. }
  destruct (@select_best_worker_total remote) as [r Hr].
  { intros w Hw. apply calculate_worker_score_total.
    destruct (Hrem w Hw) as [Hw1 Hw2]. now apply Hremote. }
  destruct (select_best_worker_max Hne Hr) as (w & q & Hw & -> & Hq & Hmax).
  destruct (Hrem w Hw) as [Hws Hloc].
  exists w, q. split; [exact Hws|]. split; [exact Hloc|].
  split; [|split; [exact Hq|]].
  - rewrite route_task_nonempty by (intros E; rewrite E in Hws; destruct Hws).
    cbv zeta. rewrite Hpref. cbn [andb].
    assert (Hidle : filter (Router.status_is "idle")
                           (filter Router.is_local ws) = []).
    { destruct (filter _ (filter _ ws)) as [|x l] eqn:E; [reflexivity|].
      assert (Hx : In x (filter (Router.status_is "idle")
                                (filter Router.is_local ws)))
        by (rewrite E; now left).
      apply filter_In in Hx. destruct Hx as [Hx Hi].
      apply filter_In in Hx. destruct Hx as [Hx Hl].
      rewrite (Hbusy x Hx Hl) in Hi. discriminate. }
    rewrite Hidle. fold remote.
    assert (Hn : Router.nonempty remote = true)
      by (destruct remote; [congruence|reflexivity]).
    rewrite Hn. cbn [Router.nonempty negb andb].
    rewrite Hr. cbn [Py.bind Py.truthy].
    destruct (Hremote w Hws Hloc) as [_ Hid].
    now rewrite (proj2 (String.eqb_neq _ _) Hid).
  - intros w' q' Hw' Hl' Hq'. apply (Hmax w' q'); [|exact Hq'].
    apply filter_In. split; [exact Hw'|now rewrite Hl'].
Qed.

Lemma route_task_remote_when_no_local_idle_witness :
  exists w q,
    In w [Sample.local_busy; Sample.remote_idle]
    /\ Router.is_local w = false
    /\ Router.route_task [Sample.local_only] Sample.plain_task
                         [Sample.local_busy; Sample.remote_idle]
       = Py.Ret (Some (Router.worker_id w))
    /\ Router.calculate_worker_score w = Py.Ret q
    /\ forall w' q', In w' [Sample.local_busy; Sample.remote_idle] ->
                     Router.is_local w' = false ->
                     Router.calculate_worker_score w' = Py.Ret q' ->
                     (q' <= q)%Q.
Proof.
  apply (route_task_remote_when_no_local_idle [Sample.local_only]
           Sample.plain_task [Sample.local_busy; Sample.remote_idle]).
  - reflexivity.
  - intros w [<-|[<-|[]]] H; [reflexivity|discriminate].
  - exists Sample.remote_idle. split; [right; now left|reflexivity].
  - intros w [<-|[<-|[]]] H; [discriminate|].
    split; [repeat split; discriminate|discriminate].
Defined.

(** ** Dispatch by the enhanced pool manager, continued *)

Section EnhancedFacts.
Import Sql Py.

Lemma get_available_workers_In now s x :
  In x (Enhanced.get_available_workers now s) ->
  exists w, In w (Store.workers s) /\ x = Enhanced.as_dict w
            /\ Worker.status w = "idle"
            /\ (now - 60 <= Worker.last_heartbeat w)%Z.
Proof.
  unfold Enhanced.get_available_workers. rewrite in_map_iff.
  intros (w & <- & Hw). apply filter_In in Hw. destruct Hw as [Hw Ha].
  unfold Enhanced.available in Ha. apply andb_true_iff in Ha.
  destruct Ha as [Hs Hb]. apply String.eqb_eq in Hs. apply Z.leb_le in Hb.
  now exists w.
Qed.

(** What a call that returns has done. *)
Lemma assign_task_to_worker_cases rules now t s out :
  Enhanced.assign_task_to_worker rules now t s = Ret out ->
  out = (None, s)
  \/ exists wid w,
      wid <> "" /\ In w (Store.workers s) /\ Worker.worker_id w = wid
      /\ Worker.status w = "idle" /\ (now - 60 <= Worker.last_heartbeat w)%Z
      /\ out
         = (Some wid,
            Enhanced.notify_worker_task_assignment now wid (Router.task_id t)
              (Store.mk
                 (update_where (Enhanced.task_is (Router.task_id t))
                               (Enhanced.hand_over wid) (Store.task_master s))
                 (update_where (Worker.is_worker wid)
                               (Enhanced.mark_busy (Router.task_id t))
                               (Store.workers s))
                 (Store.worker_notifications s))).
Proof.
  unfold Enhanced.assign_task_to_worker. intros H.
  destruct (Enhanced.get_available_workers now s) as [|a l] eqn:Ea.
  - inversion H. now left.
  - rewrite <- Ea in H.
    destruct (Router.route_task rules t (Enhanced.get_available_workers now s))
      as [sel|e] eqn:Er; simpl in H; [|discriminate].
    assert (Hne : Enhanced.get_available_workers now s <> [])
      by (rewrite Ea; discriminate).
    destruct (@route_task_member _ _ _ _ Hne Er) as (x & Hx & ->).
    destruct (String.eqb_spec (Router.worker_id x) "") as [E|E].
    + inversion H. now left.
    + right. apply get_available_workers_In in Hx.
      destruct Hx as (w & Hw & -> & Hidle & Hbeat).
      exists (Worker.worker_id w), w. inversion H. repeat split; auto.
Qed.
End EnhancedFacts.

(** X14.  The enhanced manager only assigns to a worker that is free.
    Whenever [assign_task_to_worker] returns a worker id, that id is not
    empty and belongs to a row that was idle with a heartbeat within the
    last 60 seconds; afterwards every row with that id is busy on the task,
    every other worker row is as before, and exactly one unprocessed
    [task_assigned] notification for that worker and task is appended.
    When it returns None nothing is written. *)
Theorem enhanced_assign_picks_free_worker :
  forall rules now t s out,
    Enhanced.assign_task_to_worker rules now t s = Py.Ret out ->
    match fst out with
    | None => snd out = s
    | Some wid =>
        wid <> ""
        /\ (exists w, In w (Store.workers s) /\ Worker.worker_id w = wid
                      /\ Worker.status w = "idle"
                      /\ (now - 60 <= Worker.last_heartbeat w)%Z)
        /\ (forall w', In w' (Store.workers (snd out)) ->
                       Worker.worker_id w' = wid ->
                       Worker.status w' = "busy"
                       /\ Worker.current_task w' = Router.task_id t)
        /\ (forall w', Worker.worker_id w' <> wid ->
                       (In w' (Store.workers (snd out))
                        <-> In w' (Store.workers s)))
        /\ (exists n,
               Store.worker_notifications (snd out)
               = Store.worker_notifications s ++ [n]
               /\ Notification.worker_id n = wid
               /\ Notification.task_id n = Router.task_id t
               /\ Notification.notification_type n = "task_assigned"
               /\ Notification.processed n = 0%Z)
        /\ Store.task_ids (snd out) = Store.task_ids s
    end.
Proof.
  intros rules now t s out H.
  destruct (assign_task_to_worker_cases _ _ _ _ _ H)
    as [->|(wid & w & Hne & Hw & Hid & Hidle & Hbeat & ->)];
    [reflexivity|].
  cbn [fst snd Enhanced.notify_worker_task_assignment Store.workers
       Store.task_master Store.worker_notifications].
  split; [exact Hne|]. split; [now exists w|].
  split; [|split; [|split]].
  - intros w' Hw' Hid'. apply update_where_In in Hw'.
    destruct Hw' as [(r & _ & _ & ->)|[_ Hn]]; [now split|].
    unfold Worker.is_worker in Hn. apply String.eqb_neq in Hn.
    contradiction.
  - intros w' Hother. split.
    + intros Hw'. apply update_where_In in Hw'.
      destruct Hw' as [(r & _ & Hr & ->)|[Hw' _]]; [|exact Hw'].
      unfold Worker.is_worker in Hr. apply String.eqb_eq in Hr.
      elim Hother. exact Hr.
    + intros Hw'. unfold Sql.update_where. apply in_map_iff. exists w'.
      split; [|exact Hw']. unfold Worker.is_worker.
      now rewrite (proj2 (String.eqb_neq _ _) Hother).
  - eexists. split; [reflexivity|]. now repeat split.
  - unfold Store.task_ids. cbn [Store.task_master].
    now apply update_where_keys.
Qed.

Lemma enhanced_assign_picks_free_worker_witness :
  exists out,
    Enhanced.assign_task_to_worker [] 60 Sample.plain_task Sample.race
    = Py.Ret out
    /\ fst out = Some "w1"
    /\ exists w, In w (Store.workers Sample.race)
                 /\ Worker.worker_id w = "w1"
                 /\ Worker.status w = "idle"
                 /\ (60 - 60 <= Worker.last_heartbeat w)%Z.
Proof.
  eexists. split; [vm_compute; reflexivity|]. split; [reflexivity|].
  exact (proj1 (proj2 (enhanced_assign_picks_free_worker [] 60
                         Sample.plain_task Sample.race _ eq_refl))).
Defined.

(** X15.  Two assignments in a row never pick the same worker: the worker
    chosen first is busy when the second choice is made, whatever the two
    tasks, the rules and the clock are. *)
Theorem enhanced_assign_never_same_worker_twice :
  forall rules1 rules2 now1 now2 t1 t2 s w1 s1 w2 s2,
    Enhanced.assign_task_to_worker rules1 now1 t1 s = Py.Ret (Some w1, s1) ->
    Enhanced.assign_task_to_worker rules2 now2 t2 s1 = Py.Ret (Some w2, s2) ->
    w1 <> w2.
Proof.
  intros rules1 rules2 now1 now2 t1 t2 s w1 s1 w2 s2 H1 H2.
  destruct (assign_task_to_worker_cases _ _ _ _ _ H1)
    as [E|(wid & w & _ & _ & _ & _ & _ & E)]; [discriminate|].
  inversion E. subst wid s1. clear E.
  destruct (assign_task_to_worker_cases _ _ _ _ _ H2)
    as [E|(wid & w' & _ & Hw' & Hid' & Hidle' & _ & E)]; [discriminate|].
  inversion E. subst wid. clear E.
  intros Heq. cbn [Enhanced.notify_worker_task_assignment Store.workers] in Hw'.
  apply update_where_In in Hw'.
  destruct Hw' as [(r & _ & _ & ->)|[_ Hn]].
  - discriminate.
  - unfold Worker.is_worker in Hn. apply String.eqb_neq in Hn.
    apply Hn. congruence.
Qed.

Lemma enhanced_assign_never_same_worker_twice_witness : "w1" <> "w2".
Proof.
  refine (enhanced_assign_never_same_worker_twice [] [] 60 61
            Sample.plain_task Sample.plain_task Sample.race "w1" _ "w2" _
            _ _).
  - vm_compute. reflexivity.
  - vm_compute. reflexivity.
Defined.

(** ** Scaling by the pool manager *)

Section ScaleFacts.
Variable mint : nat -> string.
Variable now : Z.

Lemma repeat_spawn_log n st :
  exists new,
    Pool.log (Pool.repeat_spawn mint now n st) = Pool.log st ++ new
    /\ List.length new = n
    /\ (forall e, In e new -> Pool.is_spawn e = true).
Proof.
  revert st. induction n as [|n IH]; intros st; simpl.
  - exists []. rewrite app_nil_r. repeat split. intros e [].
  - destruct (IH (Pool.spawn_worker mint now st)) as (new & Hlog & Hlen & Hsp).
    exists (Pool.Spawn (mint (Pool.minted st)) :: new).
    rewrite Hlog. simpl. rewrite <- app_assoc. simpl.
    split; [reflexivity|]. split; [now rewrite Hlen|].
    intros e [<-|He]; [reflexivity|now apply Hsp].
Qed.

Lemma shutdown_workers_log l st :
  exists new,
    Pool.log (fold_left (fun acc wid => Pool.shutdown_worker now wid acc) l st)
    = Pool.log st ++ new
    /\ (List.length new <= List.length l)%nat
    /\ (forall e, In e new ->
                  exists wid, e = Pool.Terminate wid /\ In wid l
                              /\ In wid (Pool.workers st)).
Proof.
  revert st. induction l as [|wid l IH]; intros st; simpl.
  - exists []. rewrite app_nil_r. split; [reflexivity|].
    split; [simpl; lia|intros e []].
  - destruct (IH (Pool.shutdown_worker now wid st)) as (new & Hlog & Hlen & Hev).
    assert (Hsub : forall x, In x (Pool.workers
                                    (Pool.shutdown_worker now wid st)) ->
                             In x (Pool.workers st)).
    { intros x. unfold Pool.shutdown_worker. cbn [Pool.workers].
      destruct (existsb _ _); [|tauto].
      rewrite filter_In. tauto. }
    rewrite Hlog. unfold Pool.shutdown_worker at 1. cbn [Pool.log].
    destruct (existsb (String.eqb wid) (Pool.workers st)) eqn:Ek.
    + exists (Pool.Terminate wid :: new). rewrite <- app_assoc. simpl.
      split; [reflexivity|]. split; [lia|].
      intros e [<-|He].
      * exists wid. split; [reflexivity|]. split; [now left|].
        apply existsb_exists in Ek. destruct Ek as (x & Hx & Hwx).
        apply String.eqb_eq in Hwx. now subst x.
      * destruct (Hev e He) as (w & -> & Hw & Hin).
        exists w. split; [reflexivity|]. split; [now right|now apply Hsub].
    + exists new. split; [reflexivity|]. split; [lia|].
      intros e He. destruct (Hev e He) as (w & -> & Hw & Hin).
      exists w. split; [reflexivity|]. split; [now right|now apply Hsub].
Qed.

(** The four ways out of [scale_workers]. *)
Lemma scale_workers_cases st :
  let p := Pool.get_pending_task_count st in
  let a := Pool.get_active_task_count st in
  let w := Pool.get_active_worker_count now st in
  (Pool.scale_workers mint now st = st
   /\ ~ ((0 < p)%Z /\ (a < Pool.max_active_tasks st)%Z /\ w = 0%Z))
  \/ ((0 < p)%Z /\ (a < Pool.max_active_tasks st)%Z /\ w = 0%Z
      /\ Pool.scale_workers mint now st = Pool.spawn_worker mint now st)
  \/ ((0 < p)%Z /\ (a < Pool.max_active_tasks st)%Z /\ (0 < w)%Z
      /\ (w < Pool.max_workers st)%Z
      /\ Pool.scale_workers mint now st
         = Pool.repeat_spawn mint now
             (Z.to_nat (Z.min (Z.min p (Pool.max_active_tasks st - a))
                              (Pool.max_workers st - w))) st)
  \/ (p = 0%Z /\ (Pool.min_workers st < w)%Z
      /\ Pool.scale_workers mint now st
         = fold_left (fun acc wid => Pool.shutdown_worker now wid acc)
                     (firstn (Z.to_nat (w - Pool.min_workers st))
                             (Pool.get_idle_workers now st)) st).
Proof.
  intros p a w. unfold Pool.scale_workers. fold p a w.
  assert (Hw : (0 <= w)%Z) by (unfold w, Pool.get_active_worker_count; lia).
  destruct (Z.leb_spec (Pool.max_active_tasks st) a) as [Hfull|Hroom];
    [left; split; [reflexivity|lia]|].
  destruct (Z.ltb_spec 0 p) as [Hp|Hp]; cbn [andb].
  - destruct (Z.eqb_spec w 0) as [Hw0|Hw0]; [right; left; auto|].
    destruct (Z.ltb_spec a (Pool.max_active_tasks st)) as [_|]; [|lia].
    cbn [andb].
    destruct (Z.ltb_spec w (Pool.max_workers st)) as [Hcap|Hcap].
    + destruct (Z.ltb_spec 0 (Z.min (Z.min p (Pool.max_active_tasks st - a))
                                    (Pool.max_workers st - w)));
        [|left; split; [reflexivity|lia]].
      right; right; left. repeat split; auto. lia.
    + destruct (Z.eqb_spec p 0) as [Hp0|_]; [lia|].
      left; split; [reflexivity|lia].
  - destruct (Z.eqb_spec p 0) as [Hp0|Hp0]; cbn [andb];
      [|left; split; [reflexivity|lia]].
    destruct (Z.ltb_spec (Pool.min_workers st) w) as [Hmin|Hmin];
      [|left; split; [reflexivity|lia]].
    destruct (Z.ltb_spec 0 (w - Pool.min_workers st));
      [|left; split; [reflexivity|lia]].
    cbn [andb].
    destruct (Router.nonempty (Pool.get_idle_workers now st));
      [|left; split; [reflexivity|lia]].
    right; right; right. auto.
Qed.

Lemma spawns_all new :
  (forall e, In e new -> Pool.is_spawn e = true) ->
  Pool.spawns new = List.length new.
Proof.
  unfold Pool.spawns. induction new as [|e new IH]; simpl; intros H;
    [reflexivity|].
  rewrite (H e (or_introl eq_refl)). simpl. f_equal. apply IH.
  intros x Hx. apply H. now right.
Qed.

Lemma spawns_none new :
  (forall e, In e new -> Pool.is_spawn e = false) -> Pool.spawns new = 0%nat.
Proof.
  unfold Pool.spawns. induction new as [|e new IH]; simpl; intros H;
    [reflexivity|].
  rewrite (H e (or_introl eq_refl)). apply IH.
  intros x Hx. apply H. now right.
Qed.
End ScaleFacts.

(** X16.  How many workers one call of [scale_workers] starts.  The call
    only appends to the process log, and either starts workers or stops
    workers, never both.  The number it starts is at most the number of
    pending tasks and at most the free slots
    [max_active_tasks - active_tasks]; while some worker is active it also
    keeps within [max_workers - active_workers].  With pending tasks, free
    slots and no active worker at all it starts exactly one, whatever
    [max_workers] is. *)
Theorem scale_workers_spawn_bounds :
  forall mint now st,
    let p := Pool.get_pending_task_count st in
    let a := Pool.get_active_task_count st in
    let w := Pool.get_active_worker_count now st in
    exists new,
      Pool.log (Pool.scale_workers mint now st) = Pool.log st ++ new
      /\ ((forall e, In e new -> Pool.is_spawn e = true)
          \/ (forall e, In e new -> Pool.is_spawn e = false))
      /\ (Z.of_nat (Pool.spawns new) <= p)%Z
      /\ (Z.of_nat (Pool.spawns new)
          <= Z.max 0 (Pool.max_active_tasks st - a))%Z
      /\ ((0 < w)%Z ->
          (Z.of_nat (Pool.spawns new) <= Z.max 0 (Pool.max_workers st - w))%Z)
      /\ ((0 < p)%Z -> (a < Pool.max_active_tasks st)%Z -> w = 0%Z ->
          new = [Pool.Spawn (mint (Pool.minted st))]).
Proof.
  intros mint now st p a w.
  assert (Hp : (0 <= p)%Z)
    by (unfold p, Pool.get_pending_task_count; apply task_count_nonneg).
  pose proof (scale_workers_cases mint now st) as Hc. cbv zeta in Hc.
  fold p in Hc. fold a in Hc. fold w in Hc. clearbody p a w.
  destruct Hc
    as [(E & Hnot)|[(Hp0 & Ha & Hw0 & E)|[(Hp0 & Ha & Hw0 & Hcap & E)
                                          |(Hp0 & Hmin & E)]]];
    rewrite E.
  - exists []. rewrite app_nil_r. split; [reflexivity|].
    split; [left; intros e []|]. cbn.
    split; [lia|]. split; [lia|]. split; [lia|].
    intros Hp1 Ha1 Hw1. elim Hnot. auto.
  - exists [Pool.Spawn (mint (Pool.minted st))].
    split; [reflexivity|]. split; [left; intros e [<-|[]]; reflexivity|].
    cbn. split; [lia|]. split; [lia|]. split; [lia|]. reflexivity.
  - destruct (repeat_spawn_log mint now
                (Z.to_nat (Z.min (Z.min p (Pool.max_active_tasks st - a))
                                 (Pool.max_workers st - w))) st)
      as (new & Hlog & Hlen & Hsp).
    exists new. split; [exact Hlog|]. split; [now left|].
    rewrite (spawns_all new Hsp), Hlen.
    split; [lia|]. split; [lia|]. split; lia.
  - destruct (shutdown_workers_log now
                (firstn (Z.to_nat (w - Pool.min_workers st))
                        (Pool.get_idle_workers now st)) st)
      as (new & Hlog & Hlen & Hev).
    assert (Hno : forall e, In e new -> Pool.is_spawn e = false).
    { intros e He. destruct (Hev e He) as (wid & -> & _). reflexivity. }
    exists new. split; [exact Hlog|]. split; [now right|].
    rewrite (spawns_none new Hno).
    split; [lia|]. split; [lia|]. split; lia.
Qed.

(** X17.  Whom [scale_workers] stops.  A worker is terminated only when no
    task is pending and more than [min_workers] workers are active, and
    only if it is a process of this manager listed by [get_idle_workers]:
    idle, with a heartbeat in the last 30 seconds.  At most
    [active_workers - min_workers] are terminated in one call. *)
Theorem scale_workers_stops_idle_only :
  forall mint now st,
    let w := Pool.get_active_worker_count now st in
    exists new,
      Pool.log (Pool.scale_workers mint now st) = Pool.log st ++ new
      /\ (forall wid, In (Pool.Terminate wid) new ->
                      Pool.get_pending_task_count st = 0%Z
                      /\ (Pool.min_workers st < w)%Z
                      /\ In wid (Pool.workers st)
                      /\ exists r, In r (Store.workers (Pool.db st))
                                   /\ Worker.worker_id r = wid
                                   /\ Worker.status r = "idle"
                                   /\ (now - 30 < Worker.last_heartbeat r)%Z)
      /\ (Z.of_nat (List.length new - Pool.spawns new)
          <= Z.max 0 (w - Pool.min_workers st))%Z.
Proof.
  intros mint now st w.
  pose proof (scale_workers_cases mint now st) as Hc. cbv zeta in Hc.
  fold w in Hc.
  destruct Hc
    as [(E & _)|[(Hp0 & Ha & Hw0 & E)|[(Hp0 & Ha & Hw0 & Hcap & E)
                                       |(Hp0 & Hmin & E)]]];
    rewrite E.
  - exists []. rewrite app_nil_r. split; [reflexivity|].
    split; [intros wid []|]. cbn. lia.
  - exists [Pool.Spawn (mint (Pool.minted st))].
    split; [reflexivity|]. split; [intros wid [H|[]]; discriminate|].
    cbn. lia.
  - destruct (repeat_spawn_log mint now
                (Z.to_nat
                   (Z.min (Z.min (Pool.get_pending_task_count st)
                                 (Pool.max_active_tasks st
                                  - Pool.get_active_task_count st))
                          (Pool.max_workers st - w))) st)
      as (new & Hlog & Hlen & Hsp).
    exists new. split; [exact Hlog|]. split.
    + intros wid Hin. specialize (Hsp _ Hin). discriminate.
    + rewrite (spawns_all new Hsp). lia.
  - destruct (shutdown_workers_log now
                (firstn (Z.to_nat (w - Pool.min_workers st))
                        (Pool.get_idle_workers now st)) st)
      as (new & Hlog & Hlen & Hev).
    exists new. split; [exact Hlog|]. split.
    + intros wid Hin. destruct (Hev _ Hin) as (wid' & Heq & Hl & Hk).
      inversion Heq. subst wid'. split; [exact Hp0|]. split; [exact Hmin|].
      split; [exact Hk|].
      apply firstn_In in Hl. unfold Pool.get_idle_workers in Hl.
      apply in_map_iff in Hl. destruct Hl as (r & Hid & Hr).
      apply filter_In in Hr. destruct Hr as [Hr Hidle].
      apply String.eqb_eq in Hidle.
      unfold Store.get_active_workers in Hr. apply filter_In in Hr.
      destruct Hr as [Hr Hf]. unfold Store.fresh, Store.cutoff in Hf.
      simpl in Hf. apply Z.ltb_lt in Hf.
      exists r. repeat split; auto.
    + rewrite length_firstn in Hlen. lia.
Qed.

(** ** The worker's side *)

Section WorkerFacts.
Import Sql Exec.
Variable worker_id : string.

Lemma oldest_first_total a b :
  WorkerLoop.oldest_first a b = true \/ WorkerLoop.oldest_first b a = true.
Proof. unfold WorkerLoop.oldest_first. rewrite !Z.leb_le. lia. Qed.

Lemma oldest_first_trans a b c :
  WorkerLoop.oldest_first a b = true -> WorkerLoop.oldest_first b c = true ->
  WorkerLoop.oldest_first a c = true.
Proof. unfold WorkerLoop.oldest_first. rewrite !Z.leb_le. lia. Qed.

Lemma unread_true n :
  WorkerLoop.unread worker_id n = true
  <-> Notification.worker_id n = worker_id
      /\ Notification.notification_type n = "task_assigned"
      /\ Notification.processed n = 0%Z.
Proof.
  unfold WorkerLoop.unread.
  rewrite !andb_true_iff, !String.eqb_eq, Z.eqb_eq. tauto.
Qed.

Lemma told_true tid n :
  WorkerLoop.told worker_id (Some tid) n = true
  <-> Notification.worker_id n = worker_id
      /\ Notification.task_id n = Some tid
      /\ Notification.notification_type n = "task_assigned".
Proof.
  unfold WorkerLoop.told.
  rewrite !andb_true_iff, !String.eqb_eq.
  destruct (Notification.task_id n) as [b|].
  - rewrite String.eqb_eq. intuition congruence.
  - intuition discriminate.
Qed.

(** What a call that returns a task id has read and written. *)
Lemma check_for_task_notifications_some o s tid s' :
  WorkerLoop.check_for_task_notifications worker_id o s = (Some tid, s') ->
  exists row,
    In row (Store.worker_notifications s)
    /\ WorkerLoop.unread worker_id row = true
    /\ Notification.task_id row = Some tid
    /\ (forall n, In n (Store.worker_notifications s) ->
                  WorkerLoop.unread worker_id n = true ->
                  (Notification.created_at row <= Notification.created_at n)%Z)
    /\ s' = Store.mk (Store.task_master s) (Store.workers s)
                     (update_where (WorkerLoop.told worker_id (Some tid))
                                   WorkerLoop.mark_processed
                                   (Store.worker_notifications s)).
Proof.
  unfold WorkerLoop.check_for_task_notifications. intros H.
  destruct o; try discriminate.
  destruct (Stable.sort_by WorkerLoop.oldest_first
              (filter (WorkerLoop.unread worker_id)
                      (Store.worker_notifications s)))
    as [|row rest] eqn:E; simpl in H; [discriminate|].
  inversion H as [[Htid Hs]]. clear H.
  destruct (@sort_by_head _ WorkerLoop.oldest_first oldest_first_total
              oldest_first_trans _ _ _ E) as [Hin Hmin].
  apply filter_In in Hin. destruct Hin as [Hin Hun].
  exists row. split; [exact Hin|]. split; [exact Hun|].
  split; [first [reflexivity|exact Htid]|]. split.
  - intros n Hn Hu. apply Z.leb_le. apply (Hmin n).
    apply filter_In. now split.
  - subst s'. first [reflexivity|now rewrite Htid|now rewrite <- Htid].
Qed.
End WorkerFacts.

(** X18.  A task notification is delivered once, oldest first.  Whenever
    [check_for_task_notifications] returns a task id, it is the task of
    the oldest unprocessed [task_assigned] notification addressed to this
    worker; afterwards every notification of that task to this worker is
    marked processed, so that no later call returns the same task id again
    unless a new notification is written.  Tasks, workers and the
    notifications of other workers are untouched. *)
Theorem notification_delivered_once :
  forall worker_id o s tid s',
    WorkerLoop.check_for_task_notifications worker_id o s = (Some tid, s') ->
    (exists row,
        In row (Store.worker_notifications s)
        /\ Notification.worker_id row = worker_id
        /\ Notification.notification_type row = "task_assigned"
        /\ Notification.processed row = 0%Z
        /\ Notification.task_id row = Some tid
        /\ forall n, In n (Store.worker_notifications s) ->
                     Notification.worker_id n = worker_id ->
                     Notification.notification_type n = "task_assigned" ->
                     Notification.processed n = 0%Z ->
                     (Notification.created_at row
                      <= Notification.created_at n)%Z)
    /\ (forall n, In n (Store.worker_notifications s') ->
                  Notification.worker_id n = worker_id ->
                  Notification.notification_type n = "task_assigned" ->
                  Notification.task_id n = Some tid ->
                  Notification.processed n = 1%Z)
    /\ (forall o' r s'',
           WorkerLoop.check_for_task_notifications worker_id o' s' = (r, s'')
           -> r <> Some tid)
    /\ Store.task_master s' = Store.task_master s
    /\ Store.workers s' = Store.workers s
    /\ (forall n, Notification.worker_id n <> worker_id ->
                  (In n (Store.worker_notifications s')
                   <-> In n (Store.worker_notifications s))).
Proof.
  intros worker_id o s tid s' H.
  destruct (check_for_task_notifications_some _ _ _ _ _ H)
    as (row & Hrow & Hun & Htid & Hmin & ->).
  apply unread_true in Hun. destruct Hun as (Hw & Hty & Hpr).
  assert (Hmarked :
            forall n,
              In n (Sql.update_where (WorkerLoop.told worker_id (Some tid))
                      WorkerLoop.mark_processed
                      (Store.worker_notifications s)) ->
              Notification.worker_id n = worker_id ->
              Notification.notification_type n = "task_assigned" ->
              Notification.task_id n = Some tid ->
              Notification.processed n = 1%Z).
  { intros n Hn Hnw Hnt Hni. apply update_where_In in Hn.
    destruct Hn as [(r & _ & _ & ->)|[_ Hno]]; [reflexivity|].
    rewrite (proj2 (told_true worker_id tid n)) in Hno by auto.
    discriminate. }
  cbn [Store.worker_notifications Store.task_master Store.workers].
  split; [|split; [exact Hmarked|split; [|split; [reflexivity|split;
                                                   [reflexivity|]]]]].
  - exists row. split; [exact Hrow|]. split; [exact Hw|].
    split; [exact Hty|]. split; [exact Hpr|]. split; [exact Htid|].
    intros n Hn Hnw Hnt Hnp. apply Hmin; [exact Hn|].
    apply unread_true. auto.
  - intros o' r s'' H2 Hr. subst r.
    destruct (check_for_task_notifications_some _ _ _ _ _ H2)
      as (row2 & Hrow2 & Hun2 & Htid2 & _ & _).
    apply unread_true in Hun2. destruct Hun2 as (Hw2 & Hty2 & Hpr2).
    cbn [Store.worker_notifications] in Hrow2.
    rewrite (Hmarked row2 Hrow2 Hw2 Hty2 Htid2) in Hpr2. discriminate.
  - intros n Hother. split.
    + intros Hn. apply update_where_In in Hn.
      destruct Hn as [(r & _ & Hr & ->)|[Hn _]]; [|exact Hn].
      apply told_true in Hr. destruct Hr as [Hr _]. elim Hother. exact Hr.
    + intros Hn. unfold Sql.update_where. apply in_map_iff. exists n.
      split; [|exact Hn].
      destruct (WorkerLoop.told worker_id (Some tid) n) eqn:Et;
        [|reflexivity].
      apply told_true in Et. destruct Et as [Et _]. contradiction.
Qed.

Lemma notification_delivered_once_witness :
  WorkerLoop.check_for_task_notifications "w1" Store.Runs
    (Enhanced.notify_worker_task_assignment 60 "w1" (Some "t1") Sample.race)
  = (Some "t1",
     snd (WorkerLoop.check_for_task_notifications "w1" Store.Runs
            (Enhanced.notify_worker_task_assignment 60 "w1" (Some "t1")
               Sample.race)))
  /\ exists row,
      In row (Store.worker_notifications
                (Enhanced.notify_worker_task_assignment 60 "w1" (Some "t1")
                   Sample.race))
      /\ Notification.worker_id row = "w1"
      /\ Notification.notification_type row = "task_assigned"
      /\ Notification.processed row = 0%Z
      /\ Notification.task_id row = Some "t1"
      /\ forall n,
          In n (Store.worker_notifications
                  (Enhanced.notify_worker_task_assignment 60 "w1" (Some "t1")
                     Sample.race)) ->
          Notification.worker_id n = "w1" ->
          Notification.notification_type n = "task_assigned" ->
          Notification.processed n = 0%Z ->
          (Notification.created_at row <= Notification.created_at n)%Z.
Proof.
  split; [reflexivity|].
  exact (proj1 (notification_delivered_once "w1" Store.Runs
                  (Enhanced.notify_worker_task_assignment 60 "w1" (Some "t1")
                     Sample.race)
                  "t1" _ eq_refl)).
Defined.

(** X19.  From dispatch to pick-up.  When the enhanced manager assigns an
    existing task to a worker that has no unprocessed notification left,
    the worker's next [check_for_task_notifications] returns that task's
    id, and [get_assigned_task] on it returns the task with its decoded
    content: the row is in progress and assigned to this worker. *)
Theorem dispatch_reaches_worker :
  forall rules now t s wid s1 tid row loads c,
    Enhanced.assign_task_to_worker rules now t s = Py.Ret (Some wid, s1) ->
    Router.task_id t = Some tid ->
    Store.get_task tid s = Some row ->
    loads (if (Task.content row =? "")%string then "{}"
           else Task.content row) = Some c ->
    (forall n, In n (Store.worker_notifications s) ->
               WorkerLoop.unread wid n = false) ->
    exists s2,
      WorkerLoop.check_for_task_notifications wid Store.Runs s1
      = (Some tid, s2)
      /\ WorkerLoop.get_assigned_task wid loads Store.Runs tid s2
         = Some (tid, c)
      /\ Store.get_task tid s2
         = Some (Task.mk tid (Task.content row) "in_progress"
                         (Task.priority row) (Task.result row)
                         (Task.created_by row) (Some wid)
                         (Task.created_at row) (Task.updated_at row)).
Proof.
  intros rules now t s wid s1 tid row loads c H Htid Hrow Hc Hquiet.
  destruct (assign_task_to_worker_cases _ _ _ _ _ H)
    as [E|(wid' & w & _ & _ & _ & _ & _ & E)]; [discriminate|].
  inversion E. subst wid' s1. clear E. rewrite Htid.
  assert (Hnone : filter (WorkerLoop.unread wid) (Store.worker_notifications s)
                  = []).
  { destruct (filter _ _) as [|x l] eqn:E; [reflexivity|].
    assert (Hx : In x (filter (WorkerLoop.unread wid)
                              (Store.worker_notifications s)))
      by (rewrite E; now left).
    apply filter_In in Hx. destruct Hx as [Hx Hu].
    rewrite (Hquiet x Hx) in Hu. discriminate. }
  destruct (get_task_some _ _ _ Hrow) as [_ Hid].
  eexists. split; [|split].
  - unfold WorkerLoop.check_for_task_notifications,
      Enhanced.notify_worker_task_assignment.
    cbn [Store.worker_notifications Store.task_master Store.workers].
    rewrite filter_app, Hnone. cbn [filter app].
    unfold WorkerLoop.unread at 1.
    cbn [Notification.worker_id Notification.notification_type
         Notification.processed].
    rewrite String.eqb_refl. cbn [andb String.eqb Ascii.eqb Bool.eqb Z.eqb].
    reflexivity.
  - unfold WorkerLoop.get_assigned_task. cbn [Store.task_master].
    assert (Hf : find (WorkerLoop.mine wid tid)
                      (Sql.update_where (Enhanced.task_is (Some tid))
                                        (Enhanced.hand_over wid)
                                        (Store.task_master s))
                 = Some (Enhanced.hand_over wid row)).
    { unfold Store.get_task in Hrow. clear - Hrow.
      induction (Store.task_master s) as [|x l IH]; simpl in *;
        [discriminate|].
      destruct (String.eqb_spec (Task.task_id x) tid) as [Ex|Ex].
      - inversion Hrow. subst x. unfold WorkerLoop.mine.
        cbn [Enhanced.hand_over Task.task_id Task.assigned_is
             Task.assigned_to Task.has_status Task.status].
        now rewrite (proj2 (String.eqb_eq _ _) Ex), !String.eqb_refl.
      - unfold WorkerLoop.mine at 1.
        rewrite (proj2 (String.eqb_neq _ _) Ex). cbn [andb].
        now apply IH. }
    rewrite Hf. cbn [Enhanced.hand_over Task.content]. now rewrite Hc.
  - unfold Store.get_task in *. cbn [Store.task_master].
    rewrite get_task_update by reflexivity. rewrite Hrow. simpl.
    rewrite (proj2 (String.eqb_eq _ _) Hid).
    unfold Enhanced.hand_over. now rewrite Hid.
Qed.

Lemma dispatch_reaches_worker_witness :
  exists s2,
    WorkerLoop.check_for_task_notifications "w1" Store.Runs
      (snd (Some "w1",
            Enhanced.notify_worker_task_assignment 60 "w1" (Some "t1")
              (Store.mk
                 (Sql.update_where (Enhanced.task_is (Some "t1"))
                    (Enhanced.hand_over "w1")
                    (Store.task_master Sample.race))
                 (Sql.update_where (Worker.is_worker "w1")
                    (Enhanced.mark_busy (Some "t1"))
                    (Store.workers Sample.race))
                 (Store.worker_notifications Sample.race))))
    = (Some "t1", s2)
    /\ WorkerLoop.get_assigned_task "w1"
         (fun _ => Some Sample.empty_prompt_task) Store.Runs "t1" s2
       = Some ("t1", Sample.empty_prompt_task)
    /\ Store.get_task "t1" s2
       = Some (Task.mk "t1" "{}" "in_progress" 5 None (Some "claude_code")
                       (Some "w1") 1 1).
Proof.
  apply (dispatch_reaches_worker [] 60 Sample.plain_task Sample.race "w1" _
           "t1" (Sample.task "t1" "pending" 5 None 1)
           (fun _ => Some Sample.empty_prompt_task)
           Sample.empty_prompt_task);
    try reflexivity.
  intros n [].
Defined.

Section LoopFacts.
Import Sql Exec.
Variable validate_file_operation : string -> bool * string.
Variable run_gemini_task_with_files :
  string -> list string -> option string -> outcome.
Variable worker_id : string.
Variable now : Z.

(** The two ways out of [process_task]: refused before the Executor is
    reached, or run. *)
Lemma process_task_cases task_id tc w :
  let out := LocalWorker.process_task validate_file_operation
               run_gemini_task_with_files worker_id now task_id tc w in
  (snd out = w /\ success (fst out) = false
   /\ (LocalWorker.first_invalid validate_file_operation
         (Api.get (LocalWorker.files tc) []
          ++ (if Py.truthy (LocalWorker.output_file tc)
              then [Api.get (LocalWorker.output_file tc) ""] else []))
       <> None
       \/ empty (LocalWorker.prompt tc) = true))
  \/ (exists p,
         LocalWorker.prompt tc = Some p /\ p <> ""
         /\ LocalWorker.first_invalid validate_file_operation
              (Api.get (LocalWorker.files tc) []
               ++ (if Py.truthy (LocalWorker.output_file tc)
                   then [Api.get (LocalWorker.output_file tc) ""] else []))
            = None
         /\ fst out
            = mk_outcome
                (success (run_gemini_task_with_files p
                            (Api.get (LocalWorker.files tc) [])
                            (LocalWorker.output_file tc)))
                (output (run_gemini_task_with_files p
                           (Api.get (LocalWorker.files tc) [])
                           (LocalWorker.output_file tc)))
                (error (run_gemini_task_with_files p
                          (Api.get (LocalWorker.files tc) [])
                          (LocalWorker.output_file tc)))
         /\ snd out
            = mk_world
                (snd (Store.update_worker_status now worker_id "processing"
                        (Some task_id) (db w)))
                (executor_calls w ++ [p])).
Proof.
  assert (Happ : forall l1 l2,
             LocalWorker.first_invalid validate_file_operation (l1 ++ l2)
             = match LocalWorker.first_invalid validate_file_operation l1 with
               | Some m => Some m
               | None => LocalWorker.first_invalid validate_file_operation l2
               end).
  { induction l1 as [|f l1 IH]; intros l2; simpl; [reflexivity|].
    destruct (validate_file_operation f) as [ok msg].
    destruct ok; [apply IH|reflexivity]. }
  intros out. unfold out, LocalWorker.process_task. rewrite Happ.
  destruct (LocalWorker.first_invalid validate_file_operation
              (Api.get (LocalWorker.files tc) [])) as [msg|] eqn:Hin.
  { left. simpl. repeat split. left. discriminate. }
  assert (Hsame :
            (if Py.truthy (LocalWorker.output_file tc)
             then LocalWorker.first_invalid validate_file_operation
                    [Api.get (LocalWorker.output_file tc) ""]
             else None)
            = LocalWorker.first_invalid validate_file_operation
                (if Py.truthy (LocalWorker.output_file tc)
                 then [Api.get (LocalWorker.output_file tc) ""] else []))
    by (destruct (Py.truthy (LocalWorker.output_file tc)); reflexivity).
  rewrite Hsame.
  destruct (LocalWorker.first_invalid validate_file_operation
              (if Py.truthy (LocalWorker.output_file tc)
               then [Api.get (LocalWorker.output_file tc) ""] else []))
    as [msg|] eqn:Hout.
  { left. simpl. repeat split. left. discriminate. }
  destruct (empty (LocalWorker.prompt tc)) eqn:He.
  { left. simpl. repeat split. now right. }
  right. unfold empty in He. apply negb_false_iff in He.
  destruct (LocalWorker.prompt tc) as [p|] eqn:Hp; [|discriminate].
  simpl in He. apply negb_true_iff, String.eqb_neq in He.
  exists p. repeat split; auto.
Qed.
End LoopFacts.

(** X20.  A restarted worker starts from zero.  When the DELETE and the
    INSERT of the worker's [register_worker] both run, the worker ends
    with exactly one row: idle, no current task, both counters 0, created
    and last heard of now; the rows of the other workers keep their order,
    and tasks and notifications are untouched, also the tasks still
    assigned to the old incarnation. *)
Theorem worker_restart_resets_counters :
  forall worker_id now env s,
    let s' := WorkerLoop.register_worker worker_id now Store.Runs Store.Runs
                env s in
    Store.workers s'
    = filter (fun w => negb (Worker.worker_id w =? worker_id)%string)
             (Store.workers s)
      ++ [Worker.mk worker_id "idle" None 0 0 now now None None]
    /\ Sql.rowcount (Worker.is_worker worker_id) (Store.workers s') = 1%nat
    /\ Store.task_master s' = Store.task_master s
    /\ Store.worker_notifications s' = Store.worker_notifications s.
Proof.
  intros worker_id now env s s'. unfold s', WorkerLoop.register_worker,
    Registry.register_worker. cbn [Store.workers Store.task_master
                                   Store.worker_notifications].
  rewrite rowcount_after_delete. cbn [Nat.eqb snd Store.workers
    Store.task_master Store.worker_notifications].
  split; [reflexivity|]. split; [|split; reflexivity].
  unfold Sql.rowcount. rewrite filter_app, length_app.
  fold (Sql.rowcount (Worker.is_worker worker_id)
          (Sql.delete_where (Worker.is_worker worker_id) (Store.workers s))).
  rewrite rowcount_after_delete. simpl.
  unfold Worker.is_worker. simpl. now rewrite String.eqb_refl.
Qed.

(** X21.  One pass of the worker's loop settles the task it picks up.  If
    the pass receives a notification for a task that [get_assigned_task]
    returns, and SQLite lets the completing transaction run, then after
    the pass every row of that task assigned to this worker is [completed]
    when the result says success and [failed] otherwise, with the encoded
    result stored, and every row of the worker is idle without current
    task.  A task refused by the path validation or for an empty prompt is
    therefore marked failed, without the Executor having been called; in
    any case the Executor is called at most once. *)
Theorem worker_step_settles_task :
  forall worker_id now loads dumps validate run env_beat env_done l tid tc s1,
    WorkerLoop.check_for_task_notifications worker_id Store.Runs
      (Exec.db (WorkerLoop.world_of l)) = (Some tid, s1) ->
    tid <> "" ->
    WorkerLoop.get_assigned_task worker_id loads Store.Runs tid s1
    = Some (tid, tc) ->
    Store.transaction_runs env_done ->
    let l' := WorkerLoop.step worker_id now loads dumps validate run
                Store.Runs Store.Runs env_beat env_done l in
    let result :=
      fst (LocalWorker.process_task validate run worker_id now tid tc
             (Exec.mk_world s1 (Exec.executor_calls (WorkerLoop.world_of l))))
    in
    (exists t, In t (Store.task_master (Exec.db (WorkerLoop.world_of l')))
               /\ Task.task_id t = tid
               /\ Task.assigned_to t = Some worker_id)
    /\ (forall t, In t (Store.task_master (Exec.db (WorkerLoop.world_of l')))
                  -> Task.task_id t = tid
                  -> Task.assigned_to t = Some worker_id
                  -> Task.status t = (if Exec.success result then "completed"
                                      else "failed")
                     /\ Task.result t = Some (dumps result))
    /\ (forall w, In w (Store.workers (Exec.db (WorkerLoop.world_of l')))
                  -> Worker.worker_id w = worker_id
                  -> Worker.status w = "idle"
                     /\ Worker.current_task w = None)
    /\ (Exec.executor_calls (WorkerLoop.world_of l')
        = Exec.executor_calls (WorkerLoop.world_of l)
        \/ exists p, LocalWorker.prompt tc = Some p
                     /\ Exec.executor_calls (WorkerLoop.world_of l')
                        = Exec.executor_calls (WorkerLoop.world_of l) ++ [p])
    /\ ((LocalWorker.first_invalid validate
           (Api.get (LocalWorker.files tc) []
            ++ (if Py.truthy (LocalWorker.output_file tc)
                then [Api.get (LocalWorker.output_file tc) ""] else []))
         <> None
         \/ Exec.empty (LocalWorker.prompt tc) = true) ->
        Exec.success result = false
        /\ Exec.executor_calls (WorkerLoop.world_of l')
           = Exec.executor_calls (WorkerLoop.world_of l)).
Proof.
  intros worker_id now loads dumps validate run env_beat env_done l tid tc s1
         Hcheck Hne Hget Hrun l' result.
  set (w0 := Exec.mk_world s1 (Exec.executor_calls (WorkerLoop.world_of l))).
  set (out := LocalWorker.process_task validate run worker_id now tid tc w0).
  assert (Hstep : l' = WorkerLoop.mk_loop
                         (Exec.mk_world
                            (WorkerLoop.update_task_result worker_id now dumps
                               env_done tid (fst out) (Exec.db (snd out)))
                            (Exec.executor_calls (snd out)))
                         (WorkerLoop.heartbeat_counter l)).
  { unfold l', WorkerLoop.step. rewrite Hcheck.
    cbn [Py.truthy Api.get]. rewrite (proj2 (String.eqb_neq _ _) Hne).
    cbn [negb]. rewrite Hget. fold w0. fold out. now destruct out. }
  (* the row that get_assigned_task read *)
  assert (Hrow : exists r, In r (Store.task_master s1)
                           /\ Store.complete_cond tid worker_id r = true).
  { unfold WorkerLoop.get_assigned_task in Hget.
    destruct (find (WorkerLoop.mine worker_id tid) (Store.task_master s1))
      as [r|] eqn:Ef; [|discriminate].
    apply find_some in Ef. destruct Ef as [Hr Hm].
    unfold WorkerLoop.mine in Hm. apply andb_true_iff in Hm.
    destruct Hm as [Hm _]. exists r. split; [exact Hr|exact Hm]. }
  assert (Htasks : Store.task_master (Exec.db (snd out)) = Store.task_master s1).
  { destruct (process_task_cases validate run worker_id now tid tc w0)
      as [(E & _)|(p & _ & _ & _ & _ & E)]; fold out in E; rewrite E;
      reflexivity. }
  assert (Hcalls : Exec.executor_calls (snd out)
                   = Exec.executor_calls (WorkerLoop.world_of l)
                   \/ exists p, LocalWorker.prompt tc = Some p
                                /\ Exec.executor_calls (snd out)
                                   = Exec.executor_calls (WorkerLoop.world_of l)
                                     ++ [p]).
  { destruct (process_task_cases validate run worker_id now tid tc w0)
      as [(E & _)|(p & Hp & _ & _ & _ & E)]; fold out in E; rewrite E;
      [now left|right; now exists p]. }
  fold w0 in result. fold out in result.
  set (st := if Exec.success result then "completed" else "failed").
  assert (Hdone :
            WorkerLoop.update_task_result worker_id now dumps env_done tid
              (fst out) (Exec.db (snd out))
            = Store.mk
                (Sql.update_where (Store.complete_cond tid worker_id)
                   (Store.complete_set st (dumps result) now)
                   (Store.task_master s1))
                (Sql.update_where (Worker.is_worker worker_id)
                   (Store.count_task (Exec.success result) now)
                   (Store.workers (Exec.db (snd out))))
                (Store.worker_notifications (Exec.db (snd out)))).
  { unfold WorkerLoop.update_task_result, Store.complete_task_with_stats.
    destruct Hrow as (r & Hr & Hc).
    erewrite retry_runs; [|exact Hrun|].
    2:{ unfold Store.complete_body. rewrite Htasks.
        rewrite (rowcount_pos (Store.complete_cond tid worker_id) _ r Hr Hc).
        reflexivity. }
    reflexivity. }
  rewrite Hstep. cbn [WorkerLoop.world_of Exec.db Exec.executor_calls].
  rewrite Hdone. cbn [Store.task_master Store.workers].
  split; [|split; [|split; [|split]]].
  - destruct Hrow as (r & Hr & Hc).
    exists (Store.complete_set st (dumps result) now r).
    apply complete_cond_true in Hc. destruct Hc as [Hid Has].
    split; [|split; [exact Hid|exact Has]].
    unfold Sql.update_where. apply in_map_iff. exists r.
    split; [|exact Hr].
    now rewrite (proj2 (complete_cond_true tid worker_id r) (conj Hid Has)).
  - intros t Ht Hid Has. apply update_where_In in Ht.
    destruct Ht as [(r & _ & _ & ->)|[_ Hno]]; [now split|].
    rewrite (proj2 (complete_cond_true tid worker_id t) (conj Hid Has)) in Hno.
    discriminate.
  - intros w Hw Hid. apply update_where_In in Hw.
    destruct Hw as [(r & _ & _ & ->)|[_ Hno]]; [now split|].
    unfold Worker.is_worker in Hno. apply String.eqb_neq in Hno.
    contradiction.
  - exact Hcalls.
  - intros Hrefused.
    pose proof (process_task_cases validate run worker_id now tid tc w0)
      as Hc. cbv zeta in Hc. fold out in Hc.
    destruct Hc as [(E & Hfail & _)|(p & Hp & Hp0 & Hvalid & _ & _)].
    + split; [exact Hfail|]. now rewrite E.
    + exfalso. destruct Hrefused as [H|H]; [now apply H|].
      rewrite Hp in H. unfold Exec.empty in H. simpl in H.
      apply negb_true_iff, negb_false_iff, String.eqb_eq in H. contradiction.
Qed.

Lemma worker_step_settles_task_witness :
  WorkerLoop.check_for_task_notifications "w1" Store.Runs
    (Exec.db (WorkerLoop.world_of
                (WorkerLoop.mk_loop (Exec.mk_world Sample.dispatched []) 0)))
  = (Some "t1",
     snd (WorkerLoop.check_for_task_notifications "w1" Store.Runs
            Sample.dispatched))
  /\ "t1" <> ""
  /\ Store.transaction_runs []
  /\ exists t,
      In t (Store.task_master
              (Exec.db
                 (WorkerLoop.world_of
                    (WorkerLoop.step "w1" 100
                       (fun _ => Some Sample.empty_prompt_task)
                       Sample.short_dumps Sample.any_path
                       Sample.quiet_executor Store.Runs Store.Runs [] []
                       (WorkerLoop.mk_loop
                          (Exec.mk_world Sample.dispatched []) 0)))))
      /\ Task.task_id t = "t1"
      /\ Task.assigned_to t = Some "w1".
Proof.
  split; [reflexivity|]. split; [discriminate|].
  split; [exact transaction_runs_nil|].
  exact (proj1 (worker_step_settles_task "w1" 100
                  (fun _ => Some Sample.empty_prompt_task)
                  Sample.short_dumps Sample.any_path Sample.quiet_executor
                  [] []
                  (WorkerLoop.mk_loop (Exec.mk_world Sample.dispatched []) 0)
                  "t1" Sample.empty_prompt_task _ eq_refl
                  ltac:(discriminate) eq_refl transaction_runs_nil)).
Defined.

Section GateFacts.
Import Exec.
Variable validate_file_operation : string -> bool * string.

Lemma first_invalid_app l1 l2 :
  LocalWorker.first_invalid validate_file_operation (l1 ++ l2)
  = match LocalWorker.first_invalid validate_file_operation l1 with
    | Some m => Some m
    | None => LocalWorker.first_invalid validate_file_operation l2
    end.
Proof.
  induction l1 as [|f l1 IH]; simpl; [reflexivity|].
  destruct (validate_file_operation f) as [ok msg].
  destruct ok; [apply IH|reflexivity].
Qed.

Lemma first_invalid_some paths f :
  In f paths -> fst (validate_file_operation f) = false ->
  exists l1 g l2,
    paths = l1 ++ g :: l2
    /\ (forall h, In h l1 -> fst (validate_file_operation h) = true)
    /\ fst (validate_file_operation g) = false
    /\ LocalWorker.first_invalid validate_file_operation paths
       = Some (snd (validate_file_operation g)).
Proof.
  induction paths as [|x paths IH]; simpl; intros Hin Hbad; [destruct Hin|].
  destruct (validate_file_operation x) as [ok msg] eqn:Ex.
  destruct ok.
  - destruct Hin as [->|Hin]; [rewrite Ex in Hbad; discriminate|].
    destruct (IH Hin Hbad) as (l1 & g & l2 & -> & Hl1 & Hg & Hsome).
    exists (x :: l1), g, l2. split; [reflexivity|].
    split; [|split; [exact Hg|exact Hsome]].
    intros h [<-|Hh]; [now rewrite Ex|now apply Hl1].
  - exists [], x, paths. rewrite Ex. repeat split. intros h [].
Qed.
End GateFacts.

(** X22.  The path validation of [process_task] is a gate in front of the
    Executor.  If any input file, or a non-empty output file, fails
    [validate_file_operation], the task is refused with the message of the
    first failing path (input files in order, then the output file), and
    neither the Executor nor the database is touched, even when the prompt
    is fine.  If every path is valid and the prompt is not empty, the
    Executor is called exactly once, with the prompt, the input files and
    the output file, its success, output and error are returned, and the
    worker's rows read [processing] on this task; the task table is not
    written. *)
Theorem process_task_validation_gate :
  forall validate run worker_id now task_id tc w,
    let paths :=
      Api.get (LocalWorker.files tc) []
      ++ (if Py.truthy (LocalWorker.output_file tc)
          then [Api.get (LocalWorker.output_file tc) ""] else []) in
    let out := LocalWorker.process_task validate run worker_id now task_id
                                        tc w in
    ((exists f, In f paths /\ fst (validate f) = false) ->
     exists l1 g l2,
       paths = l1 ++ g :: l2
       /\ (forall h, In h l1 -> fst (validate h) = true)
       /\ fst (validate g) = false
       /\ out = (Exec.mk_outcome false ""
                   (Some ("Security validation failed: "
                          ++ snd (validate g))%string),
                 w))
    /\ ((forall f, In f paths -> fst (validate f) = true) ->
        forall p, LocalWorker.prompt tc = Some p -> p <> "" ->
          let r := run p (Api.get (LocalWorker.files tc) [])
                       (LocalWorker.output_file tc) in
          fst out = Exec.mk_outcome (Exec.success r) (Exec.output r)
                                    (Exec.error r)
          /\ Exec.executor_calls (snd out) = Exec.executor_calls w ++ [p]
          /\ Store.task_master (Exec.db (snd out))
             = Store.task_master (Exec.db w)
          /\ forall x, In x (Store.workers (Exec.db (snd out))) ->
                       Worker.worker_id x = worker_id ->
                       Worker.status x = "processing"
                       /\ Worker.current_task x = Some task_id).
Proof.
  intros validate run worker_id now task_id tc w paths out. split.
  - intros (f & Hf & Hbad).
    destruct (first_invalid_some validate paths f Hf Hbad)
      as (l1 & g & l2 & Hsplit & Hl1 & Hg & Hsome).
    exists l1, g, l2. split; [exact Hsplit|]. split; [exact Hl1|].
    split; [exact Hg|].
    unfold paths in Hsome. rewrite first_invalid_app in Hsome.
    unfold out, LocalWorker.process_task.
    destruct (LocalWorker.first_invalid validate
                (Api.get (LocalWorker.files tc) [])) as [msg|].
    + inversion Hsome. reflexivity.
    + destruct (Py.truthy (LocalWorker.output_file tc)).
      * rewrite Hsome. reflexivity.
      * simpl in Hsome. discriminate.
  - intros Hvalid p Hp Hne r.
    pose proof (process_task_cases validate run worker_id now task_id tc w)
      as Hc. cbv zeta in Hc. fold paths in Hc. fold out in Hc.
    destruct Hc as [(_ & _ & [Hbad|Hempty])|(p' & Hp' & _ & _ & Hres & Hw)].
    + elim Hbad. apply first_invalid_none. exact Hvalid.
    + rewrite Hp in Hempty. unfold Exec.empty in Hempty. simpl in Hempty.
      apply negb_true_iff, negb_false_iff, String.eqb_eq in Hempty.
      contradiction.
    + rewrite Hp in Hp'. inversion Hp'. subst p'.
      split; [exact Hres|]. rewrite Hw.
      cbn [Exec.executor_calls Exec.db]. split; [reflexivity|].
      unfold Store.update_worker_status.
      cbn [snd Store.task_master Store.workers]. split; [reflexivity|].
      intros x Hx Hid. apply update_where_In in Hx.
      destruct Hx as [(y & _ & _ & ->)|[_ Hno]]; [now split|].
      unfold Worker.is_worker in Hno. apply String.eqb_neq in Hno.
      contradiction.
Qed.

(** ** Delegation over HTTP *)

Section DelegateFacts.
Import Exec Api.

Lemma create_task_cases env now tid content prio created_by s :
  Store.create_task env now tid content prio created_by s = (false, s)
  \/ (Store.get_task tid s = None
      /\ Store.create_task env now tid content prio created_by s
         = (true,
            Store.mk (Store.task_master s
                      ++ [Task.mk tid content "pending" prio None
                                  (Some created_by) None now now])
                     (Store.workers s) (Store.worker_notifications s))).
Proof.
  unfold Store.create_task.
  destruct (retry_any _ false
              (Store.create_body now tid content prio created_by) env s)
    as [E|(a & s' & Hb & E)]; [now left|].
  rewrite E. unfold Store.create_body in Hb.
  destruct (existsb _ (Store.task_master s)) eqn:Ex; inversion Hb;
    [now left|right].
  split; [|reflexivity]. unfold Store.get_task.
  destruct (find _ (Store.task_master s)) eqn:Ef; [|reflexivity].
  assert (existsb (fun t => (Task.task_id t =? tid)%string)
                  (Store.task_master s) = true)
    by (apply existsb_find; congruence).
  congruence.
Qed.

Lemma create_task_fresh env now tid content prio created_by s :
  Store.transaction_runs env -> Store.get_task tid s = None ->
  Store.create_task env now tid content prio created_by s
  = (true,
     Store.mk (Store.task_master s
               ++ [Task.mk tid content "pending" prio None
                           (Some created_by) None now now])
              (Store.workers s) (Store.worker_notifications s)).
Proof.
  intros Hrun Hnone. unfold Store.create_task.
  eapply retry_runs; [exact Hrun|]. unfold Store.create_body.
  destruct (existsb _ (Store.task_master s)) eqn:E; [|reflexivity].
  apply existsb_find in E. now elim E.
Qed.

Lemma get_task_created tid s row :
  Store.get_task tid s = None -> Task.task_id row = tid ->
  Store.get_task tid
    (Store.mk (Store.task_master s ++ [row]) (Store.workers s)
              (Store.worker_notifications s))
  = Some row.
Proof.
  intros Hnone Hid. unfold Store.get_task in *. cbn [Store.task_master].
  rewrite find_app_miss by exact Hnone. simpl.
  now rewrite (proj2 (String.eqb_eq _ _) Hid).
Qed.

Lemma no_keys_prompt data :
  get (content data) (get (prompt data) "") <> "" -> no_keys data = false.
Proof.
  unfold no_keys, get.
  destruct (type_ data), (content data), (prompt data), (files data);
    try reflexivity.
  intros H. now elim H.
Qed.

Lemma world_eta w : mk_world (db w) (executor_calls w) = w.
Proof. now destruct w. Qed.
End DelegateFacts.

(** X23.  Delegating without [sync] queues the task and nothing more.  For
    a request with a non-empty prompt and a task id not yet in use, when
    SQLite lets the INSERT run: the response is 200 [delegated] with the
    task id, the Executor is not called, and the task is stored [pending],
    unassigned, created by [claude_code], with the priority of the request
    (5 when it names none) and the encoded task content; [get_task_status]
    answers 200 with status [pending] and no result. *)
Theorem delegate_async_queues_task :
  forall dumps_content dumps_outcome gemini_exec env task_id now data w
         (json : Type) (loads : string -> option json),
    Store.transaction_runs env ->
    Store.get_task task_id (Exec.db w) = None ->
    Api.get (Api.content data) (Api.get (Api.prompt data) "") <> "" ->
    Api.get (Api.sync data) false = false ->
    let tc := Api.mk_content (Api.get (Api.type_ data) "general")
                (Api.get (Api.content data) (Api.get (Api.prompt data) ""))
                (Api.get (Api.files data) []) (Api.output_file data)
                (Api.options data) in
    let out := Api.delegate_task dumps_content dumps_outcome gemini_exec env
                 task_id now (Api.Json data) w in
    fst out = Api.mk_response 200 (Api.Delegated task_id)
    /\ Exec.executor_calls (snd out) = Exec.executor_calls w
    /\ Store.get_task task_id (Exec.db (snd out))
       = Some (Task.mk task_id (dumps_content tc) "pending"
                       (Api.get (Api.priority data) 5%Z) None
                       (Some "claude_code") None now now)
    /\ Status.get_task_status loads task_id (snd out)
       = (200%Z, @Status.Found json task_id "pending" None now now)
    /\ Store.workers (Exec.db (snd out)) = Store.workers (Exec.db w).
Proof.
  intros dumps_content dumps_outcome gemini_exec env task_id now data w json
         loads Hrun Hfresh Hprompt Hasync tc out.
  set (row := Task.mk task_id (dumps_content tc) "pending"
                      (Api.get (Api.priority data) 5%Z) None
                      (Some "claude_code") None now now).
  assert (Hcreate :
            Store.create_task env now task_id (dumps_content tc)
              (Api.get (Api.priority data) 5%Z) "claude_code" (Exec.db w)
            = (true,
               Store.mk (Store.task_master (Exec.db w) ++ [row])
                        (Store.workers (Exec.db w))
                        (Store.worker_notifications (Exec.db w)))).
  { now apply create_task_fresh. }
  assert (Hout : out = (Api.mk_response 200 (Api.Delegated task_id),
                        Exec.mk_world
                          (Store.mk (Store.task_master (Exec.db w) ++ [row])
                                    (Store.workers (Exec.db w))
                                    (Store.worker_notifications (Exec.db w)))
                          (Exec.executor_calls w))).
  { unfold out, Api.delegate_task.
    rewrite (no_keys_prompt data Hprompt). cbn [Api.tc_prompt].
    rewrite (proj2 (String.eqb_neq _ _) Hprompt).
    fold tc. rewrite Hcreate. cbn [negb]. now rewrite Hasync. }
  rewrite Hout. cbn [fst snd Exec.db Exec.executor_calls Store.workers].
  assert (Hget : Store.get_task task_id
                   (Store.mk (Store.task_master (Exec.db w) ++ [row])
                             (Store.workers (Exec.db w))
                             (Store.worker_notifications (Exec.db w)))
                 = Some row)
    by (now apply get_task_created).
  repeat split; try assumption.
  unfold Status.get_task_status. cbn [Exec.db]. now rewrite Hget.
Qed.


(** X25.  What [delegate_task] can answer, and when it writes.  The status
    code is 200, 400 or 500.  Unless it is 200 the request leaves the
    store and the Executor's history exactly as they were; when it is 200
    the task id is in the store afterwards and was not in use before: an
    existing task is never overwritten (the request is answered 500).  At
    most one call of the Executor is made.  A request whose [content] key
    is present but empty is refused with 400 even if it also carries a
    [prompt]. *)
Theorem delegate_task_outcomes :
  forall dumps_content dumps_outcome gemini_exec env task_id now req w,
    let out := Api.delegate_task dumps_content dumps_outcome gemini_exec env
                 task_id now req w in
    let code := Api.code (fst out) in
    (code = 200%Z \/ code = 400%Z \/ code = 500%Z)
    /\ (code <> 200%Z -> snd out = w)
    /\ (code = 200%Z ->
        Store.get_task task_id (Exec.db w) = None
        /\ Store.get_task task_id (Exec.db (snd out)) <> None)
    /\ (Exec.executor_calls (snd out) = Exec.executor_calls w
        \/ exists p, Exec.executor_calls (snd out)
                     = Exec.executor_calls w ++ [p])
    /\ (forall data, req = Api.Json data -> Api.content data = Some "" ->
                     fst out
                     = Api.mk_response 400 (Api.Error "No prompt provided")
                     /\ snd out = w).
Proof.
  intros dumps_content dumps_outcome gemini_exec env task_id now req w
         out code.
  unfold code, out, Api.delegate_task.
  destruct req as [why|data].
  { cbn. split; [auto|]. split; [reflexivity|]. split; [discriminate|].
    split; [now left|]. intros d Hd. discriminate. }
  destruct (Api.no_keys data) eqn:Hk.
  { cbn. split; [auto|]. split; [reflexivity|]. split; [discriminate|].
    split; [now left|]. intros d Hd Hc. inversion Hd. subst d.
    unfold Api.no_keys in Hk. rewrite Hc in Hk.
    destruct (Api.type_ data); discriminate. }
  cbn [Api.tc_prompt].
  destruct (String.eqb_spec
              (Api.get (Api.content data) (Api.get (Api.prompt data) "")) "")
    as [Hp|Hp].
  { cbn. split; [auto|]. split; [reflexivity|]. split; [discriminate|].
    split; [now left|]. intros d Hd Hc. now split. }
  set (tc := Api.mk_content (Api.get (Api.type_ data) "general")
               (Api.get (Api.content data) (Api.get (Api.prompt data) ""))
               (Api.get (Api.files data) []) (Api.output_file data)
               (Api.options data)).
  assert (Hcontent : forall d, Api.Json data = Api.Json d ->
                               Api.content d = Some "" -> False).
  { intros d Hd Hc. inversion Hd. subst d. rewrite Hc in Hp. now apply Hp. }
  destruct (create_task_cases env now task_id (dumps_content tc)
              (Api.get (Api.priority data) 5%Z) "claude_code" (Exec.db w))
    as [E|[Hfresh E]]; rewrite E; cbn [negb].
  { cbn. rewrite world_eta. split; [auto|]. split; [reflexivity|].
    split; [discriminate|]. split; [now left|].
    intros d Hd Hc. elim (Hcontent d Hd Hc). }
  set (row := Task.mk task_id (dumps_content tc) "pending"
                      (Api.get (Api.priority data) 5%Z) None
                      (Some "claude_code") None now now).
  pose proof (get_task_created task_id (Exec.db w) row Hfresh eq_refl) as Hg.
  destruct (Api.get (Api.sync data) false).
  - unfold Api.execute_task_sync. cbn [Api.tc_prompt tc].
    rewrite (proj2 (String.eqb_neq _ _) Hp).
    cbn [fst snd Api.code Exec.db Exec.executor_calls].
    split; [auto|]. split; [congruence|]. split; [|split].
    + intros _. split; [exact Hfresh|].
      unfold Store.update_task_status, Store.get_task.
      cbn [snd Store.task_master].
      rewrite get_task_update by reflexivity.
      unfold Store.get_task in Hg. cbn [Store.task_master] in Hg.
      fold row. rewrite Hg. discriminate.
    + right. eexists. reflexivity.
    + intros d Hd Hc. elim (Hcontent d Hd Hc).
  - cbn [fst snd Api.code Exec.db Exec.executor_calls].
    split; [auto|]. split; [congruence|]. split; [|split].
    + intros _. split; [exact Hfresh|]. fold row. rewrite Hg. discriminate.
    + now left.
    + intros d Hd Hc. elim (Hcontent d Hd Hc).
Qed.

Lemma delegate_async_queues_task_witness :
  Store.transaction_runs []
  /\ Store.get_task "task_1" (Exec.db Sample.world0) = None
  /\ fst (Api.delegate_task Sample.content_dumps Sample.short_dumps
            Sample.failing_exec [] "task_1" 7 (Api.Json Sample.hello_request)
            Sample.world0)
     = Api.mk_response 200 (Api.Delegated "task_1").
Proof.
  split; [exact transaction_runs_nil|]. split; [reflexivity|].
  exact (proj1 (delegate_async_queues_task Sample.content_dumps
                  Sample.short_dumps Sample.failing_exec [] "task_1" 7
                  Sample.hello_request Sample.world0 unit
                  (fun _ => Some tt) transaction_runs_nil eq_refl
                  ltac:(discriminate) eq_refl)).
Defined.


(** ** Deliverables, continued *)

Section ReviewFacts.
Import Text.

Lemma text_eqb_eq (a b : str) : eqb a b = true -> a = b.
Proof.
  revert b. induction a as [|x a IH]; destruct b as [|y b]; simpl;
    try discriminate; [reflexivity|].
  intros H. apply andb_true_iff in H. destruct H as [Hx Hab].
  apply N.eqb_eq in Hx. subst y. f_equal. now apply IH.
Qed.


End ReviewFacts.


(** X27.  The recommendation of the review summary.  Since the quality
    score never falls below 70, the recommendation [要改善] is never given:
    a failed task is always [緊急], a successful one [優秀], [良好] or
    [要確認].  [優秀] takes a result longer than 50 characters of type
    [code_generation] or [data_analysis]; a successful result of at most 50
    characters is rated [要確認] or [良好]. *)
Theorem review_recommendation_range :
  forall result_text task_type success,
    let q := Deliverable.assess_quality result_text task_type in
    let a := Review.recommendation q success in
    a <> Review.Improve
    /\ (a = Review.Urgent <-> success = false)
    /\ (a = Review.Excellent ->
        (task_type = Text.lit "code_generation"
         \/ task_type = Text.lit "data_analysis")
        /\ (50 < List.length result_text)%nat)
    /\ ((List.length result_text <= 50)%nat -> success = true ->
        a = Review.Check \/ a = Review.Good)
    /\ Review.generate_recommendations q success task_type
       = Review.advice_text a.
Proof.
  intros result_text task_type success q a.
  assert (Hq : (70 <= q <= 100)%Z).
  { unfold q, Deliverable.assess_quality.
    repeat match goal with
           | |- context [if ?b then _ else _] => destruct b
           end; lia. }
  assert (Hplain :
            Text.eqb task_type (Text.lit "code_generation") = false ->
            Text.eqb task_type (Text.lit "data_analysis") = false ->
            (q <= 85)%Z).
  { intros H1 H2. unfold q, Deliverable.assess_quality. rewrite H1, H2.
    repeat match goal with
           | |- context [if ?b then _ else _] => destruct b
           end; lia. }
  assert (Hshort : (List.length result_text <= 50)%nat -> (q <= 85)%Z).
  { intros Hlen. unfold q, Deliverable.assess_quality.
    destruct (Nat.ltb_spec 50 (List.length result_text)); [lia|].
    destruct (Nat.ltb_spec 200 (List.length result_text)); [lia|].
    repeat match goal with
           | |- context [if ?b then _ else _] => destruct b
           end; lia. }
  unfold a, Review.recommendation. clearbody q.
  destruct success; cbn [negb].
  - destruct (Z.leb_spec 90 q) as [H90|H90];
      [|destruct (Z.leb_spec 80 q) as [H80|H80];
        [|destruct (Z.leb_spec 70 q) as [H70|H70]; [|lia]]].
    + split; [discriminate|]. split; [split; discriminate|].
      split; [|split; [intros Hlen _; specialize (Hshort Hlen); lia
                      |unfold Review.generate_recommendations,
                         Review.recommendation; cbn [negb];
                         destruct (Z.leb_spec 90 q); [reflexivity|lia]]].
      intros _. split.
      * destruct (Text.eqb task_type (Text.lit "code_generation")) eqn:E1;
          [left; now apply text_eqb_eq|].
        destruct (Text.eqb task_type (Text.lit "data_analysis")) eqn:E2;
          [right; now apply text_eqb_eq|].
        specialize (Hplain eq_refl eq_refl). lia.
      * destruct (Nat.ltb_spec 50 (List.length result_text)) as [H|H];
          [lia|]. specialize (Hshort H). lia.
    + split; [discriminate|]. split; [split; discriminate|].
      split; [discriminate|]. split; [auto|].
      unfold Review.generate_recommendations, Review.recommendation.
      cbn [negb]. destruct (Z.leb_spec 90 q); [lia|].
      destruct (Z.leb_spec 80 q); [reflexivity|lia].
    + split; [discriminate|]. split; [split; discriminate|].
      split; [discriminate|]. split; [auto|].
      unfold Review.generate_recommendations, Review.recommendation.
      cbn [negb]. destruct (Z.leb_spec 90 q); [lia|].
      destruct (Z.leb_spec 80 q); [lia|].
      destruct (Z.leb_spec 70 q); [reflexivity|lia].
  - split; [discriminate|]. split; [split; reflexivity|].
    split; [discriminate|]. split; [discriminate|]. reflexivity.
Qed.

Section QuietText.
Import Text Re Deliverable.
Variable ua : N -> bool.

Lemma section_pattern_head :
  exists r, section_pattern ua = Chr (just 47) :: Chr (just 47) :: r.
Proof. eexists. reflexivity. Qed.

Lemma block_pattern_head :
  exists r, block_pattern ua = Chr (just 47) :: Chr (just 42) :: r.
Proof. eexists. reflexivity. Qed.

Lemma match_needs_two a b r bol cap s res :
  match_here (Chr (just a) :: Chr (just b) :: r) bol cap s = Some res ->
  starts_with [a; b] s = true.
Proof.
  destruct s as [|c1 [|c2 s]]; cbn [match_here]; try discriminate.
  - unfold just. destruct (a =? c1)%N; discriminate.
  - unfold just. destruct (N.eqb_spec a c1) as [<-|]; [|discriminate].
    destruct (N.eqb_spec b c2) as [<-|]; [|discriminate].
    intros _. cbn [starts_with]. now rewrite !N.eqb_refl.
Qed.

Lemma starts_with_contains p s : starts_with p s = true -> contains p s = true.
Proof. intros H. destruct s; simpl in *; now rewrite H. Qed.

(** Without a place where the pattern could start, [re.split] returns the
    text in one piece. *)
Lemma split_from_no_match r pre :
  (forall bol cap s res, match_here r bol cap s = Some res ->
                         starts_with pre s = true) ->
  forall s fuel bol cur,
    contains pre s = false ->
    split_from r fuel bol cur s = [rev cur ++ s].
Proof.
  intros Hneed. induction s as [|c s IH]; intros fuel bol cur Hno.
  - destruct fuel; simpl; [reflexivity|now rewrite app_nil_r].
  - destruct fuel as [|fuel]; [reflexivity|]. cbn [split_from].
    assert (Hadv : advance r bol (c :: s) = None).
    { unfold advance.
      destruct (match_here r bol Unset (c :: s)) as [[cap rest]|] eqn:Hm;
        [|reflexivity].
      apply Hneed, starts_with_contains in Hm. congruence. }
    rewrite Hadv, IH by (now apply contains_tail in Hno).
    simpl rev. now rewrite <- app_assoc.
Qed.

Lemma extract_nothing r pre s :
  (forall bol cap s res, match_here r bol cap s = Some res ->
                         starts_with pre s = true) ->
  contains pre s = false -> extract ua r s = [].
Proof.
  intros Hneed Hno. unfold extract, split.
  now rewrite (split_from_no_match r pre Hneed).
Qed.

Lemma file_pattern_needs_dashes bol cap s res :
  match_here (file_pattern ua) bol cap s = Some res ->
  starts_with dashes s = true.
Proof.
  intros H. apply match_needs_dashes in H.
  destruct H as (c & s' & -> & _). reflexivity.
Qed.
End QuietText.

(** X28.  Code without file markers is saved whole.  A result of type
    [code_generation] in which neither three dashes, nor two slashes, nor
    a slash followed by a star occur holds no file section of any of the
    three patterns: it is written, after the header, unchanged, to the
    single file [<task_id>_result.py]. *)
Theorem code_without_markers_saved_whole :
  forall unicode_alnum result_text task_id timestamp success,
    Text.contains (Text.lit "---") result_text = false ->
    Text.contains (Text.lit "//") result_text = false ->
    Text.contains (Text.lit "/*") result_text = false ->
    Deliverable.save_formatted_result unicode_alnum result_text task_id
      (Text.lit "code_generation") timestamp success
    = (task_id ++ Text.lit "_result.py",
       [(task_id ++ Text.lit "_result.py",
         Deliverable.code_header task_id timestamp success ++ result_text)]).
Proof.
  intros ua text id ts success Hd Hs Hb.
  change (Text.lit "---") with Deliverable.dashes in Hd.
  change (Text.lit "//") with [47; 47]%N in Hs.
  change (Text.lit "/*") with [47; 42]%N in Hb.
  unfold Deliverable.save_formatted_result.
  change (Text.eqb (Text.lit "code_generation") (Text.lit "code_generation"))
    with true. cbv iota.
  rewrite (extract_nothing ua (Deliverable.file_pattern ua)
             Deliverable.dashes text (file_pattern_needs_dashes ua) Hd).
  cbn [Router.nonempty].
  destruct (section_pattern_head ua) as [r1 E1].
  rewrite (extract_nothing ua (Deliverable.section_pattern ua) [47; 47]%N
             text)
    by (try exact Hs; rewrite E1; intros bol cap s res;
        apply match_needs_two).
  cbn [Router.nonempty].
  destruct (block_pattern_head ua) as [r2 E2].
  rewrite (extract_nothing ua (Deliverable.block_pattern ua) [47; 42]%N
             text)
    by (try exact Hb; rewrite E2; intros bol cap s res;
        apply match_needs_two).
  reflexivity.
Qed.

Lemma code_without_markers_saved_whole_witness :
  Text.contains (Text.lit "---") (Text.lit "print(1)") = false
  /\ Deliverable.save_formatted_result Sample.ascii_only (Text.lit "print(1)")
       (Text.lit "t1") (Text.lit "code_generation") (Text.lit "20250101")
       true
     = (Text.lit "t1" ++ Text.lit "_result.py",
        [(Text.lit "t1" ++ Text.lit "_result.py",
          Deliverable.code_header (Text.lit "t1") (Text.lit "20250101") true
          ++ Text.lit "print(1)")]).
Proof.
  split; [reflexivity|].
  apply code_without_markers_saved_whole; reflexivity.
Defined.

(** ** The pool manager and the task table *)

Section TickFacts.
Variable mint : nat -> string.
Variable now : Z.
Variable exited : string -> bool.

Lemma register_worker_tasks wid s :
  Store.task_master (snd (Store.register_worker now wid s))
  = Store.task_master s
  /\ Store.worker_notifications (snd (Store.register_worker now wid s))
     = Store.worker_notifications s.
Proof.
  unfold Store.register_worker, Store.update_worker_status.
  destruct (_ =? _)%nat; split; reflexivity.
Qed.

Lemma repeat_spawn_tasks n st :
  Store.task_master (Pool.db (Pool.repeat_spawn mint now n st))
  = Store.task_master (Pool.db st)
  /\ Store.worker_notifications (Pool.db (Pool.repeat_spawn mint now n st))
     = Store.worker_notifications (Pool.db st).
Proof.
  revert st. induction n as [|n IH]; intros st; simpl; [now split|].
  destruct (IH (Pool.spawn_worker mint now st)) as [H1 H2].
  rewrite H1, H2. unfold Pool.spawn_worker. cbn [Pool.db].
  apply register_worker_tasks.
Qed.

Lemma shutdown_workers_tasks l st :
  Store.task_master
    (Pool.db (fold_left (fun acc wid => Pool.shutdown_worker now wid acc) l st))
  = Store.task_master (Pool.db st)
  /\ Store.worker_notifications
       (Pool.db (fold_left (fun acc wid => Pool.shutdown_worker now wid acc)
                           l st))
     = Store.worker_notifications (Pool.db st).
Proof.
  revert st. induction l as [|wid l IH]; intros st; simpl; [now split|].
  destruct (IH (Pool.shutdown_worker now wid st)) as [H1 H2].
  rewrite H1, H2. now split.
Qed.

Lemma tick_tasks st :
  Store.task_master (Pool.db (Pool.tick mint now exited st))
  = Store.task_master (Pool.db st)
  /\ Store.worker_notifications (Pool.db (Pool.tick mint now exited st))
     = Store.worker_notifications (Pool.db st).
Proof.
  unfold Pool.tick, Pool.cleanup_dead_workers.
  cbn [Pool.db Store.task_master Store.worker_notifications].
  pose proof (scale_workers_cases mint now st) as Hc. cbv zeta in Hc.
  destruct Hc
    as [(E & _)|[(_ & _ & _ & E)|[(_ & _ & _ & _ & E)|(_ & _ & E)]]];
    rewrite E.
  - now split.
  - unfold Pool.spawn_worker. cbn [Pool.db]. apply register_worker_tasks.
  - apply repeat_spawn_tasks.
  - apply shutdown_workers_tasks.
Qed.
End TickFacts.

(** X29.  The pool manager never writes the task table.  One pass of its
    loop ([scale_workers], then its own [cleanup_dead_workers]) leaves
    [task_master] and the notifications exactly as they were, whatever it
    spawns, stops or marks offline; so does any number of passes, at any
    clock readings and with any processes having exited.  In particular a
    task in progress at a worker whose process has crashed is still in
    progress, assigned to that worker: the manager marks the worker
    offline and releases nothing. *)
Theorem pool_tick_never_touches_tasks :
  forall mint (clock : list (Z * (string -> bool))) st,
    let st' := fold_left (fun acc c => Pool.tick mint (fst c) (snd c) acc)
                         clock st in
    Store.task_master (Pool.db st') = Store.task_master (Pool.db st)
    /\ Store.worker_notifications (Pool.db st')
       = Store.worker_notifications (Pool.db st)
    /\ (forall now exited w,
           In w (Store.workers
                   (Pool.db (Pool.cleanup_dead_workers exited
                               (Pool.scale_workers mint now st)))) ->
           exited (Worker.worker_id w) = true ->
           In (Worker.worker_id w)
              (Pool.workers (Pool.scale_workers mint now st)) ->
           Worker.status w = "offline").
Proof.
  intros mint clock st st'. unfold st'. clear st'. split; [|split].
  - revert st. induction clock as [|c clock IH]; intros st; simpl;
      [reflexivity|].
    rewrite IH. apply tick_tasks.
  - revert st. induction clock as [|c clock IH]; intros st; simpl;
      [reflexivity|].
    rewrite IH. apply tick_tasks.
  - intros now exited w Hw Hex Hknown.
    unfold Pool.cleanup_dead_workers in Hw. cbn [Pool.db Store.workers] in Hw.
    apply update_where_In in Hw.
    destruct Hw as [(r & _ & _ & ->)|[_ Hno]]; [reflexivity|].
    assert (Hyes : existsb (String.eqb (Worker.worker_id w))
                     (filter exited
                        (Pool.workers (Pool.scale_workers mint now st)))
                   = true).
    { apply existsb_exists. exists (Worker.worker_id w).
      split; [|apply String.eqb_refl]. apply filter_In. now split. }
    rewrite Hyes in Hno. discriminate.
Qed.

(** X30.  [update_task_status] (and with it [complete_task]) asks nothing
    of the task but that it exists.  It returns True exactly when the task
    id is in the table; the task [get_task] finds then has the new
    status and [updated_at], the result given, or its previous result when
    none is given, and everything else as before, also [assigned_to]: the
    status and the assignment can disagree afterwards.  Other tasks and
    the worker table, counters included, are untouched; when it returns
    False nothing is written. *)
Theorem update_task_status_unconditional :
  forall now tid st res s,
    let out := Store.update_task_status now tid st res s in
    (fst out = true <-> Store.get_task tid s <> None)
    /\ (forall t, Store.get_task tid s = Some t ->
                  Store.get_task tid (snd out)
                  = Some (Task.mk tid (Task.content t) st (Task.priority t)
                                  (match res with
                                   | Some r => Some r
                                   | None => Task.result t
                                   end)
                                  (Task.created_by t) (Task.assigned_to t)
                                  (Task.created_at t) now))
    /\ (forall other, other <> tid ->
                      Store.get_task other (snd out)
                      = Store.get_task other s)
    /\ (fst out = false -> snd out = s)
    /\ Store.workers (snd out) = Store.workers s
    /\ Store.task_ids (snd out) = Store.task_ids s.
Proof.
  intros now tid st res s out. unfold out, Store.update_task_status.
  cbn [fst snd Store.workers].
  split; [|split; [|split; [|split; [|split]]]].
  - rewrite negb_true_iff. unfold Store.get_task. split.
    + intros H. apply rowcount_witness in H. destruct H as (r & Hr & Hc).
      intros Hnone. pose proof (find_none _ _ Hnone r Hr) as Hn.
      simpl in Hn. congruence.
    + intros H. destruct (find _ (Store.task_master s)) as [r|] eqn:Ef;
        [|congruence].
      apply find_some in Ef. destruct Ef as [Hr Hc].
      eapply rowcount_pos; [exact Hr|exact Hc].
  - intros t Hg. unfold Store.get_task in *. cbn [Store.task_master].
    rewrite get_task_update by reflexivity. rewrite Hg. simpl.
    destruct (get_task_some tid s t Hg) as [_ Hid].
    rewrite (proj2 (String.eqb_eq _ _) Hid).
    unfold Store.set_status. now rewrite Hid.
  - intros other Hother. unfold Store.get_task. cbn [Store.task_master].
    rewrite get_task_update by reflexivity.
    destruct (find _ (Store.task_master s)) as [r|] eqn:Ef; [|reflexivity].
    simpl. apply find_some in Ef. destruct Ef as [_ Ef].
    apply String.eqb_eq in Ef.
    destruct (String.eqb_spec (Task.task_id r) tid); [congruence|reflexivity].
  - rewrite negb_false_iff, Nat.eqb_eq, rowcount_zero. intros H.
    rewrite update_where_none by exact H. now destruct s.
  - reflexivity.
  - unfold Store.task_ids. cbn [Store.task_master].
    now apply update_where_keys.
Qed.
